(** * Alcovia intervention engine: engagement state machine and escalation

    A shallow embedding of
    - [server/src/controllers/studentController.js]: [parseFocusMinutes],
      [dailyCheckin], [assignIntervention], [completeIntervention],
      [reportCheat], [emitStudentStatus];
    - the focus-session part of the mobile client ([App]): [formatTime],
      [handleFocusLoss], [startTimer], [stopTimer], [resetTimer] and the
      one-second tick.

    Conventions of the embedding.
    - A JavaScript number is [NaN], an infinity, or a finite value given
      by the rational it denotes.  Arithmetic on finite values is exact,
      except that a result whose magnitude reaches the binary64 overflow
      threshold becomes an infinity; rounding to 53 bits and the sign of
      zero are not represented.
    - Strings are sequences of 8-bit characters; only ASCII white space
      is trimmed by [Number].
    - [async]/[await] with [try]/[catch] is a state-and-exception monad
      over the data store and an ordered trace of attempted effects. *)

From Stdlib Require Import ZArith QArith Qabs Qround Lqa Ascii DecimalString
  DecimalNat.
From stdpp Require Import gmap strings list.

Local Open Scope string_scope.

(** ** JavaScript numbers *)

Module JS.

Inductive number : Type :=
| NaN
| PInf
| NInf
| Fin (q : Q).

(** Magnitudes at or beyond [2^1024 - 2^970] round to an infinity. *)
Definition overflow_bound : Q := inject_Z (2 ^ 1024 - 2 ^ 970).

Definition mkFin (q : Q) : number :=
  if Qle_bool overflow_bound (Qabs q)
  then (if Qle_bool 0 q then PInf else NInf)
  else Fin (Qred q).

Definition of_Z (z : Z) : number := Fin (inject_Z z).

(** [a + b] *)
Definition add (a b : number) : number :=
  match a, b with
  | NaN, _ | _, NaN => NaN
  | PInf, NInf | NInf, PInf => NaN
  | PInf, _ | _, PInf => PInf
  | NInf, _ | _, NInf => NInf
  | Fin x, Fin y => mkFin (x + y)
  end.

Definition is_neg (q : Q) : bool := negb (Qle_bool 0 q).

(** [a / b]; a zero divisor is taken as [+0]. *)
Definition div (a b : number) : number :=
  match a, b with
  | NaN, _ | _, NaN => NaN
  | (PInf | NInf), (PInf | NInf) => NaN
  | PInf, Fin y => if is_neg y then NInf else PInf
  | NInf, Fin y => if is_neg y then PInf else NInf
  | Fin _, (PInf | NInf) => Fin 0
  | Fin x, Fin y =>
      if Qeq_bool y 0
      then (if Qeq_bool x 0 then NaN else if is_neg x then NInf else PInf)
      else mkFin (x / y)
  end.

(** [a < b]; any comparison with [NaN] is false. *)
Definition ltb (a b : number) : bool :=
  match a, b with
  | NaN, _ | _, NaN => false
  | _, NInf => false
  | NInf, _ => true
  | PInf, _ => false
  | Fin _, PInf => true
  | Fin x, Fin y => negb (Qle_bool y x)
  end.

(** [a > b] *)
Definition gtb (a b : number) : bool := ltb b a.

(** [a >= b] *)
Definition geb (a b : number) : bool :=
  match a, b with
  | NaN, _ | _, NaN => false
  | PInf, _ => true
  | _, NInf => true
  | NInf, _ => false
  | Fin _, PInf => false
  | Fin x, Fin y => Qle_bool y x
  end.

Definition Number_isNaN (a : number) : bool :=
  match a with NaN => true | _ => false end.

Definition Number_isFinite (a : number) : bool :=
  match a with Fin _ => true | _ => false end.

(** [Math.round]: the nearest integer, ties towards [+Infinity]. *)
Definition Math_round (a : number) : number :=
  match a with
  | Fin x => of_Z (Qfloor (x + (1 # 2)))
  | _ => a
  end.

(** *** [Number(string)]: the StringNumericLiteral grammar *)

Definition is_white_space (c : ascii) : bool :=
  let n := nat_of_ascii c in
  (Nat.eqb n 9 || Nat.eqb n 10 || Nat.eqb n 11 || Nat.eqb n 12
   || Nat.eqb n 13 || Nat.eqb n 32)%bool.

Fixpoint trim_start (s : list ascii) : list ascii :=
  match s with
  | c :: s' => if is_white_space c then trim_start s' else s
  | [] => []
  end.

Definition trim (s : list ascii) : list ascii :=
  rev (trim_start (rev (trim_start s))).

(** The value of a digit in the given radix, letters in either case. *)
Definition digit_value (radix : Z) (c : ascii) : option Z :=
  let n := Z.of_nat (nat_of_ascii c) in
  let v :=
    if (48 <=? n)%Z && (n <=? 57)%Z then Some (n - 48)%Z
    else if (97 <=? n)%Z && (n <=? 102)%Z then Some (n - 87)%Z
    else if (65 <=? n)%Z && (n <=? 70)%Z then Some (n - 55)%Z
    else None in
  match v with
  | Some d => if (d <? radix)%Z then Some d else None
  | None => None
  end.

(** The longest prefix of digits of [s], as a value and a digit count,
    and what follows it. *)
Fixpoint digits_from (radix : Z) (acc : Z) (count : nat) (s : list ascii)
  : Z * nat * list ascii :=
  match s with
  | c :: s' =>
      match digit_value radix c with
      | Some d => digits_from radix (acc * radix + d)%Z (S count) s'
      | None => (acc, count, s)
      end
  | [] => (acc, count, [])
  end.

Definition digits (radix : Z) (s : list ascii) : Z * nat * list ascii :=
  digits_from radix 0%Z 0%nat s.

(** [m * 10^e] *)
Definition scale10 (m e : Z) : Q := inject_Z m * Qpower (10 # 1) e.

(** ExponentPart, or nothing: the exponent when the rest is well formed. *)
Definition exponent_part (s : list ascii) : option Z :=
  match s with
  | [] => Some 0%Z
  | c :: s' =>
      if (Ascii.eqb c "e" || Ascii.eqb c "E")%bool then
        let '(neg, s'') :=
          match s' with
          | "-"%char :: t => (true, t)
          | "+"%char :: t => (false, t)
          | _ => (false, s')
          end in
        match digits 10 s'' with
        | (_, O, _) => None
        | (e, _, []) => Some (if neg then (- e)%Z else e)
        | _ => None
        end
      else None
  end.

(** StrUnsignedDecimalLiteral *)
Definition unsigned_decimal (s : list ascii) : option number :=
  if decide (s = String.list_ascii_of_string "Infinity") then Some PInf
  else
    let '(ip, ni, r1) := digits 10 s in
    let '(fp, nf, r2) :=
      match r1 with
      | "."%char :: t => digits 10 t
      | _ => (0%Z, O, r1)
      end in
    if (Nat.eqb ni 0 && Nat.eqb nf 0)%bool then None
    else
      match exponent_part r2 with
      | Some e =>
          Some (mkFin (scale10 (ip * 10 ^ Z.of_nat nf + fp)
                               (e - Z.of_nat nf)))
      | None => None
      end.

Definition neg (a : number) : number :=
  match a with
  | NaN => NaN
  | PInf => NInf
  | NInf => PInf
  | Fin x => Fin (- x)
  end.

(** StrDecimalLiteral: an optional sign and an unsigned literal. *)
Definition decimal_literal (s : list ascii) : option number :=
  match s with
  | "-"%char :: t => neg <$> unsigned_decimal t
  | "+"%char :: t => unsigned_decimal t
  | _ => unsigned_decimal s
  end.

(** NonDecimalIntegerLiteral: [0x], [0o], [0b] and digits, no sign. *)
Definition non_decimal_literal (s : list ascii) : option number :=
  match s with
  | "0"%char :: p :: t =>
      let radix :=
        if (Ascii.eqb p "x" || Ascii.eqb p "X")%bool then Some 16%Z
        else if (Ascii.eqb p "o" || Ascii.eqb p "O")%bool then Some 8%Z
        else if (Ascii.eqb p "b" || Ascii.eqb p "B")%bool then Some 2%Z
        else None in
      match radix with
      | Some r =>
          match digits r t with
          | (_, O, _) => None
          | (v, _, []) => Some (mkFin (inject_Z v))
          | _ => None
          end
      | None => None
      end
  | _ => None
  end.

(** [Number(s)] for a string [s]. *)
Definition Number (s : string) : number :=
  let t := trim (String.list_ascii_of_string s) in
  match t with
  | [] => Fin 0
  | _ =>
      match non_decimal_literal t with
      | Some n => n
      | None => default NaN (decimal_literal t)
      end
  end.

(** [s.split(sep)] for a one-character separator. *)
Fixpoint split (sep : ascii) (s : string) : list string :=
  match s with
  | EmptyString => [EmptyString]
  | String c s' =>
      if Ascii.eqb c sep then EmptyString :: split sep s'
      else
        match split sep s' with
        | h :: t => String c h :: t
        | [] => [String c EmptyString]
        end
  end.

(** A string made of decimal digits only. *)
Definition is_decimal_digit (c : ascii) : bool :=
  match digit_value 10 c with
  | Some _ => true
  | None => false
  end.

Definition decimal_digits (s : string) : Prop :=
  Forall (λ c, is_decimal_digit c = true) (String.list_ascii_of_string s).

(** *** Values of a JSON request body *)

Inductive value : Type :=
| Undefined
| Null
| Bool (b : bool)
| Num (n : number)
| Str (s : string).

(** ToNumber *)
Definition ToNumber (v : value) : number :=
  match v with
  | Undefined => NaN
  | Null => Fin 0
  | Bool b => if b then Fin 1 else Fin 0
  | Num n => n
  | Str s => Number s
  end.

(** [v > n] for a number [n]: both sides are converted to numbers. *)
Definition gt_number (v : value) (n : number) : bool := gtb (ToNumber v) n.

End JS.

(** ** The server: [studentController.js] *)

Module Server.
Import JS.

(** A parsed JSON request body.  The fields the handlers inspect
    dynamically ([typeof], [=== undefined], [>]) are JavaScript values;
    identifiers and texts have the types of the HTTP interface, [None]
    for an absent key. *)
Record body : Type := {
  student_id : option string;
  quiz_score : value;
  focus_minutes : value;
  focus_duration : value;
  reason : option string;
  task_description : option string;
  intervention_id : option Z
}.

(** *** [parseFocusMinutes] *)

(** [typeof body.focus_minutes === 'number' && Number.isFinite(...)] *)
Definition finite_focus_minutes (b : body) : option number :=
  match focus_minutes b with
  | Num n => if Number_isFinite n then Some n else None
  | _ => None
  end.

(** The [parts.length === 2] branch on [focus_duration.split(':')]. *)
Definition minutes_seconds (focus_duration : string) : option number :=
  match split ":" focus_duration with
  | [part0; part1] =>
      let minutes := Number part0 in
      let seconds := Number part1 in
      if (negb (Number_isNaN minutes) && negb (Number_isNaN seconds))%bool
      then Some (add minutes (div seconds (Fin 60)))
      else None
  | _ => None
  end.

(** [Number(body.focus_duration)] when it is not [NaN]. *)
Definition bare_number (focus_duration : string) : option number :=
  let numeric := Number focus_duration in
  if negb (Number_isNaN numeric) then Some numeric else None.

Definition parseFocusMinutes (b : body) : number :=
  match finite_focus_minutes b with
  | Some n => n
  | None =>
      match focus_duration b with
      | Str s =>
          match minutes_seconds s with
          | Some n => n
          | None =>
              match bare_number s with
              | Some n => n
              | None => Fin 0
              end
          end
      | _ => Fin 0
      end
  end.

(** *** The data store *)

Record student : Type := {
  status : string;
  updated_at : Z
}.

Record daily_log : Type := {
  log_student_id : string;
  log_quiz_score : value;
  log_focus_minutes : number;
  log_status : string
}.

Record intervention : Type := {
  id : Z;
  int_student_id : string;
  int_task_description : string;
  int_status : string;
  assigned_at : Z;
  completed_at : option Z
}.

Record store : Type := {
  students : gmap string student;
  daily_logs : list daily_log;
  interventions : list intervention;
  next_intervention_id : Z
}.

(** The four statements the handlers send through [runQuery], with
    their parameters. *)
Inductive sql : Type :=
| InsertDailyLog (sid : string) (score : value) (focus : number)
                 (st : string)
| UpdateStudentStatus (st : string) (sid : string)
| InsertIntervention (sid : string) (task : string)
| UpdateIntervention (st : string) (iid : Z) (sid : string).

(** The row of [RETURNING id, task_description, status]. *)
Record returned_row : Type := {
  row_id : Z;
  row_task_description : string;
  row_status : string
}.

Record result : Type := {
  rows : list returned_row;
  rowCount : nat
}.

Definition set_status (st : string) (now : Z) (s : student) : student :=
  {| status := st; updated_at := now |}.

Definition matches (iid : Z) (sid : string) (i : intervention) : bool :=
  (Z.eqb (id i) iid && String.eqb (int_student_id i) sid)%bool.

Definition set_completed (st : string) (now : Z) (iid : Z) (sid : string)
  (i : intervention) : intervention :=
  if matches iid sid i
  then {| id := id i; int_student_id := int_student_id i;
          int_task_description := int_task_description i;
          int_status := st; assigned_at := assigned_at i;
          completed_at := Some now |}
  else i.

(** Modelled from the spec: the relational store behind
    [config/database] and its schema are not part of the sources.  The
    statements act as their SQL text says on three tables; a new
    intervention gets the next serial [id], status [pending], the
    current time as [assigned_at] and no [completed_at].  What makes the
    store reject a statement (a constraint, a value it cannot take, an
    outage) is left to [query_fails] below. *)
Definition exec (now : Z) (q : sql) (db : store) : store * result :=
  match q with
  | InsertDailyLog sid score focus st =>
      ({| students := students db;
          daily_logs := daily_logs db ++
            [{| log_student_id := sid; log_quiz_score := score;
                log_focus_minutes := focus; log_status := st |}];
          interventions := interventions db;
          next_intervention_id := next_intervention_id db |},
       {| rows := []; rowCount := 1 |})
  | UpdateStudentStatus st sid =>
      ({| students := alter (set_status st now) sid (students db);
          daily_logs := daily_logs db;
          interventions := interventions db;
          next_intervention_id := next_intervention_id db |},
       {| rows := [];
          rowCount := match students db !! sid with
                      | Some _ => 1
                      | None => 0
                      end |})
  | InsertIntervention sid task =>
      let iid := next_intervention_id db in
      ({| students := students db;
          daily_logs := daily_logs db;
          interventions := interventions db ++
            [{| id := iid; int_student_id := sid;
                int_task_description := task; int_status := "pending";
                assigned_at := now; completed_at := None |}];
          next_intervention_id := (iid + 1)%Z |},
       {| rows := [{| row_id := iid; row_task_description := task;
                      row_status := "pending" |}];
          rowCount := 1 |})
  | UpdateIntervention st iid sid =>
      ({| students := students db;
          daily_logs := daily_logs db;
          interventions :=
            set_completed st now iid sid <$> interventions db;
          next_intervention_id := next_intervention_id db |},
       {| rows := [];
          rowCount := length (filter (λ i, matches iid sid i = true)
                                     (interventions db)) |})
  end.

(** *** Effects *)

(** The object handed to [emitStudentStatus]. *)
Record payload : Type := {
  p_status : string;
  p_intervention : option returned_row;
  p_focus_minutes : option number
}.

(** What a request attempts, in order. *)
Inductive event : Type :=
| Query (q : sql) (ok : bool)
| Notify (sid : string) (score : value) (focus : number)
| Emit (sid : string) (p : payload).

(** Modelled from the spec: [services/notificationService] is not part
    of the sources.  A call resolves to an object with optional
    [skipped] and [message], or to nothing, or it raises. *)
Record notify_result : Type := {
  skipped : bool;
  message : option string
}.

Inductive notify_outcome : Type :=
| Resolves (r : option notify_result)
| Raises.

(** What the surroundings decide during one request: the clock of
    [NOW()], which of the queries (counted from 0) the store rejects,
    and how the notification transport answers. *)
Record env : Type := {
  now : Z;
  query_fails : nat → bool;
  notification : notify_outcome
}.

Record world : Type := {
  db : store;
  trace : list event;
  issued : nat
}.

Inductive outcome (A : Type) : Type :=
| Return (a : A)
| Throw.
Arguments Return {A} a.
Arguments Throw {A}.

Definition M (A : Type) : Type := world → outcome A * world.

Definition ret {A} (a : A) : M A := λ w, (Return a, w).

Definition bind {A B} (m : M A) (k : A → M B) : M B :=
  λ w, match m w with
       | (Return a, w') => k a w'
       | (Throw, w') => (Throw, w')
       end.

(** [try { m } catch (err) { h }] *)
Definition try_catch {A} (m : M A) (h : M A) : M A :=
  λ w, match m w with
       | (Return a, w') => (Return a, w')
       | (Throw, w') => h w'
       end.

Notation "x <- m ;; k" := (bind m (λ x, k))
  (at level 100, m at next level, k at level 200, right associativity).
Notation "m ;;; k" := (bind m (λ _, k))
  (at level 100, k at level 200, right associativity).

Definition log_event (ev : event) (w : world) : world :=
  {| db := db w; trace := trace w ++ [ev]; issued := issued w |}.

Definition runQuery (e : env) (q : sql) : M result :=
  λ w,
    if query_fails e (issued w)
    then (Throw,
          {| db := db w; trace := trace w ++ [Query q false];
             issued := S (issued w) |})
    else
      let '(db', r) := exec (now e) q (db w) in
      (Return r,
       {| db := db'; trace := trace w ++ [Query q true];
          issued := S (issued w) |}).

Definition triggerMentorNotification (e : env) (sid : string)
  (score : value) (focus : number) : M (option notify_result) :=
  λ w,
    match notification e with
    | Resolves r => (Return r, log_event (Notify sid score focus) w)
    | Raises => (Throw, log_event (Notify sid score focus) w)
    end.

(** Socket.io is disabled: the payload is only logged. *)
Definition emitStudentStatus (sid : string) (p : payload) : M unit :=
  λ w, (Return tt, log_event (Emit sid p) w).

(** *** Responses *)

Inductive json : Type :=
| ErrorBody (error : string)
| StatusBody (status : string) (warning : option string)
| AssignedBody (intervention_id : Z)
| SuccessBody.

Record response : Type := {
  code : nat;
  json_body : json
}.

Definition respond (c : nat) (j : json) : M response :=
  ret {| code := c; json_body := j |}.

(** The guards [!x]: an optional text passes when it is present and not
    empty, an optional identifier when it is present and not [0]. *)
Definition present (x : option string) : option string :=
  match x with
  | Some s => if String.eqb s "" then None else Some s
  | None => None
  end.

Definition present_id (x : option Z) : option Z :=
  match x with
  | Some z => if Z.eqb z 0 then None else Some z
  | None => None
  end.

Definition throw {A} : M A := λ w, (Throw, w).

(** [x || d] for an optional text. *)
Definition or_else (x : option string) (d : string) : string :=
  match x with
  | Some s => if String.eqb s "" then d else s
  | None => d
  end.

Definition is_undefined (v : value) : bool :=
  match v with Undefined => true | _ => false end.

Definition status_payload (st : string) : payload :=
  {| p_status := st; p_intervention := None; p_focus_minutes := None |}.

(** [notifyResult?.skipped] *)
Definition is_skipped (r : option notify_result) : bool :=
  match r with
  | Some r => skipped r
  | None => false
  end.

(** *** [dailyCheckin] *)

Definition isSuccess (quizScore : value) (focusMinutes : number) : bool :=
  (gt_number quizScore (Fin 7) && gtb focusMinutes (Fin 60))%bool.

Definition dailyCheckin (e : env) (b : body) : M response :=
  let quizScore := quiz_score b in
  let focusMinutes := parseFocusMinutes b in
  match present (student_id b) with
  | None => respond 400 (ErrorBody "Missing required fields")
  | Some studentId =>
    if is_undefined quizScore
    then respond 400 (ErrorBody "Missing required fields")
    else
      let isSuccess := isSuccess quizScore focusMinutes in
      let responseStatus :=
        if isSuccess then "On Track" else "Pending Mentor Review" in
      let dbStatus :=
        if isSuccess then "on_track" else "needs_intervention" in
      try_catch
        (runQuery e (InsertDailyLog studentId quizScore
                       (Math_round focusMinutes) dbStatus) ;;;
         if isSuccess then
           runQuery e (UpdateStudentStatus "normal" studentId) ;;;
           emitStudentStatus studentId (status_payload "normal") ;;;
           respond 200 (StatusBody responseStatus None)
         else
           runQuery e (UpdateStudentStatus "needs_intervention" studentId) ;;;
           try_catch
             (notifyResult <-
                triggerMentorNotification e studentId quizScore focusMinutes ;;
              emitStudentStatus studentId
                (status_payload "needs_intervention") ;;;
              if is_skipped notifyResult then
                respond 200
                  (StatusBody responseStatus
                     (Some (or_else (notifyResult ≫= message)
                                    "Notification skipped")))
              else respond 200 (StatusBody responseStatus None))
             (emitStudentStatus studentId
                (status_payload "needs_intervention") ;;;
              respond 200
                (StatusBody responseStatus
                   (Some "Notification may have failed"))))
        (respond 500 (ErrorBody "Failed to process daily check-in"))
  end.

(** *** [assignIntervention] *)

Definition assignIntervention (e : env) (b : body) : M response :=
  match present (student_id b), present (task_description b) with
  | Some studentId, Some taskDescription =>
      try_catch
        (insertResult <-
           runQuery e (InsertIntervention studentId taskDescription) ;;
         runQuery e (UpdateStudentStatus "remedial" studentId) ;;;
         let intervention := head (rows insertResult) in
         emitStudentStatus studentId
           {| p_status := "remedial"; p_intervention := intervention;
              p_focus_minutes := None |} ;;;
         match intervention with
         | Some i => respond 200 (AssignedBody (row_id i))
         | None => throw
         end)
        (respond 500 (ErrorBody "Failed to assign intervention"))
  | _, _ => respond 400 (ErrorBody "Missing required fields")
  end.

(** *** [completeIntervention] *)

Definition completeIntervention (e : env) (b : body) : M response :=
  let focusMinutes := parseFocusMinutes b in
  match present (student_id b), present_id (intervention_id b) with
  | Some studentId, Some interventionId =>
      try_catch
        (updateResult <-
           runQuery e (UpdateIntervention "completed" interventionId
                         studentId) ;;
         if Nat.eqb (rowCount updateResult) 0
         then respond 404 (ErrorBody "Intervention not found")
         else
           runQuery e (UpdateStudentStatus "normal" studentId) ;;;
           emitStudentStatus studentId
             {| p_status := "normal"; p_intervention := None;
                p_focus_minutes := Some focusMinutes |} ;;;
           respond 200 SuccessBody)
        (respond 500 (ErrorBody "Failed to complete intervention"))
  | _, _ => respond 400 (ErrorBody "Missing required fields")
  end.

(** *** [reportCheat] *)

Definition reportCheat (e : env) (b : body) : M response :=
  let focusMinutes := parseFocusMinutes b in
  match present (student_id b) with
  | None => respond 400 (ErrorBody "Missing required fields")
  | Some studentId =>
      let statusReason := or_else (reason b) "cheated" in
      try_catch
        (runQuery e (InsertDailyLog studentId (Num (Fin 0))
                       (Math_round focusMinutes) statusReason) ;;;
         runQuery e (UpdateStudentStatus "needs_intervention" studentId) ;;;
         try_catch
           (notifyResult <-
              triggerMentorNotification e studentId (Num (Fin 0))
                focusMinutes ;;
            emitStudentStatus studentId
              {| p_status := "needs_intervention"; p_intervention := None;
                 p_focus_minutes := Some focusMinutes |} ;;;
            if is_skipped notifyResult then
              respond 200
                (StatusBody "Logged cheat (notification skipped)"
                   (notifyResult ≫= message))
            else
              respond 200
                (StatusBody "Logged cheat and notified mentor" None))
           (emitStudentStatus studentId
              (status_payload "needs_intervention") ;;;
            respond 200
              (StatusBody "Logged cheat (notification may have failed)"
                 None)))
        (respond 500 (ErrorBody "Failed to log cheat"))
  end.

(** *** Running requests *)

(** One request against a store: the response, the store afterwards
    and the effects attempted, in order. *)
Definition handle (h : M response) (s : store)
  : outcome response * store * list event :=
  let '(r, w) := h {| db := s; trace := []; issued := 0 |} in
  (r, db w, trace w).

Definition response_of (h : M response) (s : store) : outcome response :=
  (handle h s).1.1.

Definition store_after (h : M response) (s : store) : store :=
  (handle h s).1.2.

Definition effects_of (h : M response) (s : store) : list event :=
  (handle h s).2.

(** The four state-changing endpoints. *)
Inductive request : Type :=
| DailyCheckin (b : body)
| ReportCheat (b : body)
| AssignIntervention (b : body)
| CompleteIntervention (b : body).

Definition serve (e : env) (r : request) : M response :=
  match r with
  | DailyCheckin b => dailyCheckin e b
  | ReportCheat b => reportCheat e b
  | AssignIntervention b => assignIntervention e b
  | CompleteIntervention b => completeIntervention e b
  end.

(** Requests served one after the other, each in its own surroundings. *)
Definition serve_all (rs : list (env * request)) (s : store) : store :=
  foldl (λ s er, store_after (serve er.1 er.2) s) s rs.

(** *** Vocabulary of the properties *)

Definition student_state (s : store) (sid : string) : option string :=
  status <$> students s !! sid.

Definition valid_state (st : string) : Prop :=
  st = "normal" ∨ st = "needs_intervention" ∨ st = "remedial".

Definition non_negative (n : number) : Prop := geb n (Fin 0) = true.

(** No number that the normalizer reads from the body is negative: the
    finite [focus_minutes], the components of [focus_duration] between
    colons, the whole of [focus_duration]. *)
Definition reads_no_negative (b : body) : Prop :=
  (∀ q, focus_minutes b = Num (Fin q) → (0 <= q)%Q) ∧
  (∀ s, focus_duration b = Str s →
        ltb (Number s) (Fin 0) = false ∧
        ∀ part, part ∈ split ":" s → ltb (Number part) (Fin 0) = false).

Definition is_log_insert (ev : event) : bool :=
  match ev with
  | Query (InsertDailyLog _ _ _ _) _ => true
  | _ => false
  end.

Definition is_notify (ev : event) : bool :=
  match ev with
  | Notify _ _ _ => true
  | _ => false
  end.

(** The store after a statement that the store accepted. *)
Definition apply_sql (now : Z) (q : sql) (s : store) : store :=
  (exec now q s).1.

(** The statement that logs a check-in. *)
Definition checkin_log (sid : string) (b : body) : sql :=
  InsertDailyLog sid (quiz_score b) (Math_round (parseFocusMinutes b))
    (if isSuccess (quiz_score b) (parseFocusMinutes b)
     then "on_track" else "needs_intervention").

(** The statement that logs a violation report. *)
Definition cheat_log (sid : string) (b : body) : sql :=
  InsertDailyLog sid (Num (Fin 0)) (Math_round (parseFocusMinutes b))
    (or_else (reason b) "cheated").

Definition ok (j : json) : outcome response :=
  Return {| code := 200; json_body := j |}.

Definition failed (c : nat) (msg : string) : outcome response :=
  Return {| code := c; json_body := ErrorBody msg |}.

(** [m] keeps the property [I] of the store, however it ends. *)
Definition preserves {A} (I : store → Prop) (m : M A) : Prop :=
  ∀ w, I (db w) → I (db (m w).2).

(** The student [sid] exists and is in one of the three states. *)
Definition state_ok (sid : string) (s : store) : Prop :=
  ∃ st, student_state s sid = Some st ∧ valid_state st.

(** A body with nothing but [focus_duration]. *)
Definition duration_only (s : string) : body :=
  {| student_id := None; quiz_score := Undefined;
     focus_minutes := Undefined; focus_duration := Str s;
     reason := None; task_description := None; intervention_id := None |}.

(** A body with nothing but a numeric [focus_minutes]. *)
Definition minutes_only (n : number) : body :=
  {| student_id := None; quiz_score := Undefined;
     focus_minutes := Num n; focus_duration := Undefined;
     reason := None; task_description := None; intervention_id := None |}.

End Server.

(** ** The client's focus session: [App] *)

Module Client.
Import JS.

(** [String(n)] for a non-negative integer. *)
Definition String_of_nat (n : nat) : string :=
  DecimalString.NilZero.string_of_uint (Nat.to_uint n).

Fixpoint repeat_char (c : ascii) (n : nat) : string :=
  match n with
  | O => EmptyString
  | S n' => String c (repeat_char c n')
  end.

(** [s.padStart(len, c)] for a one-character filler. *)
Definition padStart (len : nat) (c : ascii) (s : string) : string :=
  String.app (repeat_char c (len - String.length s)) s.

Definition formatTime (seconds : nat) : string :=
  let mins := seconds / 60 in
  let secs := seconds mod 60 in
  String.app (padStart 2 "0" (String_of_nat mins))
    (String.app ":" (padStart 2 "0" (String_of_nat secs))).

Definition STUDENT_ID : string := "student 123".

(** The component's state variables and refs that the focus session
    uses, and the bodies posted to [/report-cheat] so far (oldest
    first).  An activity-log entry is kept as its message. *)
Record app : Type := {
  studentStatus : string;
  intervention : option Server.returned_row;
  isTimerRunning : bool;
  focusSeconds : nat;
  activityLog : list string;
  focusViolation : bool;
  isTimerRunningRef : bool;
  focusSecondsRef : nat;
  posted : list Server.body
}.

Definition addActivityLog (msg : string) (log : list string) : list string :=
  take 25 (msg :: log).

(** The request body of [reportCheat(reason)]. *)
Definition reportCheat (reason : string) (a : app) : Server.body :=
  let focusDuration := formatTime (focusSecondsRef a) in
  {| Server.student_id := Some STUDENT_ID;
     Server.quiz_score := Undefined;
     Server.focus_minutes := Undefined;
     Server.focus_duration := Str focusDuration;
     Server.reason := Some reason;
     Server.task_description := None;
     Server.intervention_id := None |}.

Definition handleFocusLoss (reason : string) (a : app) : app :=
  if negb (isTimerRunningRef a) then a
  else
    {| studentStatus := "needs_intervention";
       intervention := None;
       isTimerRunning := false;
       focusSeconds := focusSeconds a;
       activityLog :=
         addActivityLog "Focus session interrupted" (activityLog a);
       focusViolation := true;
       isTimerRunningRef := false;
       focusSecondsRef := focusSecondsRef a;
       posted := posted a ++ [reportCheat reason a] |}.

Definition startTimer (a : app) : app :=
  {| studentStatus := studentStatus a;
     intervention := intervention a;
     isTimerRunning := true;
     focusSeconds := focusSeconds a;
     activityLog := addActivityLog "Focus session started" (activityLog a);
     focusViolation := false;
     isTimerRunningRef := true;
     focusSecondsRef := focusSecondsRef a;
     posted := posted a |}.

Definition stopTimer (a : app) : app :=
  {| studentStatus := studentStatus a;
     intervention := intervention a;
     isTimerRunning := false;
     focusSeconds := focusSeconds a;
     activityLog :=
       addActivityLog
         (String.app "Focus session stopped at "
                     (formatTime (focusSecondsRef a)))
         (activityLog a);
     focusViolation := focusViolation a;
     isTimerRunningRef := false;
     focusSecondsRef := focusSecondsRef a;
     posted := posted a |}.

Definition resetTimer (a : app) : app :=
  {| studentStatus := studentStatus a;
     intervention := intervention a;
     isTimerRunning := false;
     focusSeconds := 0;
     activityLog := addActivityLog "Timer reset" (activityLog a);
     focusViolation := false;
     isTimerRunningRef := false;
     focusSecondsRef := 0;
     posted := posted a |}.

(** The interval callback; the interval exists while [isTimerRunning]. *)
Definition tick (a : app) : app :=
  if isTimerRunning a then
    {| studentStatus := studentStatus a;
       intervention := intervention a;
       isTimerRunning := isTimerRunning a;
       focusSeconds := focusSeconds a + 1;
       activityLog := activityLog a;
       focusViolation := focusViolation a;
       isTimerRunningRef := isTimerRunningRef a;
       focusSecondsRef := focusSecondsRef a + 1;
       posted := posted a |}
  else a.

(** What can happen to the session: the three buttons, a timer tick and
    a focus-loss signal of the platform with its reason. *)
Inductive action : Type :=
| Start
| Stop
| Reset
| Tick
| FocusLoss (reason : string).

Definition step (a : app) (x : action) : app :=
  match x with
  | Start => startTimer a
  | Stop => stopTimer a
  | Reset => resetTimer a
  | Tick => tick a
  | FocusLoss reason => handleFocusLoss reason a
  end.

Definition run (xs : list action) (a : app) : app := foldl step a xs.

Definition is_start (x : action) : bool :=
  match x with Start => true | _ => false end.

(** The state of a freshly mounted component. *)
Definition initial : app :=
  {| studentStatus := "normal"; intervention := None;
     isTimerRunning := false; focusSeconds := 0; activityLog := [];
     focusViolation := false; isTimerRunningRef := false;
     focusSecondsRef := 0; posted := [] |}.

End Client.

(** ** Concrete surroundings, stores and requests *)

Module Scenario.
Import JS Server.

(** The store accepts every query and the mentor is notified. *)
Definition calm : env :=
  {| now := 100; query_fails := λ _, false;
     notification := Resolves (Some {| skipped := false; message := None |}) |}.

(** The store accepts every query and the notification transport
    raises. *)
Definition transport_down : env :=
  {| now := 100; query_fails := λ _, false; notification := Raises |}.

(** One student, ["s1"], in the given state; nothing logged, nothing
    assigned. *)
Definition classroom (st : string) : store :=
  {| students := {[ "s1" := {| status := st; updated_at := 0 |} ]};
     daily_logs := []; interventions := [];
     next_intervention_id := 1 |}.

(** The body of a check-in with a numeric score and numeric minutes. *)
Definition checkin (sid : string) (score minutes : Q) : body :=
  {| student_id := Some sid; quiz_score := Num (Fin score);
     focus_minutes := Num (Fin minutes); focus_duration := Undefined;
     reason := None; task_description := None; intervention_id := None |}.

(** The body of a violation report as the client builds it. *)
Definition report (sid duration why : string) : body :=
  {| student_id := Some sid; quiz_score := Undefined;
     focus_minutes := Undefined; focus_duration := Str duration;
     reason := Some why; task_description := None;
     intervention_id := None |}.

Definition assign (sid task : string) : body :=
  {| student_id := Some sid; quiz_score := Undefined;
     focus_minutes := Undefined; focus_duration := Undefined;
     reason := None; task_description := Some task;
     intervention_id := None |}.

Definition complete (sid : string) (iid : Z) : body :=
  {| student_id := Some sid; quiz_score := Undefined;
     focus_minutes := Undefined; focus_duration := Undefined;
     reason := None; task_description := None;
     intervention_id := Some iid |}.

(** Student ["s1"] awaits a mentor again after the one intervention,
    number 1, was completed at time 50. *)
Definition after_completion : store :=
  {| students :=
       {[ "s1" := {| status := "needs_intervention"; updated_at := 60 |} ]};
     daily_logs := [];
     interventions :=
       [{| id := 1; int_student_id := "s1";
           int_task_description := "Revise chapter 3";
           int_status := "completed"; assigned_at := 10;
           completed_at := Some 50%Z |}];
     next_intervention_id := 2 |}.

End Scenario.

(** ** The status endpoint: [getQuery], [getStudentStatus] *)

Module Status.
Import JS Server.

(** [WHERE student_id = $1 AND status = $2] *)
Definition of_student (sid st : string) (i : intervention) : bool :=
  (String.eqb (int_student_id i) sid && String.eqb (int_status i) st)%bool.

(** [ORDER BY assigned_at DESC LIMIT 1]: a row with the greatest
    [assigned_at]; among equals, which SQL leaves open, the first in
    table order. *)
Fixpoint latest (l : list intervention) : option intervention :=
  match l with
  | [] => None
  | i :: l' =>
      match latest l' with
      | Some j => if (assigned_at i <? assigned_at j)%Z then Some j
                  else Some i
      | None => Some i
      end
  end.

(** Modelled from the spec: the rows the store of [config/database]
    returns for the two [SELECT] statements of [getStudentStatus], as
    their SQL text says. *)
Definition select_student (sid : string) (s : store)
  : list (string * student) :=
  match students s !! sid with
  | Some stu => [(sid, stu)]
  | None => []
  end.

Definition select_latest_intervention (sid st : string) (s : store)
  : list intervention :=
  match latest (filter (λ i, of_student sid st i = true)
                       (interventions s)) with
  | Some i => [i]
  | None => []
  end.

(** [getQuery]: the first row or [null].  A read counts among the
    queries of the request, so the store can reject it; it changes
    neither the store nor the trace of attempted effects. *)
Definition getQuery {R : Type} (e : env) (rows : store → list R)
  : M (option R) :=
  λ w,
    let w' := {| db := db w; trace := trace w; issued := S (issued w) |} in
    if query_fails e (issued w) then (Throw, w')
    else (Return (head (rows (db w))), w').

Inductive status_json : Type :=
| StudentStatus (student : string * Server.student)
                (intervention : option Server.intervention)
| StatusError (error : string).

Record status_response : Type := {
  status_code : nat;
  status_body : status_json
}.

Definition getStudentStatus (e : env) (studentId : string)
  : M status_response :=
  try_catch
    (student <- getQuery e (select_student studentId) ;;
     match student with
     | None =>
         ret {| status_code := 404;
                status_body := StatusError "Student not found" |}
     | Some student =>
         intervention <-
           getQuery e (select_latest_intervention studentId "pending") ;;
         ret {| status_code := 200;
                status_body := StudentStatus student intervention |}
     end)
    (ret {| status_code := 500;
            status_body := StatusError "Database error" |}).

(** The answer to [GET /student/:id/status] on a store, and the world
    after it. *)
Definition status_of (e : env) (studentId : string) (s : store)
  : outcome status_response :=
  (getStudentStatus e studentId {| db := s; trace := []; issued := 0 |}).1.

Definition world_after_status (e : env) (studentId : string) (s : store)
  : world :=
  (getStudentStatus e studentId {| db := s; trace := []; issued := 0 |}).2.

(** The pending interventions of a student. *)
Definition pending_of (sid : string) (s : store) : list intervention :=
  filter (λ i, of_student sid "pending" i = true) (interventions s).

End Status.

(** ** Vocabulary for the requests as a whole *)

Module Protocol.
Import JS Server.

(** A text field that [!x] rejects: absent or empty. *)
Definition blank (x : option string) : Prop := x = None ∨ x = Some "".

(** The request lacks a field that its handler requires. *)
Definition missing_fields (r : request) : Prop :=
  match r with
  | DailyCheckin b => blank (student_id b) ∨ quiz_score b = Undefined
  | ReportCheat b => blank (student_id b)
  | AssignIntervention b =>
      blank (student_id b) ∨ blank (task_description b)
  | CompleteIntervention b =>
      blank (student_id b) ∨ intervention_id b = None ∨
      intervention_id b = Some 0%Z
  end.

Definition code_of (o : outcome response) : option nat :=
  match o with
  | Return r => Some (code r)
  | Throw => None
  end.

(** The statements with the literals that the handlers pass. *)
Definition handler_statement (q : sql) : Prop :=
  match q with
  | UpdateStudentStatus st _ => valid_state st
  | UpdateIntervention st _ _ => st = "completed"
  | _ => True
  end.

(** What a later version of an intervention row keeps: its identity,
    student, task and assignment time, and that it was completed. *)
Definition evolves (i i' : intervention) : Prop :=
  id i' = id i ∧ int_student_id i' = int_student_id i ∧
  int_task_description i' = int_task_description i ∧
  assigned_at i' = assigned_at i ∧
  (int_status i = "completed" → int_status i' = "completed").

(** A finite number lies below the overflow threshold. *)
Definition in_range (n : number) : Prop :=
  match n with
  | Fin q => (Qabs q < overflow_bound)%Q
  | _ => True
  end.

(** Opposite infinities, whose sum is [NaN]. *)
Definition opposite_infinities (a b : number) : Prop :=
  (a = PInf ∧ b = NInf) ∨ (a = NInf ∧ b = PInf).

End Protocol.

(** ** The client's check-in form: [submitDailyCheckin] *)

Module CheckinForm.
Import JS.

(** [s.trim()] *)
Definition String_trim (s : string) : string :=
  String.string_of_list_ascii (trim (String.list_ascii_of_string s)).

(** The body that [submitDailyCheckin] posts to [/daily-checkin] for
    the text of the score field, or nothing when the score is refused
    with the alert ["Invalid score"]. *)
Definition submitDailyCheckin (quizScore : string) (a : Client.app)
  : option Server.body :=
  let trimmedScore := String_trim quizScore in
  let parsedScore := Number trimmedScore in
  if (String.eqb trimmedScore "" || Number_isNaN parsedScore
      || ltb parsedScore (Fin 1) || gtb parsedScore (Fin 10))%bool
  then None
  else
    let focusDuration := Client.formatTime (Client.focusSecondsRef a) in
    Some {| Server.student_id := Some Client.STUDENT_ID;
            Server.quiz_score := Num parsedScore;
            Server.focus_minutes := Undefined;
            Server.focus_duration := Str focusDuration;
            Server.reason := None;
            Server.task_description := None;
            Server.intervention_id := None |}.

End CheckinForm.

(** ** The serverless entry point: [ensureServer], [handler] *)

Module Entry.

(** The module variables [bootstrapPromise] and [server], with counts
    of what was called and the requests handed to the server, oldest
    first.  A promise is kept by how it settled: fulfilled ([true]) or
    rejected. *)
Record runtime : Type := {
  bootstrapPromise : option bool;
  server : bool;
  bootstrap_calls : nat;
  servers_created : nat;
  forwarded : list nat
}.

Definition cold : runtime :=
  {| bootstrapPromise := None; server := false; bootstrap_calls := 0;
     servers_created := 0; forwarded := [] |}.

(** [ensureServer]; [bootstrap_ok k] tells whether the call number [k]
    of [bootstrap()] succeeds.  The result is whether the server was
    obtained, [false] standing for the rejection of the awaited
    promise. *)
Definition ensureServer (bootstrap_ok : nat → bool) (rt : runtime)
  : bool * runtime :=
  let rt1 :=
    match bootstrapPromise rt with
    | None =>
        {| bootstrapPromise := Some (bootstrap_ok (bootstrap_calls rt));
           server := server rt;
           bootstrap_calls := S (bootstrap_calls rt);
           servers_created := servers_created rt;
           forwarded := forwarded rt |}
    | Some _ => rt
    end in
  match bootstrapPromise rt1 with
  | Some true =>
      if server rt1 then (true, rt1)
      else
        (true,
         {| bootstrapPromise := bootstrapPromise rt1;
            server := true;
            bootstrap_calls := bootstrap_calls rt1;
            servers_created := S (servers_created rt1);
            forwarded := forwarded rt1 |})
  | _ => (false, rt1)
  end.

(** [handler(req, res)] for the request number [req]: the request is
    emitted to the server once [ensureServer] has given it. *)
Definition handler (bootstrap_ok : nat → bool) (rt : runtime) (req : nat)
  : runtime :=
  let '(obtained, rt') := ensureServer bootstrap_ok rt in
  if obtained then
    {| bootstrapPromise := bootstrapPromise rt';
       server := server rt';
       bootstrap_calls := bootstrap_calls rt';
       servers_created := servers_created rt';
       forwarded := forwarded rt' ++ [req] |}
  else rt'.

(** Requests handled one after the other. *)
Definition handle_all (bootstrap_ok : nat → bool) (reqs : list nat)
  (rt : runtime) : runtime :=
  foldl (handler bootstrap_ok) rt reqs.

End Entry.

(** ** Vocabulary for the focus session *)

Module Session.

Definition is_tick (x : Client.action) : bool :=
  match x with Client.Tick => true | _ => false end.

Definition is_reset (x : Client.action) : bool :=
  match x with Client.Reset => true | _ => false end.

(** How many of the actions satisfy [f]. *)
Definition count (f : Client.action → bool) (xs : list Client.action) : nat :=
  length (filter (λ x, f x = true) xs).

(** A body of the shape that the client's [reportCheat] posts. *)
Definition client_report (b : Server.body) : Prop :=
  ∃ reason n,
    b = Scenario.report Client.STUDENT_ID (Client.formatTime n) reason.

End Session.

(** * Properties *)

Import JS Server.

(** ** Numbers *)

Section NumberFacts.

Lemma Qle_bool_false (x y : Q) : Qle_bool x y = false ↔ (y < x)%Q.
Proof.
  split; intros H.
  - apply Qnot_le_lt. intros Hle. apply Qle_bool_iff in Hle. congruence.
  - destruct (Qle_bool x y) eqn:E; [|done].
    apply Qle_bool_iff in E. lra.
Qed.

Lemma gtb_Fin (x y : Q) : gtb (Fin x) (Fin y) = true ↔ (y < x)%Q.
Proof. unfold gtb, ltb. rewrite negb_true_iff. apply Qle_bool_false. Qed.

Lemma geb_Fin (x y : Q) : geb (Fin x) (Fin y) = true ↔ (y <= x)%Q.
Proof. unfold geb. apply Qle_bool_iff. Qed.

Lemma ltb_Fin_false (x y : Q) : ltb (Fin x) (Fin y) = false ↔ (y <= x)%Q.
Proof. unfold ltb. rewrite negb_false_iff. apply Qle_bool_iff. Qed.

Lemma mkFin_non_negative (q : Q) : (0 <= q)%Q → non_negative (mkFin q).
Proof.
  intros H. unfold non_negative, mkFin.
  destruct (Qle_bool overflow_bound (Qabs q)).
  - apply Qle_bool_iff in H. rewrite H. reflexivity.
  - apply geb_Fin. rewrite Qred_correct. exact H.
Qed.

(** A number that is neither [NaN] nor below zero is [+Infinity] or a
    finite value from zero upwards. *)
Lemma not_below_zero (n : number) :
  Number_isNaN n = false → ltb n (Fin 0) = false →
  n = PInf ∨ ∃ q, n = Fin q ∧ (0 <= q)%Q.
Proof.
  destruct n as [| | |q]; try done; [by left|].
  intros _ H. right. exists q. split; [done|]. by apply ltb_Fin_false.
Qed.

Lemma mkFin_cases (q : Q) :
  (0 <= q)%Q → mkFin q = PInf ∨ ∃ q', mkFin q = Fin q' ∧ (0 <= q')%Q.
Proof.
  intros H. unfold mkFin.
  destruct (Qle_bool overflow_bound (Qabs q)).
  - apply Qle_bool_iff in H. rewrite H. by left.
  - right. eexists. split; [done|]. by rewrite Qred_correct.
Qed.

Lemma add_non_negative (a b : number) :
  (a = PInf ∨ ∃ q, a = Fin q ∧ (0 <= q)%Q) →
  (b = PInf ∨ ∃ q, b = Fin q ∧ (0 <= q)%Q) →
  non_negative (add a b).
Proof.
  intros [->|(x & -> & Hx)] [->|(y & -> & Hy)]; try done.
  cbn [add]. apply mkFin_non_negative. lra.
Qed.

Lemma div_60_non_negative (a : number) :
  (a = PInf ∨ ∃ q, a = Fin q ∧ (0 <= q)%Q) →
  div a (Fin 60) = PInf ∨ ∃ q, div a (Fin 60) = Fin q ∧ (0 <= q)%Q.
Proof.
  intros [->|(x & -> & Hx)]; [by left|].
  cbn. apply mkFin_cases. apply Qle_shift_div_l; lra.
Qed.

Lemma non_negative_cases (n : number) :
  (n = PInf ∨ ∃ q, n = Fin q ∧ (0 <= q)%Q) → non_negative n.
Proof. intros [->|(q & -> & H)]; [done|]. by apply geb_Fin. Qed.

(** Rounding never lifts a value over the threshold: a rounded value
    above 60 comes from a value above 60. *)
Lemma round_above_60 (x : number) :
  gtb (Math_round x) (Fin 60) = true → gtb x (Fin 60) = true.
Proof.
  destruct x as [| | |q]; cbn [Math_round]; try done.
  unfold of_Z. rewrite !gtb_Fin. intros H.
  assert (Hz : (61 <= Qfloor (q + (1 # 2)))%Z).
  { enough (60 < Qfloor (q + (1 # 2)))%Z by lia. by rewrite Zlt_Qlt. }
  pose proof (Qfloor_le (q + (1 # 2))) as Hf.
  rewrite Zle_Qle in Hz. change (inject_Z 61) with 61%Q in Hz. lra.
Qed.

End NumberFacts.

(** ** The signal normalizer *)

Section Normalizer.

Lemma finite_focus_minutes_None (b : body) :
  (∀ q, focus_minutes b ≠ Num (Fin q)) → finite_focus_minutes b = None.
Proof.
  intros H. unfold finite_focus_minutes.
  destruct (focus_minutes b) as [| | |[| | |q]|]; try done.
  by destruct (H q).
Qed.

Lemma isNaN_false (n : number) : n ≠ NaN → Number_isNaN n = false.
Proof. by destruct n. Qed.

Lemma isNaN_true (n : number) : n = NaN → Number_isNaN n = true.
Proof. by intros ->. Qed.

Lemma minutes_seconds_Some (s minutes seconds : string) :
  split ":" s = [minutes; seconds] →
  Number minutes ≠ NaN → Number seconds ≠ NaN →
  minutes_seconds s =
    Some (add (Number minutes) (div (Number seconds) (Fin 60))).
Proof.
  intros Hs Hm Hsec. unfold minutes_seconds. rewrite Hs.
  by rewrite (isNaN_false _ Hm), (isNaN_false _ Hsec).
Qed.

Lemma minutes_seconds_None (s : string) :
  (∀ minutes seconds, split ":" s = [minutes; seconds] →
     Number minutes = NaN ∨ Number seconds = NaN) →
  minutes_seconds s = None.
Proof.
  intros H. unfold minutes_seconds.
  destruct (split ":" s) as [|p0 [|p1 [|p2 l]]]; try done.
  destruct (H p0 p1 eq_refl) as [-> | ->]; [done|].
  by rewrite andb_false_r.
Qed.

(** The branches of the normalizer in the order of the code: a finite
    numeric [focus_minutes] verbatim; else, for a [focus_duration]
    string of two colon-separated components that are both numeric,
    minutes + seconds/60; else the string read as a bare number; else
    0.  ["5:30"] gives 5.5 and ["bad"] gives 0. *)
Theorem parseFocusMinutes_cases :
  (∀ b : body,
    (∀ q, focus_minutes b = Num (Fin q) → parseFocusMinutes b = Fin q) ∧
    ((∀ q, focus_minutes b ≠ Num (Fin q)) →
     (∀ s minutes seconds,
        focus_duration b = Str s →
        split ":" s = [minutes; seconds] →
        Number minutes ≠ NaN → Number seconds ≠ NaN →
        parseFocusMinutes b =
          add (Number minutes) (div (Number seconds) (Fin 60))) ∧
     (∀ s,
        focus_duration b = Str s →
        (∀ minutes seconds, split ":" s = [minutes; seconds] →
           Number minutes = NaN ∨ Number seconds = NaN) →
        (Number s ≠ NaN → parseFocusMinutes b = Number s) ∧
        (Number s = NaN → parseFocusMinutes b = Fin 0)) ∧
     ((∀ s, focus_duration b ≠ Str s) → parseFocusMinutes b = Fin 0))) ∧
  parseFocusMinutes (duration_only "5:30") = Fin (11 # 2) ∧
  parseFocusMinutes (duration_only "bad") = Fin 0.
Proof.
  split; [|by vm_compute].
  intros b. split.
  - intros q Hq. unfold parseFocusMinutes, finite_focus_minutes.
    by rewrite Hq.
  - intros Hnum. unfold parseFocusMinutes.
    rewrite (finite_focus_minutes_None b Hnum).
    split; [|split].
    + intros s minutes seconds -> Hs Hm Hsec.
      by rewrite (minutes_seconds_Some s minutes seconds).
    + intros s -> Hparts. rewrite (minutes_seconds_None s Hparts).
      unfold bare_number. split; intros HN.
      * by rewrite (isNaN_false _ HN).
      * by rewrite (isNaN_true _ HN).
    + intros Hstr. destruct (focus_duration b) as [| | | |s]; try done.
      by destruct (Hstr s).
Qed.

(** The second case of the normalizer at the body [{focus_duration:
    "5:30"}]. *)
Lemma parseFocusMinutes_cases_witness :
  parseFocusMinutes (duration_only "5:30") =
    add (Number "5") (div (Number "30") (Fin 60)).
Proof.
  apply (proj1 parseFocusMinutes_cases (duration_only "5:30"))
    with (s := "5:30").
  - intros q. simpl. discriminate.
  - reflexivity.
  - vm_compute. reflexivity.
  - vm_compute. discriminate.
  - vm_compute. discriminate.
Defined.

(** C5 fails at the body [{focus_duration: "Infinity:-Infinity"}].
    Both components pass the [NaN] guard, being the two infinities, and
    their sum is returned unguarded: the normalizer gives [NaN] where
    no rule has produced a valid number, not the fallback 0.  The
    check-in that carries this body is classified as failing and would
    write [NaN] as [focus_minutes] of its log row. *)
Theorem parseFocusMinutes_unguarded_sum :
  let b := duration_only "Infinity:-Infinity" in
  focus_minutes b = Undefined ∧
  split ":" "Infinity:-Infinity" = ["Infinity"; "-Infinity"] ∧
  Number "Infinity" = PInf ∧
  Number "-Infinity" = NInf ∧
  Number "Infinity:-Infinity" = NaN ∧
  parseFocusMinutes b = NaN ∧
  parseFocusMinutes b ≠ Fin 0 ∧
  isSuccess (Num (Fin 10)) (parseFocusMinutes b) = false ∧
  Math_round (parseFocusMinutes b) = NaN.
Proof. cbn zeta. repeat split; by vm_compute. Qed.

End Normalizer.

Section NonNegativity.

Lemma split_two_parts (s p0 p1 : string) :
  split ":" s = [p0; p1] → p0 ∈ split ":" s ∧ p1 ∈ split ":" s.
Proof. intros ->. split; set_solver. Qed.

(** C6, as stated, fails: the body [{focus_minutes: -5}] is normalized
    to -5, which is below zero. *)
Lemma parseFocusMinutes_negative :
  parseFocusMinutes (minutes_only (Fin (-5))) = Fin (-5) ∧
  ¬ non_negative (parseFocusMinutes (minutes_only (Fin (-5)))).
Proof. split; [reflexivity|]. vm_compute. discriminate. Qed.

Lemma minutes_seconds_non_negative (s : string) (n : number) :
  (∀ part, part ∈ split ":" s → ltb (Number part) (Fin 0) = false) →
  minutes_seconds s = Some n → non_negative n.
Proof.
  intros Hparts. unfold minutes_seconds.
  destruct (split ":" s) as [|p0 [|p1 [|p2 l]]] eqn:Esplit; try done.
  destruct (split_two_parts s p0 p1 Esplit) as [H0 H1].
  rewrite Esplit in H0, H1.
  destruct (Number_isNaN (Number p0)) eqn:E0; [done|].
  destruct (Number_isNaN (Number p1)) eqn:E1; [done|].
  intros [= <-]. apply add_non_negative.
  - apply not_below_zero; auto.
  - apply div_60_non_negative, not_below_zero; auto.
Qed.

Lemma bare_number_non_negative (s : string) (n : number) :
  ltb (Number s) (Fin 0) = false →
  bare_number s = Some n → non_negative n.
Proof.
  intros Hwhole. unfold bare_number.
  destruct (Number_isNaN (Number s)) eqn:Es; [done|].
  intros [= <-]. by apply non_negative_cases, not_below_zero.
Qed.

(** C6, amended: the normalizer has no clamp; its result is non-negative
    for every body in which no number it reads is negative (the finite
    [focus_minutes], the colon-separated components of
    [focus_duration], the whole [focus_duration]). *)
Theorem parseFocusMinutes_non_negative (b : body) :
  reads_no_negative b → non_negative (parseFocusMinutes b).
Proof.
  intros [Hmin Hdur]. unfold parseFocusMinutes.
  destruct (finite_focus_minutes b) as [n|] eqn:Efm.
  - unfold finite_focus_minutes in Efm.
    destruct (focus_minutes b) as [| | |[| | |q]|fm]; try done.
    injection Efm as <-. apply geb_Fin, (Hmin q eq_refl).
  - destruct (focus_duration b) as [| | | |s]; try done.
    destruct (Hdur s eq_refl) as [Hwhole Hparts].
    destruct (minutes_seconds s) as [n|] eqn:Ems.
    { by apply (minutes_seconds_non_negative s). }
    destruct (bare_number s) as [n|] eqn:Ebn; [|done].
    by apply (bare_number_non_negative s).
Qed.

(** The amended C6 at the body [{focus_duration: "5:30"}]. *)
Lemma parseFocusMinutes_non_negative_witness :
  non_negative (parseFocusMinutes (duration_only "5:30")).
Proof.
  apply parseFocusMinutes_non_negative. split.
  - intros q. simpl. discriminate.
  - intros s [= <-]. split; [by vm_compute|].
    intros part Hpart. vm_compute in Hpart.
    apply list_elem_of_In in Hpart. simpl in Hpart.
    destruct Hpart as [<-|[<-|[]]]; by vm_compute.
Defined.

End NonNegativity.

(** ** What the client sends *)

Section ClientReports.

Lemma decimal_digits_app (s t : string) :
  decimal_digits s → decimal_digits t → decimal_digits (String.app s t).
Proof.
  unfold decimal_digits. induction s as [|c s IH]; cbn; [done|].
  intros Hs Ht. apply Forall_cons in Hs as [Hc Hs].
  apply Forall_cons. split; [done|]. by apply IH.
Qed.

Lemma string_of_uint_digits (d : Decimal.uint) :
  decimal_digits (NilEmpty.string_of_uint d).
Proof.
  unfold decimal_digits.
  induction d; cbn; [apply Forall_nil_2|..]; by apply Forall_cons.
Qed.

Lemma String_of_nat_digits (n : nat) :
  decimal_digits (Client.String_of_nat n) ∧ Client.String_of_nat n ≠ "".
Proof.
  unfold Client.String_of_nat, NilZero.string_of_uint.
  destruct (Nat.to_uint n) eqn:E.
  1: split; [by repeat constructor | done].
  all: split; [apply string_of_uint_digits | done].
Qed.

Lemma repeat_char_digits (n : nat) : decimal_digits (Client.repeat_char "0" n).
Proof.
  unfold decimal_digits. induction n; cbn; [apply Forall_nil_2|].
  by apply Forall_cons.
Qed.

Lemma padStart_digits (n : nat) :
  decimal_digits (Client.padStart 2 "0" (Client.String_of_nat n)) ∧
  Client.padStart 2 "0" (Client.String_of_nat n) ≠ "".
Proof.
  destruct (String_of_nat_digits n) as [Hd Hne]. unfold Client.padStart.
  split.
  - apply decimal_digits_app; [apply repeat_char_digits | done].
  - destruct (Client.repeat_char _ _); [done|]. done.
Qed.

Lemma digit_not_white_space (c : ascii) :
  is_decimal_digit c = true → is_white_space c = false.
Proof.
  destruct c as [[] [] [] [] [] [] [] []]; vm_compute; congruence.
Qed.

Lemma digits_from_all (acc : Z) (count : nat) (cs : list ascii) :
  Forall (λ c, is_decimal_digit c = true) cs → (0 <= acc)%Z →
  ∃ v, digits_from 10 acc count cs = (v, count + length cs, []) ∧
       (0 <= v)%Z.
Proof.
  revert acc count. induction cs as [|c cs IH]; intros acc count Hcs Hacc.
  - exists acc. cbn. by rewrite Nat.add_0_r.
  - apply Forall_cons in Hcs as [Hc Hcs]. cbn.
    unfold is_decimal_digit in Hc.
    destruct (digit_value 10 c) as [d|] eqn:Ed; [|done].
    assert (0 <= d)%Z.
    { unfold digit_value in Ed.
      repeat match type of Ed with
             | context [if ?c then _ else _] => destruct c eqn:?
             end; try done; injection Ed as <-; lia. }
    destruct (IH (acc * 10 + d)%Z (S count) Hcs) as (v & Hv & Hpos); [lia|].
    exists v. rewrite Hv. split; [|done]. f_equal. f_equal. lia.
Qed.

Lemma trim_start_digit (cs : list ascii) :
  Forall (λ c, is_decimal_digit c = true) cs → trim_start cs = cs.
Proof.
  intros [|c cs' Hc _]; [done|]. cbn.
  by rewrite (digit_not_white_space c Hc).
Qed.

Lemma trim_digits (cs : list ascii) :
  Forall (λ c, is_decimal_digit c = true) cs → trim cs = cs.
Proof.
  intros H. unfold trim. rewrite (trim_start_digit cs H).
  rewrite trim_start_digit; [apply rev_involutive|].
  by apply List.Forall_rev.
Qed.

Lemma digit_is_no_prefix (c : ascii) :
  is_decimal_digit c = true →
  (Ascii.eqb c "x" || Ascii.eqb c "X")%bool = false ∧
  (Ascii.eqb c "o" || Ascii.eqb c "O")%bool = false ∧
  (Ascii.eqb c "b" || Ascii.eqb c "B")%bool = false ∧
  Ascii.eqb c ":" = false ∧ Ascii.eqb c "-" = false ∧
  Ascii.eqb c "+" = false ∧ Ascii.eqb c "I" = false.
Proof.
  destruct c as [[] [] [] [] [] [] [] []]; vm_compute; intros H;
    first [discriminate H | repeat split].
Qed.

Lemma non_decimal_literal_digits (cs : list ascii) :
  Forall (λ c, is_decimal_digit c = true) cs → non_decimal_literal cs = None.
Proof.
  intros H. destruct cs as [|c0 [|p t]]; [done| |].
  - unfold non_decimal_literal.
    by destruct c0 as [[] [] [] [] [] [] [] []].
  - apply Forall_cons in H as [_ H]. apply Forall_cons in H as [Hp _].
    destruct (digit_is_no_prefix p Hp) as (Hx & Ho & Hb & _).
    unfold non_decimal_literal.
    destruct c0 as [[] [] [] [] [] [] [] []]; try done.
    by rewrite Hx, Ho, Hb.
Qed.

Lemma decimal_literal_digits (cs : list ascii) :
  Forall (λ c, is_decimal_digit c = true) cs →
  decimal_literal cs = unsigned_decimal cs.
Proof.
  intros [|c cs' Hc _]; [done|].
  destruct (digit_is_no_prefix c Hc) as (_ & _ & _ & _ & Hm & Hp & _).
  unfold decimal_literal.
  destruct c as [[] [] [] [] [] [] [] []]; try done.
Qed.

Lemma unsigned_decimal_digits (cs : list ascii) :
  Forall (λ c, is_decimal_digit c = true) cs → cs ≠ [] →
  ∃ q, unsigned_decimal cs = Some (mkFin q) ∧ (0 <= q)%Q.
Proof.
  intros H Hne. unfold unsigned_decimal.
  destruct (decide (cs = _)) as [->|_].
  { apply Forall_cons in H as [H _]. by vm_compute in H. }
  destruct (digits_from_all 0 0 cs H) as (v & Hv & Hpos); [lia|].
  unfold digits. rewrite Hv. cbn.
  destruct cs as [|c cs']; [done|]. cbn.
  eexists. split; [done|]. unfold scale10.
  change (Qpower (10 # 1) (0 - 0)) with 1%Q.
  rewrite Qmult_1_r. change 0%Q with (inject_Z 0). rewrite <- Zle_Qle. lia.
Qed.

Lemma list_ascii_nil (s : string) :
  String.list_ascii_of_string s = [] → s = "".
Proof. by destruct s. Qed.

(** A non-empty string of decimal digits is a number from zero upwards. *)
Lemma Number_digits (s : string) :
  decimal_digits s → s ≠ "" →
  Number s = PInf ∨ ∃ q, Number s = Fin q ∧ (0 <= q)%Q.
Proof.
  intros H Hne. unfold Number. rewrite (trim_digits _ H).
  assert (Hcs : String.list_ascii_of_string s ≠ []).
  { intros E. by apply Hne, list_ascii_nil. }
  rewrite (non_decimal_literal_digits _ H), (decimal_literal_digits _ H).
  destruct (unsigned_decimal_digits _ H Hcs) as (q & -> & Hq).
  destruct (String.list_ascii_of_string s); [done|]. cbn.
  by apply mkFin_cases.
Qed.

Lemma split_cons (sep c : ascii) (s : string) :
  split sep (String c s) =
    if Ascii.eqb c sep then EmptyString :: split sep s
    else match split sep s with
         | h :: t => String c h :: t
         | [] => [String c EmptyString]
         end.
Proof. reflexivity. Qed.

Lemma split_digits (s t : string) :
  decimal_digits s →
  split ":" (String.app s (String ":" t)) = s :: split ":" t.
Proof.
  unfold decimal_digits. induction s as [|c s IH]; [done|].
  intros H. apply Forall_cons in H as [Hc H].
  destruct (digit_is_no_prefix c Hc) as (_ & _ & _ & Hcolon & _).
  change (String.app (String c s) (String ":" t))
    with (String c (String.app s (String ":" t))).
  by rewrite split_cons, Hcolon, (IH H).
Qed.

Lemma split_digits_only (s : string) :
  decimal_digits s → split ":" s = [s].
Proof.
  unfold decimal_digits. induction s as [|c s IH]; [done|].
  intros H. apply Forall_cons in H as [Hc H].
  destruct (digit_is_no_prefix c Hc) as (_ & _ & _ & Hcolon & _).
  by rewrite split_cons, Hcolon, (IH H).
Qed.

Lemma from_zero_not_NaN (n : number) :
  (n = PInf ∨ ∃ q, n = Fin q ∧ (0 <= q)%Q) → Number_isNaN n = false.
Proof. by intros [->|(q & -> & _)]. Qed.

Lemma formatTime_parts (n : nat) :
  Client.formatTime n =
    String.app (Client.padStart 2 "0" (Client.String_of_nat (n / 60)))
      (String ":" (Client.padStart 2 "0" (Client.String_of_nat (n mod 60)))).
Proof. reflexivity. Qed.

(** X20: whatever the session went through, the violation report that
    the client builds is normalized to a non-negative value. *)
Theorem client_report_non_negative (reason : string) (a : Client.app) :
  non_negative (parseFocusMinutes (Client.reportCheat reason a)).
Proof.
  unfold parseFocusMinutes, finite_focus_minutes, Client.reportCheat.
  cbn [focus_minutes focus_duration].
  set (n := Client.focusSecondsRef a).
  destruct (padStart_digits (n / 60)) as [Hm Hmne].
  destruct (padStart_digits (n mod 60)) as [Hs Hsne].
  unfold minutes_seconds.
  rewrite formatTime_parts, (split_digits _ _ Hm), (split_digits_only _ Hs).
  pose proof (Number_digits _ Hm Hmne) as Hmin.
  pose proof (Number_digits _ Hs Hsne) as Hsec.
  rewrite (from_zero_not_NaN _ Hmin), (from_zero_not_NaN _ Hsec).
  cbn [negb andb].
  apply add_non_negative; [done|]. by apply div_60_non_negative.
Qed.

End ClientReports.

(** ** The handlers, case by case *)

Ltac unfold_handler :=
  unfold handle, dailyCheckin, reportCheat, assignIntervention,
    completeIntervention, bind, try_catch, runQuery,
    triggerMentorNotification, emitStudentStatus, respond, ret, throw,
    log_event, ok, failed, checkin_log, cheat_log, apply_sql.

Ltac evaluate_handler := unfold_handler; cbn.

Section DailyCheckin.

Variables (e : env) (b : body) (s : store) (sid : string).
Hypothesis Hsid : present (student_id b) = Some sid.
Hypothesis Hscore : quiz_score b ≠ Undefined.

Let passes := isSuccess (quiz_score b) (parseFocusMinutes b).

Lemma score_defined : is_undefined (quiz_score b) = false.
Proof using Hscore. by destruct (quiz_score b). Qed.

(** The store rejects the log row: a hard failure, nothing changed. *)
Lemma dailyCheckin_log_rejected :
  query_fails e 0 = true →
  handle (dailyCheckin e b) s =
    (failed 500 "Failed to process daily check-in", s,
     [Query (checkin_log sid b) false]).
Proof using Hsid Hscore.
  intros H0. unfold_handler. rewrite Hsid, score_defined. cbn.
  rewrite H0. reflexivity.
Qed.

(** The store rejects the state update: a hard failure, the log row
    stays. *)
Lemma dailyCheckin_update_rejected :
  query_fails e 0 = false → query_fails e 1 = true →
  ∃ st,
    handle (dailyCheckin e b) s =
      (failed 500 "Failed to process daily check-in",
       apply_sql (now e) (checkin_log sid b) s,
       [Query (checkin_log sid b) true;
        Query (UpdateStudentStatus st sid) false]).
Proof using Hsid Hscore.
  intros H0 H1. unfold_handler. rewrite Hsid, score_defined. cbn.
  rewrite H0. cbn. fold passes.
  destruct passes; cbn; rewrite H1; eexists; reflexivity.
Qed.

(** A passing check-in. *)
Lemma dailyCheckin_on_track :
  query_fails e 0 = false → query_fails e 1 = false →
  passes = true →
  handle (dailyCheckin e b) s =
    (ok (StatusBody "On Track" None),
     apply_sql (now e) (UpdateStudentStatus "normal" sid)
       (apply_sql (now e) (checkin_log sid b) s),
     [Query (checkin_log sid b) true;
      Query (UpdateStudentStatus "normal" sid) true;
      Emit sid (status_payload "normal")]).
Proof using Hsid Hscore.
  intros H0 H1 Hp. unfold_handler. rewrite Hsid, score_defined. cbn.
  rewrite H0. cbn. fold passes. rewrite Hp. cbn. rewrite H1. reflexivity.
Qed.

(** The warning of a failing check-in, by the answer of the
    notification transport. *)
Lemma dailyCheckin_needs_intervention :
  query_fails e 0 = false → query_fails e 1 = false →
  passes = false →
  handle (dailyCheckin e b) s =
    (ok (StatusBody "Pending Mentor Review"
           match notification e with
           | Raises => Some "Notification may have failed"
           | Resolves r =>
               if is_skipped r
               then Some (or_else (r ≫= message) "Notification skipped")
               else None
           end),
     apply_sql (now e) (UpdateStudentStatus "needs_intervention" sid)
       (apply_sql (now e) (checkin_log sid b) s),
     [Query (checkin_log sid b) true;
      Query (UpdateStudentStatus "needs_intervention" sid) true;
      Notify sid (quiz_score b) (parseFocusMinutes b);
      Emit sid (status_payload "needs_intervention")]).
Proof using Hsid Hscore.
  intros H0 H1 Hp. unfold_handler. rewrite Hsid, score_defined. cbn.
  rewrite H0. cbn. fold passes. rewrite Hp. cbn. rewrite H1. cbn.
  destruct (notification e) as [r|]; cbn; [|reflexivity].
  destruct (is_skipped r); reflexivity.
Qed.

End DailyCheckin.

Section ReportCheat.

Variables (e : env) (b : body) (s : store) (sid : string).
Hypothesis Hsid : present (student_id b) = Some sid.

Lemma reportCheat_log_rejected :
  query_fails e 0 = true →
  handle (reportCheat e b) s =
    (failed 500 "Failed to log cheat", s, [Query (cheat_log sid b) false]).
Proof using Hsid.
  intros H0. unfold_handler. rewrite Hsid. cbn. rewrite H0. reflexivity.
Qed.

Lemma reportCheat_update_rejected :
  query_fails e 0 = false → query_fails e 1 = true →
  handle (reportCheat e b) s =
    (failed 500 "Failed to log cheat",
     apply_sql (now e) (cheat_log sid b) s,
     [Query (cheat_log sid b) true;
      Query (UpdateStudentStatus "needs_intervention" sid) false]).
Proof using Hsid.
  intros H0 H1. unfold_handler. rewrite Hsid. cbn.
  rewrite H0. cbn. rewrite H1. reflexivity.
Qed.

(** A logged violation; status text and warning by the answer of the
    notification transport. *)
Lemma reportCheat_logged :
  query_fails e 0 = false → query_fails e 1 = false →
  handle (reportCheat e b) s =
    (ok match notification e with
        | Raises =>
            StatusBody "Logged cheat (notification may have failed)" None
        | Resolves r =>
            if is_skipped r
            then StatusBody "Logged cheat (notification skipped)"
                            (r ≫= message)
            else StatusBody "Logged cheat and notified mentor" None
        end,
     apply_sql (now e) (UpdateStudentStatus "needs_intervention" sid)
       (apply_sql (now e) (cheat_log sid b) s),
     [Query (cheat_log sid b) true;
      Query (UpdateStudentStatus "needs_intervention" sid) true;
      Notify sid (Num (Fin 0)) (parseFocusMinutes b);
      Emit sid
        match notification e with
        | Raises => status_payload "needs_intervention"
        | Resolves _ =>
            {| p_status := "needs_intervention"; p_intervention := None;
               p_focus_minutes := Some (parseFocusMinutes b) |}
        end]).
Proof using Hsid.
  intros H0 H1. unfold_handler. rewrite Hsid. cbn.
  rewrite H0. cbn. rewrite H1. cbn.
  destruct (notification e) as [r|]; cbn; [|reflexivity].
  destruct (is_skipped r); reflexivity.
Qed.

End ReportCheat.

Section AssignIntervention.

Variables (e : env) (b : body) (s : store) (sid task : string).
Hypothesis Hsid : present (student_id b) = Some sid.
Hypothesis Htask : present (task_description b) = Some task.

Lemma assignIntervention_insert_rejected :
  query_fails e 0 = true →
  handle (assignIntervention e b) s =
    (failed 500 "Failed to assign intervention", s,
     [Query (InsertIntervention sid task) false]).
Proof using Hsid Htask.
  intros H0. unfold_handler. rewrite Hsid, Htask. cbn.
  rewrite H0. reflexivity.
Qed.

Lemma assignIntervention_update_rejected :
  query_fails e 0 = false → query_fails e 1 = true →
  handle (assignIntervention e b) s =
    (failed 500 "Failed to assign intervention",
     apply_sql (now e) (InsertIntervention sid task) s,
     [Query (InsertIntervention sid task) true;
      Query (UpdateStudentStatus "remedial" sid) false]).
Proof using Hsid Htask.
  intros H0 H1. unfold_handler. rewrite Hsid, Htask. cbn.
  rewrite H0. cbn. rewrite H1. reflexivity.
Qed.

Lemma assignIntervention_assigned :
  query_fails e 0 = false → query_fails e 1 = false →
  handle (assignIntervention e b) s =
    (ok (AssignedBody (next_intervention_id s)),
     apply_sql (now e) (UpdateStudentStatus "remedial" sid)
       (apply_sql (now e) (InsertIntervention sid task) s),
     [Query (InsertIntervention sid task) true;
      Query (UpdateStudentStatus "remedial" sid) true;
      Emit sid
        {| p_status := "remedial";
           p_intervention :=
             Some {| row_id := next_intervention_id s;
                     row_task_description := task;
                     row_status := "pending" |};
           p_focus_minutes := None |}]).
Proof using Hsid Htask.
  intros H0 H1. unfold_handler. rewrite Hsid, Htask. cbn.
  rewrite H0. cbn. rewrite H1. reflexivity.
Qed.

End AssignIntervention.

Section CompleteIntervention.

Variables (e : env) (b : body) (s : store) (sid : string) (iid : Z).
Hypothesis Hsid : present (student_id b) = Some sid.
Hypothesis Hiid : present_id (intervention_id b) = Some iid.

Let affected : nat :=
  length (filter (λ i, matches iid sid i = true) (interventions s)).

Lemma completeIntervention_rejected :
  query_fails e 0 = true →
  handle (completeIntervention e b) s =
    (failed 500 "Failed to complete intervention", s,
     [Query (UpdateIntervention "completed" iid sid) false]).
Proof using Hsid Hiid.
  intros H0. unfold_handler. rewrite Hsid, Hiid. cbn.
  rewrite H0. reflexivity.
Qed.

(** No row affected: not found, and the student is not touched. *)
Lemma completeIntervention_not_found :
  query_fails e 0 = false → affected = 0 →
  handle (completeIntervention e b) s =
    (failed 404 "Intervention not found",
     apply_sql (now e) (UpdateIntervention "completed" iid sid) s,
     [Query (UpdateIntervention "completed" iid sid) true]).
Proof using Hsid Hiid.
  intros H0 Ha. unfold_handler. rewrite Hsid, Hiid. cbn.
  rewrite H0. cbn. fold affected. rewrite Ha. reflexivity.
Qed.

Lemma completeIntervention_update_rejected :
  query_fails e 0 = false → affected ≠ 0 → query_fails e 1 = true →
  handle (completeIntervention e b) s =
    (failed 500 "Failed to complete intervention",
     apply_sql (now e) (UpdateIntervention "completed" iid sid) s,
     [Query (UpdateIntervention "completed" iid sid) true;
      Query (UpdateStudentStatus "normal" sid) false]).
Proof using Hsid Hiid.
  intros H0 Ha H1. unfold_handler. rewrite Hsid, Hiid. cbn.
  rewrite H0. cbn. fold affected.
  destruct affected; [done|]. cbn. rewrite H1. reflexivity.
Qed.

Lemma completeIntervention_completed :
  query_fails e 0 = false → affected ≠ 0 → query_fails e 1 = false →
  handle (completeIntervention e b) s =
    (ok SuccessBody,
     apply_sql (now e) (UpdateStudentStatus "normal" sid)
       (apply_sql (now e) (UpdateIntervention "completed" iid sid) s),
     [Query (UpdateIntervention "completed" iid sid) true;
      Query (UpdateStudentStatus "normal" sid) true;
      Emit sid
        {| p_status := "normal"; p_intervention := None;
           p_focus_minutes := Some (parseFocusMinutes b) |}]).
Proof using Hsid Hiid.
  intros H0 Ha H1. unfold_handler. rewrite Hsid, Hiid. cbn.
  rewrite H0. cbn. fold affected.
  destruct affected; [done|]. cbn. rewrite H1. reflexivity.
Qed.

End CompleteIntervention.

(** ** What the statements do to the store *)

Section StoreFacts.

Variables (now : Z) (s : store).

Lemma state_after_update (st sid : string) (stu : student) :
  students s !! sid = Some stu →
  student_state (apply_sql now (UpdateStudentStatus st sid) s) sid = Some st.
Proof.
  intros H. unfold student_state, apply_sql. cbn.
  by rewrite lookup_alter_eq, H.
Qed.

Lemma state_after_update_other (st sid sid' : string) :
  sid ≠ sid' →
  student_state (apply_sql now (UpdateStudentStatus st sid) s) sid'
    = student_state s sid'.
Proof.
  intros H. unfold student_state, apply_sql. cbn.
  by rewrite lookup_alter_ne.
Qed.

Lemma students_after_log (sid st : string) (score : value) (focus : number) :
  students (apply_sql now (InsertDailyLog sid score focus st) s) = students s.
Proof. reflexivity. Qed.

Lemma logs_after_log (sid st : string) (score : value) (focus : number) :
  daily_logs (apply_sql now (InsertDailyLog sid score focus st) s) =
    (daily_logs s ++
      [{| log_student_id := sid; log_quiz_score := score;
          log_focus_minutes := focus; log_status := st |}])%list.
Proof. reflexivity. Qed.

Lemma logs_after_update (st sid : string) :
  daily_logs (apply_sql now (UpdateStudentStatus st sid) s) = daily_logs s.
Proof. reflexivity. Qed.

End StoreFacts.

(** ** The check-in guard *)

Section CheckinGuard.

Lemma elem_of_4 {A} (x a b c d : A) :
  x ∈ [a; b; c; d] ↔ x = a ∨ x = b ∨ x = c ∨ x = d.
Proof. rewrite !elem_of_cons, elem_of_nil. tauto. Qed.

Lemma elem_of_3 {A} (x a b c : A) :
  x ∈ [a; b; c] ↔ x = a ∨ x = b ∨ x = c.
Proof. rewrite !elem_of_cons, elem_of_nil. tauto. Qed.

Lemma elem_of_2 {A} (x a b : A) : x ∈ [a; b] ↔ x = a ∨ x = b.
Proof. rewrite !elem_of_cons, elem_of_nil. tauto. Qed.

(** C2: for a check-in with its required fields, on a store that takes
    the two writes: when [quiz_score > 7] and [focusMinutes > 60] the
    student's state becomes [normal] and no notification is attempted;
    otherwise the state becomes [needs_intervention] and the mentor
    notification is attempted.  Both comparisons are strict: a score
    of exactly 7 or a focus of exactly 60 fails, and for finite numbers
    the guard is [7 < score] and [60 < focus]. *)
Theorem checkin_guard_strict (e : env) (b : body) (s : store)
  (sid : string) (stu : student) :
  present (student_id b) = Some sid →
  quiz_score b ≠ Undefined →
  students s !! sid = Some stu →
  query_fails e 0 = false → query_fails e 1 = false →
  let passes :=
    (gt_number (quiz_score b) (Fin 7) &&
     gtb (parseFocusMinutes b) (Fin 60))%bool in
  (passes = true →
     student_state (store_after (dailyCheckin e b) s) sid = Some "normal" ∧
     ∀ ev, ev ∈ effects_of (dailyCheckin e b) s → is_notify ev = false) ∧
  (passes = false →
     student_state (store_after (dailyCheckin e b) s) sid
       = Some "needs_intervention" ∧
     Notify sid (quiz_score b) (parseFocusMinutes b)
       ∈ effects_of (dailyCheckin e b) s) ∧
  (quiz_score b = Num (Fin 7) ∨ parseFocusMinutes b = Fin 60 →
     passes = false) ∧
  (∀ score focus,
     quiz_score b = Num (Fin score) → parseFocusMinutes b = Fin focus →
     passes = true ↔ (7 < score)%Q ∧ (60 < focus)%Q).
Proof.
  intros Hsid Hscore Hstu H0 H1 passes.
  unfold store_after, effects_of.
  split; [|split; [|split]].
  - intros Hp.
    rewrite (dailyCheckin_on_track e b s sid Hsid Hscore H0 H1 Hp). cbn.
    split; [by apply (state_after_update _ _ _ _ stu)|].
    intros ev Hev. apply elem_of_3 in Hev.
    by destruct Hev as [->|[->| ->]].
  - intros Hp.
    rewrite (dailyCheckin_needs_intervention e b s sid Hsid Hscore H0 H1 Hp).
    cbn. split; [by apply (state_after_update _ _ _ _ stu)|].
    apply elem_of_4. auto.
  - intros [H|H]; unfold passes; rewrite H; [done|].
    by rewrite andb_false_r.
  - intros score focus Hq Hf. unfold passes, gt_number.
    rewrite Hq, Hf, andb_true_iff. cbn [ToNumber]. by rewrite !gtb_Fin.
Qed.

(** C2 at the check-in [{quiz_score: 8, focus_minutes: 61}] of student
    ["s1"]. *)
Lemma checkin_guard_strict_witness :
  student_state
    (store_after (dailyCheckin Scenario.calm (Scenario.checkin "s1" 8 61))
                 (Scenario.classroom "remedial")) "s1" = Some "normal".
Proof.
  refine (proj1 (proj1
    (checkin_guard_strict Scenario.calm (Scenario.checkin "s1" 8 61)
       (Scenario.classroom "remedial") "s1"
       {| status := "remedial"; updated_at := 0 |} _ _ _ _ _) _)).
  - reflexivity.
  - simpl. discriminate.
  - reflexivity.
  - reflexivity.
  - reflexivity.
  - vm_compute. reflexivity.
Defined.

End CheckinGuard.

(** ** The log row comes first *)

Section LogFirst.

(** C4: a check-in with its required fields attempts the [daily_logs]
    insert before anything else and never a second one.  When the
    store rejects that insert, nothing else is attempted and the store
    is unchanged.  When the store takes it, exactly one row is added to
    the log, whatever happens to the state update and the notification
    that follow. *)
Theorem checkin_logs_first (e : env) (b : body) (s : store) (sid : string) :
  present (student_id b) = Some sid →
  quiz_score b ≠ Undefined →
  ∃ rest,
    effects_of (dailyCheckin e b) s =
      Query (checkin_log sid b) (negb (query_fails e 0)) :: rest ∧
    (∀ ev, ev ∈ rest → is_log_insert ev = false) ∧
    (query_fails e 0 = true →
       rest = [] ∧ store_after (dailyCheckin e b) s = s) ∧
    (query_fails e 0 = false →
       ∃ row,
         daily_logs (store_after (dailyCheckin e b) s) =
           (daily_logs s ++ [row])%list ∧
         log_student_id row = sid ∧
         log_quiz_score row = quiz_score b).
Proof.
  intros Hsid Hscore. unfold store_after, effects_of.
  destruct (query_fails e 0) eqn:H0.
  { rewrite (dailyCheckin_log_rejected e b s sid Hsid Hscore H0). cbn.
    exists []. split; [done|]. split; [|done].
    intros ev Hev. by apply elem_of_nil in Hev. }
  destruct (query_fails e 1) eqn:H1.
  { destruct (dailyCheckin_update_rejected e b s sid Hsid Hscore H0 H1)
      as [st ->]. cbn.
    eexists. split; [done|]. split; [|split; [done|]].
    - intros ev Hev. apply list_elem_of_singleton in Hev. by subst ev.
    - intros _. eexists. by split. }
  destruct (isSuccess (quiz_score b) (parseFocusMinutes b)) eqn:Hp.
  - rewrite (dailyCheckin_on_track e b s sid Hsid Hscore H0 H1 Hp). cbn.
    eexists. split; [done|]. split; [|split; [done|]].
    + intros ev Hev. apply elem_of_2 in Hev. by destruct Hev as [->| ->].
    + intros _. eexists. by split.
  - rewrite (dailyCheckin_needs_intervention e b s sid Hsid Hscore H0 H1 Hp).
    cbn. eexists. split; [done|]. split; [|split; [done|]].
    + intros ev Hev. apply elem_of_3 in Hev.
      by destruct Hev as [->|[->| ->]].
    + intros _. eexists. by split.
Qed.

(** C4 at a failing check-in whose notification raises: the log holds
    one row. *)
Lemma checkin_logs_first_witness :
  ∃ row,
    daily_logs
      (store_after
         (dailyCheckin Scenario.transport_down (Scenario.checkin "s1" 7 61))
         (Scenario.classroom "normal")) = [row].
Proof.
  destruct (checkin_logs_first Scenario.transport_down
              (Scenario.checkin "s1" 7 61) (Scenario.classroom "normal")
              "s1" eq_refl)
    as (rest & _ & _ & _ & Hrow).
  - simpl. discriminate.
  - destruct (Hrow eq_refl) as (row & Hlogs & _).
    exists row. exact Hlogs.
Defined.

End LogFirst.

(** ** Notification failures *)

Section NotificationFailure.

(** A failing check-in whose notification raises still answers with its
    status and a warning, with the row logged and the state updated. *)
Lemma dailyCheckin_notification_raises (e : env) (b : body) (s : store)
  (sid : string) (stu : student) :
  present (student_id b) = Some sid →
  quiz_score b ≠ Undefined →
  students s !! sid = Some stu →
  query_fails e 0 = false → query_fails e 1 = false →
  isSuccess (quiz_score b) (parseFocusMinutes b) = false →
  notification e = Raises →
  response_of (dailyCheckin e b) s =
    ok (StatusBody "Pending Mentor Review"
          (Some "Notification may have failed")) ∧
  student_state (store_after (dailyCheckin e b) s) sid
    = Some "needs_intervention" ∧
  ∃ row, daily_logs (store_after (dailyCheckin e b) s)
         = (daily_logs s ++ [row])%list.
Proof.
  intros Hsid Hscore Hstu H0 H1 Hp Hn. unfold response_of, store_after.
  rewrite (dailyCheckin_needs_intervention e b s sid Hsid Hscore H0 H1 Hp).
  rewrite Hn. cbn. split; [done|].
  split; [by apply (state_after_update _ _ _ _ stu)|]. by eexists.
Qed.

(** A violation report whose notification raises logs the row and
    updates the state, and answers with a status text and no
    [warning]. *)
Lemma reportCheat_notification_raises (e : env) (b : body) (s : store)
  (sid : string) (stu : student) :
  present (student_id b) = Some sid →
  students s !! sid = Some stu →
  query_fails e 0 = false → query_fails e 1 = false →
  notification e = Raises →
  response_of (reportCheat e b) s =
    ok (StatusBody "Logged cheat (notification may have failed)" None) ∧
  student_state (store_after (reportCheat e b) s) sid
    = Some "needs_intervention" ∧
  ∃ row, daily_logs (store_after (reportCheat e b) s)
         = (daily_logs s ++ [row])%list.
Proof.
  intros Hsid Hstu H0 H1 Hn. unfold response_of, store_after.
  rewrite (reportCheat_logged e b s sid Hsid H0 H1).
  rewrite Hn. cbn. split; [done|].
  split; [by apply (state_after_update _ _ _ _ stu)|]. by eexists.
Qed.

(** C3 fails for violation reports.  With the notification transport
    raising, the report ["05:30"], ["window blurred"] of student ["s1"]
    is logged and the state becomes [needs_intervention], but the
    response carries no [warning]; the check-in handler, at the same
    failure, answers with the warning ["Notification may have
    failed"]. *)
Theorem reportCheat_raises_without_warning :
  let report := Scenario.report "s1" "05:30" "window blurred" in
  let before := Scenario.classroom "normal" in
  response_of (reportCheat Scenario.transport_down report) before =
    ok (StatusBody "Logged cheat (notification may have failed)" None) ∧
  student_state
    (store_after (reportCheat Scenario.transport_down report) before) "s1"
    = Some "needs_intervention" ∧
  daily_logs
    (store_after (reportCheat Scenario.transport_down report) before) =
    [{| log_student_id := "s1"; log_quiz_score := Num (Fin 0);
        log_focus_minutes := Fin 6; log_status := "window blurred" |}] ∧
  response_of
    (dailyCheckin Scenario.transport_down (Scenario.checkin "s1" 7 61))
    before =
    ok (StatusBody "Pending Mentor Review"
          (Some "Notification may have failed")).
Proof.
  intros report before. unfold response_of, store_after.
  rewrite (reportCheat_logged Scenario.transport_down report before "s1"
             eq_refl eq_refl eq_refl).
  split; [reflexivity|]. split; [by vm_compute|]. split; [by vm_compute|].
  by vm_compute.
Qed.

End NotificationFailure.

(** ** Logged focus minutes and the guard *)

Section LoggedFocus.

(** At the parsed value 60.5 the focus guard itself passes, so the
    check-in with score 8 is on track; a check-in with this focus value
    can fail only through its score. *)
Lemma rounded_up_checkin_passes :
  let b := Scenario.checkin "s1" 8 (121 # 2) in
  parseFocusMinutes b = Fin (121 # 2) ∧
  Math_round (parseFocusMinutes b) = Fin 61 ∧
  gtb (parseFocusMinutes b) (Fin 60) = true ∧
  response_of (dailyCheckin Scenario.calm b) (Scenario.classroom "normal")
    = ok (StatusBody "On Track" None).
Proof. by vm_compute. Qed.

(** C10: for every check-in and every violation report that the store
    logs, the [focus_minutes] of the row is the parsed value rounded to
    the nearest integer, while a check-in is logged as [on_track]
    exactly when [quiz_score > 7] and the unrounded value is above 60.
    Hence there are check-ins, such as the one with score 5 and a
    parsed value of 60.5, whose logged value, 61, exceeds the threshold
    although they are classified as failing. *)
Theorem logged_focus_is_rounded :
  (∀ e b s sid,
     present (student_id b) = Some sid → quiz_score b ≠ Undefined →
     query_fails e 0 = false →
     ∃ row,
       daily_logs (store_after (dailyCheckin e b) s)
         = (daily_logs s ++ [row])%list ∧
       log_focus_minutes row = Math_round (parseFocusMinutes b) ∧
       (log_status row = "on_track" ↔
          gt_number (quiz_score b) (Fin 7) = true ∧
          gtb (parseFocusMinutes b) (Fin 60) = true)) ∧
  (∀ e b s sid,
     present (student_id b) = Some sid →
     query_fails e 0 = false →
     ∃ row,
       daily_logs (store_after (reportCheat e b) s)
         = (daily_logs s ++ [row])%list ∧
       log_focus_minutes row = Math_round (parseFocusMinutes b)) ∧
  (∃ b,
     parseFocusMinutes b = Fin (121 # 2) ∧
     gtb (Math_round (parseFocusMinutes b)) (Fin 60) = true ∧
     response_of (dailyCheckin Scenario.calm b) (Scenario.classroom "normal")
       = ok (StatusBody "Pending Mentor Review" None) ∧
     student_state
       (store_after (dailyCheckin Scenario.calm b)
                    (Scenario.classroom "normal")) "s1"
       = Some "needs_intervention" ∧
     daily_logs
       (store_after (dailyCheckin Scenario.calm b)
                    (Scenario.classroom "normal"))
       = [{| log_student_id := "s1"; log_quiz_score := Num (Fin 5);
             log_focus_minutes := Fin 61;
             log_status := "needs_intervention" |}]).
Proof.
  split; [|split].
  - intros e b s sid Hsid Hscore H0. unfold store_after.
    assert (Hst :
      (if isSuccess (quiz_score b) (parseFocusMinutes b)
       then "on_track" else "needs_intervention") = "on_track" ↔
      gt_number (quiz_score b) (Fin 7) = true ∧
      gtb (parseFocusMinutes b) (Fin 60) = true).
    { unfold isSuccess. rewrite <- andb_true_iff.
      by destruct (_ && _)%bool. }
    destruct (query_fails e 1) eqn:H1.
    { destruct (dailyCheckin_update_rejected e b s sid Hsid Hscore H0 H1)
        as [st ->]. eexists. by split. }
    destruct (isSuccess (quiz_score b) (parseFocusMinutes b)) eqn:Hp.
    + rewrite (dailyCheckin_on_track e b s sid Hsid Hscore H0 H1 Hp).
      eexists. split; [done|]. cbn. by rewrite Hp.
    + rewrite (dailyCheckin_needs_intervention e b s sid Hsid Hscore H0 H1 Hp).
      eexists. split; [done|]. cbn. by rewrite Hp.
  - intros e b s sid Hsid H0. unfold store_after.
    destruct (query_fails e 1) eqn:H1.
    + rewrite (reportCheat_update_rejected e b s sid Hsid H0 H1).
      eexists. by split.
    + rewrite (reportCheat_logged e b s sid Hsid H0 H1).
      eexists. by split.
  - exists (Scenario.checkin "s1" 5 (121 # 2)). by vm_compute.
Qed.

(** C10 at a violation report of ["s1"] after 5:30 minutes: the row
    holds the rounded value of the parsed 5.5. *)
Lemma logged_focus_is_rounded_witness :
  ∃ row,
    daily_logs
      (store_after
         (reportCheat Scenario.calm
            (Scenario.report "s1" "05:30" "window blurred"))
         (Scenario.classroom "normal"))
      = ([] ++ [row])%list ∧
    log_focus_minutes row =
      Math_round
        (parseFocusMinutes (Scenario.report "s1" "05:30" "window blurred")).
Proof.
  apply (proj1 (proj2 logged_focus_is_rounded) Scenario.calm
           (Scenario.report "s1" "05:30" "window blurred")
           (Scenario.classroom "normal") "s1").
  - reflexivity.
  - reflexivity.
Defined.

End LoggedFocus.

(** ** The intervention lifecycle *)

Section Lifecycle.

Lemma matches_iff (iid : Z) (sid : string) (i : intervention) :
  matches iid sid i = true ↔ id i = iid ∧ int_student_id i = sid.
Proof.
  unfold matches. by rewrite andb_true_iff, Z.eqb_eq, String.eqb_eq.
Qed.

Lemma none_affected (iid : Z) (sid : string) (l : list intervention) :
  (∀ i, i ∈ l → ¬ (id i = iid ∧ int_student_id i = sid)) →
  filter (λ i, matches iid sid i = true) l = [].
Proof.
  induction l as [|i l IH]; intros H; [done|].
  rewrite filter_cons_False.
  - apply IH. intros j Hj. apply H. by right.
  - rewrite matches_iff. apply H. by left.
Qed.

Lemma set_completed_untouched (st : string) (now iid : Z) (sid : string)
  (l : list intervention) :
  (∀ i, i ∈ l → ¬ (id i = iid ∧ int_student_id i = sid)) →
  set_completed st now iid sid <$> l = l.
Proof.
  induction l as [|i l IH]; intros H; [done|].
  assert (Hi : matches iid sid i = false).
  { apply not_true_is_false. rewrite matches_iff. apply H. by left. }
  cbn. unfold set_completed at 1. rewrite Hi, IH; [done|].
  intros j Hj. apply H. by right.
Qed.

(** C7, as stated, fails: completing intervention 1 of ["s1"] a second
    time matches no pending intervention (the only one is completed),
    yet the answer is a success, the completion time is overwritten and
    the student goes from [needs_intervention] to [normal]. *)
Lemma completed_intervention_completes_again :
  let before := Scenario.after_completion in
  let request :=
    completeIntervention Scenario.calm (Scenario.complete "s1" 1) in
  (∀ i, i ∈ interventions before → int_status i ≠ "pending") ∧
  response_of request before = ok SuccessBody ∧
  student_state before "s1" = Some "needs_intervention" ∧
  student_state (store_after request before) "s1" = Some "normal" ∧
  completed_at <$> interventions before = [Some 50%Z] ∧
  completed_at <$> interventions (store_after request before)
    = [Some 100%Z].
Proof.
  cbn zeta. split; [|by vm_compute].
  intros i Hi. apply list_elem_of_singleton in Hi. by subst i.
Qed.

(** C7, amended: completing an intervention whose [intervention_id] and
    [student_id] match no intervention of the store, whatever its
    status, answers 404 and leaves the whole store unchanged, the
    interventions and the student's state included. *)
Theorem completeIntervention_no_match (e : env) (b : body) (s : store)
  (sid : string) (iid : Z) :
  present (student_id b) = Some sid →
  present_id (intervention_id b) = Some iid →
  (∀ i, i ∈ interventions s → ¬ (id i = iid ∧ int_student_id i = sid)) →
  query_fails e 0 = false →
  response_of (completeIntervention e b) s
    = failed 404 "Intervention not found" ∧
  store_after (completeIntervention e b) s = s.
Proof.
  intros Hsid Hiid Hnone H0. unfold response_of, store_after.
  rewrite (completeIntervention_not_found e b s sid iid Hsid Hiid H0).
  - cbn. split; [done|]. unfold apply_sql. cbn.
    rewrite set_completed_untouched by done. by destruct s.
  - by rewrite (none_affected iid sid _ Hnone).
Qed.

(** The amended C7 at a request for intervention 7 of ["s1"], which
    does not exist. *)
Lemma completeIntervention_no_match_witness :
  response_of
    (completeIntervention Scenario.calm (Scenario.complete "s1" 7))
    Scenario.after_completion
    = failed 404 "Intervention not found" ∧
  store_after
    (completeIntervention Scenario.calm (Scenario.complete "s1" 7))
    Scenario.after_completion
    = Scenario.after_completion.
Proof.
  apply (completeIntervention_no_match Scenario.calm
           (Scenario.complete "s1" 7) Scenario.after_completion "s1" 7).
  - reflexivity.
  - reflexivity.
  - intros i Hi. apply list_elem_of_singleton in Hi. subst i.
    simpl. intros [H _]. discriminate H.
  - reflexivity.
Defined.

(** C8: on a store that takes the writes, assigning an intervention to
    an existing student, whatever the student's state, answers with the
    new intervention's id, creates it as pending without completion
    time and sets the state to [remedial]; completing that intervention
    for that student then answers success, sets the state to [normal]
    and leaves the intervention completed, with the time of the
    completion as its timestamp. *)
Theorem assign_then_complete (e1 e2 : env) (b : body) (s : store)
  (sid task : string) (stu : student) :
  present (student_id b) = Some sid →
  present (task_description b) = Some task →
  students s !! sid = Some stu →
  next_intervention_id s ≠ 0%Z →
  query_fails e1 0 = false → query_fails e1 1 = false →
  query_fails e2 0 = false → query_fails e2 1 = false →
  let s1 := store_after (assignIntervention e1 b) s in
  ∃ iid,
    response_of (assignIntervention e1 b) s = ok (AssignedBody iid) ∧
    student_state s1 sid = Some "remedial" ∧
    {| id := iid; int_student_id := sid; int_task_description := task;
       int_status := "pending"; assigned_at := now e1;
       completed_at := None |} ∈ interventions s1 ∧
    let request := completeIntervention e2 (Scenario.complete sid iid) in
    response_of request s1 = ok SuccessBody ∧
    student_state (store_after request s1) sid = Some "normal" ∧
    {| id := iid; int_student_id := sid; int_task_description := task;
       int_status := "completed"; assigned_at := now e1;
       completed_at := Some (now e2) |}
      ∈ interventions (store_after request s1).
Proof.
  intros Hsid Htask Hstu Hnext H10 H11 H20 H21 s1.
  exists (next_intervention_id s).
  subst s1. unfold response_of, store_after.
  rewrite (assignIntervention_assigned e1 b s sid task Hsid Htask H10 H11).
  cbn [fst snd]. split; [done|].
  split; [by apply (state_after_update _ _ _ _ stu)|].
  split.
  { unfold apply_sql. cbn. apply elem_of_app. right. by left. }
  assert (Hsid' : present (Some sid) = Some sid).
  { unfold present in Hsid |- *. destruct (student_id b) as [x|]; [|done].
    destruct (String.eqb x "") eqn:E; [done|].
    injection Hsid as ->. by rewrite E. }
  assert (Hiid : present_id (Some (next_intervention_id s))
                 = Some (next_intervention_id s)).
  { unfold present_id. by apply Z.eqb_neq in Hnext as ->. }
  set (new := {| id := next_intervention_id s; int_student_id := sid;
                 int_task_description := task; int_status := "pending";
                 assigned_at := now e1; completed_at := None |}).
  assert (Hnew : matches (next_intervention_id s) sid new = true).
  { apply matches_iff. done. }
  cbn zeta.
  rewrite (completeIntervention_completed e2
             (Scenario.complete sid (next_intervention_id s)) _ sid
             (next_intervention_id s) Hsid' Hiid H20); [| |done].
  - cbn [fst snd]. split; [done|]. split.
    + apply (state_after_update _ _ _ _ (set_status "remedial" (now e1) stu)).
      unfold apply_sql. cbn. by rewrite lookup_alter_eq, Hstu.
    + unfold apply_sql. cbn. rewrite fmap_app. apply elem_of_app. right.
      cbn. unfold set_completed. fold new. rewrite Hnew. by left.
  - unfold apply_sql. cbn. rewrite filter_app, length_app.
    fold new. rewrite filter_cons_True by done. cbn. lia.
Qed.

(** C8 for student ["s1"], awaiting a mentor, and the task ["Redo quiz
    4"]. *)
Lemma assign_then_complete_witness :
  ∃ iid,
    response_of
      (assignIntervention Scenario.calm (Scenario.assign "s1" "Redo quiz 4"))
      (Scenario.classroom "needs_intervention") = ok (AssignedBody iid).
Proof.
  destruct (assign_then_complete Scenario.calm Scenario.calm
              (Scenario.assign "s1" "Redo quiz 4")
              (Scenario.classroom "needs_intervention") "s1" "Redo quiz 4"
              {| status := "needs_intervention"; updated_at := 0 |}
              eq_refl eq_refl eq_refl)
    as (iid & Hresp & _); try reflexivity.
  - simpl. discriminate.
  - exists iid. exact Hresp.
Defined.

End Lifecycle.

(** ** The state invariant *)

Section Invariant.

Context {A B : Type} (I : store → Prop).

Lemma preserves_ret (a : A) : preserves I (ret a).
Proof. by intros w. Qed.

Lemma preserves_throw : preserves I (@throw A).
Proof. by intros w. Qed.

Lemma preserves_bind (m : M A) (k : A → M B) :
  preserves I m → (∀ a, preserves I (k a)) → preserves I (bind m k).
Proof.
  intros Hm Hk w Hw. unfold bind. specialize (Hm w Hw).
  destruct (m w) as [[a|] w']; [|done]. by apply Hk.
Qed.

Lemma preserves_try_catch (m h : M A) :
  preserves I m → preserves I h → preserves I (try_catch m h).
Proof.
  intros Hm Hh w Hw. unfold try_catch. specialize (Hm w Hw).
  destruct (m w) as [[a|] w']; [done|]. by apply Hh.
Qed.

Lemma preserves_runQuery (e : env) (q : sql) :
  (∀ s, I s → I (apply_sql (now e) q s)) → preserves I (runQuery e q).
Proof.
  intros Hq w Hw. unfold runQuery.
  destruct (query_fails e (issued w)); [done|].
  specialize (Hq (db w) Hw). unfold apply_sql in Hq.
  by destruct (exec (now e) q (db w)).
Qed.

End Invariant.

Section StateInvariant.

Variable sid : string.

Lemma preserves_respond (c : nat) (j : json) :
  preserves (state_ok sid) (respond c j).
Proof. apply preserves_ret. Qed.

Lemma preserves_emit (to : string) (p : payload) :
  preserves (state_ok sid) (emitStudentStatus to p).
Proof. by intros w. Qed.

Lemma preserves_notify (e : env) (to : string) (score : value)
  (focus : number) :
  preserves (state_ok sid) (triggerMentorNotification e to score focus).
Proof.
  intros w Hw. unfold triggerMentorNotification.
  by destruct (notification e).
Qed.

(** The only statement that writes a state writes the one it is given. *)
Lemma update_keeps_state_ok (now : Z) (st to : string) (s : store) :
  valid_state st → state_ok sid s →
  state_ok sid (apply_sql now (UpdateStudentStatus st to) s).
Proof.
  intros Hst (old & Hold & Hvalid).
  destruct (decide (to = sid)) as [->|Hne].
  - exists st. split; [|done]. unfold student_state in Hold.
    destruct (students s !! sid) as [stu|] eqn:E; [|done].
    by apply (state_after_update _ _ _ _ stu).
  - exists old. by rewrite state_after_update_other.
Qed.

Lemma other_statements_keep_state_ok (now : Z) (q : sql) (s : store) :
  (∀ st to, q ≠ UpdateStudentStatus st to) →
  state_ok sid s → state_ok sid (apply_sql now q s).
Proof.
  intros Hq Hs. destruct q as [? ? ? ?|st to|? ?|? ? ?]; try done.
  by destruct (Hq st to).
Qed.

Ltac keeps_state :=
  repeat first
    [ apply preserves_respond
    | apply preserves_emit
    | apply preserves_notify
    | apply preserves_throw
    | apply preserves_try_catch
    | apply preserves_bind; [|intros ?]
    | apply preserves_runQuery; intros ? ?;
      first [ apply update_keeps_state_ok; [unfold valid_state; tauto | done]
            | apply other_statements_keep_state_ok; [done | done] ]
    | match goal with
      | |- preserves _ (if ?c then _ else _) => destruct c
      | |- preserves _ (match ?x with _ => _ end) => destruct x
      end ].

Lemma dailyCheckin_keeps_state (e : env) (b : body) :
  preserves (state_ok sid) (dailyCheckin e b).
Proof. unfold dailyCheckin. keeps_state. Qed.

Lemma reportCheat_keeps_state (e : env) (b : body) :
  preserves (state_ok sid) (reportCheat e b).
Proof. unfold reportCheat. keeps_state. Qed.

Lemma assignIntervention_keeps_state (e : env) (b : body) :
  preserves (state_ok sid) (assignIntervention e b).
Proof. unfold assignIntervention. keeps_state. Qed.

Lemma completeIntervention_keeps_state (e : env) (b : body) :
  preserves (state_ok sid) (completeIntervention e b).
Proof. unfold completeIntervention. keeps_state. Qed.

Lemma serve_keeps_state (e : env) (r : request) (s : store) :
  state_ok sid s → state_ok sid (store_after (serve e r) s).
Proof.
  intros Hs.
  assert (H : preserves (state_ok sid) (serve e r)).
  { destruct r; cbn [serve];
      auto using dailyCheckin_keeps_state, reportCheat_keeps_state,
        assignIntervention_keeps_state, completeIntervention_keeps_state. }
  specialize (H {| db := s; trace := []; issued := 0 |} Hs).
  unfold store_after, handle.
  by destruct (serve e r _) as [o w].
Qed.

End StateInvariant.

Lemma try_catch_responds (m : M response) (c : nat) (j : json) (w : world) :
  ∃ resp, (try_catch m (respond c j) w).1 = Return resp.
Proof. unfold try_catch. destruct (m w) as [[a|] w']; by eexists. Qed.

(** Every request is answered: an exception inside a handler ends in
    its 500 response. *)
Lemma serve_always_responds (e : env) (r : request) (s : store) :
  ∃ resp, response_of (serve e r) s = Return resp.
Proof.
  unfold response_of, handle.
  set (w := {| db := s; trace := []; issued := 0 |}).
  assert (H : ∃ resp, (serve e r w).1 = Return resp).
  { destruct r as [b|b|b|b]; cbn [serve].
    - unfold dailyCheckin. destruct (present (student_id b)); [|by eexists].
      destruct (is_undefined (quiz_score b)); [by eexists|].
      apply try_catch_responds.
    - unfold reportCheat. destruct (present (student_id b)); [|by eexists].
      apply try_catch_responds.
    - unfold assignIntervention.
      destruct (present (student_id b)); [|by eexists].
      destruct (present (task_description b)); [|by eexists].
      apply try_catch_responds.
    - unfold completeIntervention.
      destruct (present (student_id b)); [|by eexists].
      destruct (present_id (intervention_id b)); [|by eexists].
      apply try_catch_responds. }
  destruct H as [resp H]. exists resp.
  by destruct (serve e r w) as [o w'].
Qed.

(** C1: a student whose state is one of [normal], [needs_intervention]
    and [remedial] is, after any sequence of check-ins, violation
    reports, intervention assignments and intervention completions, for
    any students, well-formed or not, with any store failures and any
    answers of the notification transport, still in one of these three
    states. *)
Theorem state_always_valid (rs : list (env * request)) (s : store)
  (sid st : string) :
  student_state s sid = Some st → valid_state st →
  ∃ st', student_state (serve_all rs s) sid = Some st' ∧ valid_state st'.
Proof.
  intros Hst Hvalid.
  assert (Hs : state_ok sid s) by by exists st.
  clear Hst Hvalid. revert s Hs.
  induction rs as [|[e r] rs IH]; intros s Hs; [exact Hs|].
  cbn. apply IH. by apply serve_keeps_state.
Qed.

(** C1 for student ["s1"] over a failing check-in, an assignment, a
    violation report with the notification transport down, and a
    completion. *)
Lemma state_always_valid_witness :
  ∃ st',
    student_state
      (serve_all
         [(Scenario.calm, DailyCheckin (Scenario.checkin "s1" 7 61));
          (Scenario.calm,
           AssignIntervention (Scenario.assign "s1" "Redo quiz 4"));
          (Scenario.transport_down,
           ReportCheat (Scenario.report "s1" "05:30" "window blurred"));
          (Scenario.calm, CompleteIntervention (Scenario.complete "s1" 1))]
         (Scenario.classroom "normal")) "s1" = Some st' ∧
    valid_state st'.
Proof.
  apply (state_always_valid _ (Scenario.classroom "normal") "s1" "normal").
  - reflexivity.
  - left. reflexivity.
Defined.

(** ** The client's violation guard *)

Section FocusGuard.

Lemma handleFocusLoss_stops (reason : string) (a : Client.app) :
  Client.isTimerRunningRef (Client.handleFocusLoss reason a) = false.
Proof.
  unfold Client.handleFocusLoss.
  by destruct (Client.isTimerRunningRef a) eqn:E.
Qed.

Lemma handleFocusLoss_idle (reason : string) (a : Client.app) :
  Client.isTimerRunningRef a = false → Client.handleFocusLoss reason a = a.
Proof. intros H. unfold Client.handleFocusLoss. by rewrite H. Qed.

(** Without a start, a session that is not running stays so and posts
    nothing. *)
Lemma idle_session_posts_nothing (xs : list Client.action) (a : Client.app) :
  Client.isTimerRunningRef a = false →
  forallb (λ x, negb (Client.is_start x)) xs = true →
  Client.isTimerRunningRef (Client.run xs a) = false ∧
  Client.posted (Client.run xs a) = Client.posted a.
Proof.
  revert a. induction xs as [|x xs IH]; intros a Hidle Hxs; [done|].
  cbn in Hxs. apply andb_true_iff in Hxs as [Hx Hxs].
  assert (Hstep : Client.isTimerRunningRef (Client.step a x) = false ∧
                  Client.posted (Client.step a x) = Client.posted a).
  { destruct x as [| | | |reason]; cbn; try done.
    - unfold Client.tick. by destruct (Client.isTimerRunning a).
    - by rewrite handleFocusLoss_idle. }
  destruct Hstep as [Hidle' Hposted].
  destruct (IH (Client.step a x) Hidle' Hxs) as [IH1 IH2].
  change (Client.run (x :: xs) a) with (Client.run xs (Client.step a x)).
  by rewrite IH1, IH2, Hposted.
Qed.

(** C9: a focus-loss signal that arrives while the session is not
    running changes nothing and posts nothing; handling a focus loss
    always leaves the session not running; a running session posts
    exactly one report for it; and after it, whatever follows without a
    new start — further focus-loss signals included — posts no further
    report. *)
Theorem violation_fires_once_while_running (reason : string) (a : Client.app) :
  (Client.isTimerRunningRef a = false →
     Client.handleFocusLoss reason a = a) ∧
  Client.isTimerRunningRef (Client.handleFocusLoss reason a) = false ∧
  (Client.isTimerRunningRef a = true →
     Client.posted (Client.handleFocusLoss reason a) =
       (Client.posted a ++ [Client.reportCheat reason a])%list) ∧
  (∀ again,
     Client.handleFocusLoss again (Client.handleFocusLoss reason a) =
       Client.handleFocusLoss reason a) ∧
  (∀ xs,
     forallb (λ x, negb (Client.is_start x)) xs = true →
     Client.posted (Client.run xs (Client.handleFocusLoss reason a)) =
       Client.posted (Client.handleFocusLoss reason a)).
Proof.
  split; [apply handleFocusLoss_idle|].
  split; [apply handleFocusLoss_stops|].
  split; [|split].
  - intros H. unfold Client.handleFocusLoss. by rewrite H.
  - intros again. apply handleFocusLoss_idle, handleFocusLoss_stops.
  - intros xs Hxs.
    by apply idle_session_posts_nothing; [apply handleFocusLoss_stops|].
Qed.

(** C9 for a session started, run for two seconds and then hit by a
    blur and a visibility change: the second signal posts nothing. *)
Lemma violation_fires_once_while_running_witness :
  let running :=
    Client.run [Client.Start; Client.Tick; Client.Tick] Client.initial in
  Client.posted
    (Client.run [Client.FocusLoss "window hidden"; Client.Stop]
       (Client.handleFocusLoss "window blurred" running)) =
    [Client.reportCheat "window blurred" running].
Proof.
  intros running.
  destruct (violation_fires_once_while_running "window blurred" running)
    as (_ & _ & Hone & _ & Hquiet).
  rewrite (Hquiet [Client.FocusLoss "window hidden"; Client.Stop]).
  - rewrite Hone; reflexivity.
  - reflexivity.
Defined.

End FocusGuard.

(** ** The status endpoint *)

Section StatusEndpoint.

Import Status.

Lemma latest_None (l : list intervention) : latest l = None ↔ l = [].
Proof.
  destruct l as [|i l]; [done|]. cbn.
  destruct (latest l) as [j|]; [|done].
  by destruct (assigned_at i <? assigned_at j)%Z.
Qed.

Lemma latest_greatest (l : list intervention) (i : intervention) :
  latest l = Some i →
  i ∈ l ∧ ∀ j, j ∈ l → (assigned_at j <= assigned_at i)%Z.
Proof.
  revert i. induction l as [|k l IH]; intros i; [done|]. cbn.
  destruct (latest l) as [j|] eqn:E.
  - destruct (IH j eq_refl) as [Hj Hmax].
    destruct (assigned_at k <? assigned_at j)%Z eqn:Hlt; intros [= <-].
    + apply Z.ltb_lt in Hlt. split; [by right|].
      intros x Hx. apply elem_of_cons in Hx as [->|Hx]; [lia|by apply Hmax].
    + apply Z.ltb_ge in Hlt. split; [by left|].
      intros x Hx. apply elem_of_cons in Hx as [->|Hx]; [lia|].
      specialize (Hmax x Hx). lia.
  - apply latest_None in E as ->. intros [= <-]. split; [by left|].
    intros x Hx. apply list_elem_of_singleton in Hx as ->. lia.
Qed.

Lemma of_student_iff (sid st : string) (i : intervention) :
  of_student sid st i = true ↔ int_student_id i = sid ∧ int_status i = st.
Proof.
  unfold of_student. by rewrite andb_true_iff, !String.eqb_eq.
Qed.

Lemma elem_of_pending_of (sid : string) (s : store) (i : intervention) :
  i ∈ pending_of sid s ↔
  i ∈ interventions s ∧ int_student_id i = sid ∧ int_status i = "pending".
Proof.
  unfold pending_of. rewrite list_elem_of_filter, of_student_iff. tauto.
Qed.

(** X1: the status endpoint only reads.  Whatever the store answers,
    the store and the trace of effects are as before; an unknown
    student gets 404 and a failing first read gets 500. *)
Theorem getStudentStatus_reads_only (e : env) (sid : string) (s : store) :
  db (world_after_status e sid s) = s ∧
  trace (world_after_status e sid s) = [] ∧
  (query_fails e 0 = false → students s !! sid = None →
     status_of e sid s =
       Return {| status_code := 404;
                 status_body := StatusError "Student not found" |}) ∧
  (query_fails e 0 = true →
     status_of e sid s =
       Return {| status_code := 500;
                 status_body := StatusError "Database error" |}).
Proof.
  unfold world_after_status, status_of, getStudentStatus, try_catch, bind,
    getQuery, ret, select_student, select_latest_intervention. cbn.
  destruct (query_fails e 0) eqn:H0; cbn; [done|].
  destruct (students s !! sid) as [stu|] eqn:Hs; cbn; [|done].
  by destruct (query_fails e 1).
Qed.

(** X1 for the unknown student ["s9"]. *)
Lemma getStudentStatus_reads_only_witness :
  status_of Scenario.calm "s9" (Scenario.classroom "normal") =
    Return {| status_code := 404;
              status_body := StatusError "Student not found" |}.
Proof.
  apply (getStudentStatus_reads_only Scenario.calm "s9"
           (Scenario.classroom "normal")); reflexivity.
Defined.

(** X2: for a known student and a store that answers both reads, the
    status endpoint returns the student's row and, as intervention,
    nothing exactly when the student has no pending intervention, and
    otherwise a pending intervention of that student whose
    [assigned_at] no other pending one of the student exceeds. *)
Theorem getStudentStatus_latest_pending (e : env) (sid : string)
  (s : store) (stu : student) :
  students s !! sid = Some stu →
  query_fails e 0 = false → query_fails e 1 = false →
  ∃ r,
    status_of e sid s =
      Return {| status_code := 200;
                status_body := StudentStatus (sid, stu) r |} ∧
    (r = None ↔
       ∀ i, i ∈ interventions s →
            ¬ (int_student_id i = sid ∧ int_status i = "pending")) ∧
    (∀ i, r = Some i →
       i ∈ interventions s ∧ int_student_id i = sid ∧
       int_status i = "pending" ∧
       ∀ j, j ∈ interventions s → int_student_id j = sid →
            int_status j = "pending" →
            (assigned_at j <= assigned_at i)%Z).
Proof.
  intros Hstu H0 H1.
  unfold status_of, getStudentStatus, try_catch, bind, getQuery, ret,
    select_student, select_latest_intervention. cbn.
  rewrite H0. cbn. rewrite Hstu. cbn. rewrite H1. cbn.
  fold (pending_of sid s).
  destruct (latest (pending_of sid s)) as [i|] eqn:E; cbn.
  - exists (Some i). split; [done|].
    destruct (latest_greatest _ _ E) as [Hi Hmax].
    apply elem_of_pending_of in Hi as (Hi & Hsid & Hst).
    split.
    + split; [done|]. intros Hnone. by destruct (Hnone i Hi).
    + intros ? [= <-]. repeat split; try done.
      intros j Hj Hjs Hjp. apply Hmax. by apply elem_of_pending_of.
  - exists None. split; [done|]. apply latest_None in E.
    split; [|done]. split; [|done]. intros _ i Hi [Hsid Hst].
    assert (Hin : i ∈ pending_of sid s) by by apply elem_of_pending_of.
    rewrite E in Hin. by apply elem_of_nil in Hin.
Qed.

(** X2 for student ["s1"] without any intervention. *)
Lemma getStudentStatus_latest_pending_witness :
  ∃ r,
    status_of Scenario.calm "s1" (Scenario.classroom "normal") =
      Return {| status_code := 200;
                status_body :=
                  StudentStatus
                    ("s1", {| status := "normal"; updated_at := 0 |}) r |}.
Proof.
  destruct (getStudentStatus_latest_pending Scenario.calm "s1"
              (Scenario.classroom "normal")
              {| status := "normal"; updated_at := 0 |}
              eq_refl eq_refl eq_refl) as (r & Hr & _).
  exists r. exact Hr.
Defined.

End StatusEndpoint.

Section StatusAfterWrites.

Import Status.

(** The answer for a known student on a store that takes both reads. *)
Lemma status_of_known (e : env) (sid : string) (s : store) (stu : student) :
  students s !! sid = Some stu →
  query_fails e 0 = false → query_fails e 1 = false →
  status_of e sid s =
    Return {| status_code := 200;
              status_body :=
                StudentStatus (sid, stu) (latest (pending_of sid s)) |}.
Proof.
  intros Hstu H0 H1.
  unfold status_of, getStudentStatus, try_catch, bind, getQuery, ret,
    select_student, select_latest_intervention. cbn.
  rewrite H0. cbn. rewrite Hstu. cbn. rewrite H1. cbn.
  fold (pending_of sid s). by destruct (latest (pending_of sid s)).
Qed.

Lemma latest_newest (l : list intervention) (n : intervention) :
  (∀ j, j ∈ l → (assigned_at j < assigned_at n)%Z) →
  latest (l ++ [n]) = Some n.
Proof.
  induction l as [|k l IH]; intros H; [done|]. cbn.
  rewrite IH by (intros j Hj; apply H; by right).
  assert (Hk : (assigned_at k < assigned_at n)%Z) by (apply H; by left).
  by apply Z.ltb_lt in Hk as ->.
Qed.

Lemma latest_is_Some (l : list intervention) (i : intervention) :
  i ∈ l → ∃ j, latest l = Some j ∧ j ∈ l.
Proof.
  intros Hi. destruct (latest l) as [j|] eqn:E.
  - exists j. split; [done|]. by apply latest_greatest.
  - apply latest_None in E as ->. by apply elem_of_nil in Hi.
Qed.

(** X3: after an assignment that the store takes, made at a time later
    than the student's earlier pending interventions, the status
    endpoint shows the student as [remedial] together with the
    intervention just created. *)
Theorem status_after_assign (e1 e2 : env) (b : body) (s : store)
  (sid task : string) (stu : student) :
  present (student_id b) = Some sid →
  present (task_description b) = Some task →
  students s !! sid = Some stu →
  (∀ j, j ∈ interventions s → int_student_id j = sid →
        int_status j = "pending" → (assigned_at j < now e1)%Z) →
  query_fails e1 0 = false → query_fails e1 1 = false →
  query_fails e2 0 = false → query_fails e2 1 = false →
  status_of e2 sid (store_after (assignIntervention e1 b) s) =
    Return
      {| status_code := 200;
         status_body :=
           StudentStatus
             (sid, {| status := "remedial"; updated_at := now e1 |})
             (Some {| id := next_intervention_id s;
                      int_student_id := sid;
                      int_task_description := task;
                      int_status := "pending";
                      assigned_at := now e1;
                      completed_at := None |}) |}.
Proof.
  intros Hsid Htask Hstu Hold H10 H11 H20 H21. unfold store_after.
  rewrite (assignIntervention_assigned e1 b s sid task Hsid Htask H10 H11).
  cbn [fst snd].
  rewrite (status_of_known e2 sid _ (set_status "remedial" (now e1) stu));
    try done.
  - do 3 f_equal. unfold pending_of, apply_sql. cbn.
    rewrite filter_app, filter_cons_True, filter_nil.
    + apply latest_newest. intros j Hj. cbn.
      apply list_elem_of_filter in Hj as [Hj Hin].
      apply of_student_iff in Hj as [Hjs Hjp]. by apply Hold.
    + cbn. unfold of_student. cbn. by rewrite String.eqb_refl.
  - unfold apply_sql. cbn. by rewrite lookup_alter_eq, Hstu.
Qed.

(** X3 for student ["s1"] and the task ["Redo quiz 4"]. *)
Lemma status_after_assign_witness :
  status_of Scenario.calm "s1"
    (store_after
       (assignIntervention Scenario.calm (Scenario.assign "s1" "Redo quiz 4"))
       (Scenario.classroom "needs_intervention")) =
    Return
      {| status_code := 200;
         status_body :=
           StudentStatus
             ("s1", {| status := "remedial"; updated_at := 100 |})
             (Some {| id := 1; int_student_id := "s1";
                      int_task_description := "Redo quiz 4";
                      int_status := "pending"; assigned_at := 100;
                      completed_at := None |}) |}.
Proof.
  apply (status_after_assign Scenario.calm Scenario.calm
           (Scenario.assign "s1" "Redo quiz 4")
           (Scenario.classroom "needs_intervention") "s1" "Redo quiz 4"
           {| status := "needs_intervention"; updated_at := 0 |});
    try reflexivity.
  intros j Hj. simpl in Hj. by apply elem_of_nil in Hj.
Defined.

(** X4: completion looks at one intervention only.  When two
    interventions are assigned to a student and the second is
    completed, the student is [normal] again although the first is
    still pending, and the status endpoint shows the [normal] student
    together with a pending intervention. *)
Theorem completion_ignores_other_pending (e1 e2 e3 e4 : env) (b1 b2 : body)
  (s : store) (sid task1 task2 : string) (stu : student) :
  present (student_id b1) = Some sid →
  present (task_description b1) = Some task1 →
  present (student_id b2) = Some sid →
  present (task_description b2) = Some task2 →
  students s !! sid = Some stu →
  (next_intervention_id s + 1 ≠ 0)%Z →
  query_fails e1 0 = false → query_fails e1 1 = false →
  query_fails e2 0 = false → query_fails e2 1 = false →
  query_fails e3 0 = false → query_fails e3 1 = false →
  query_fails e4 0 = false → query_fails e4 1 = false →
  let s1 := store_after (assignIntervention e1 b1) s in
  let s2 := store_after (assignIntervention e2 b2) s1 in
  let second := (next_intervention_id s + 1)%Z in
  let s3 :=
    store_after (completeIntervention e3 (Scenario.complete sid second)) s2 in
  response_of (completeIntervention e3 (Scenario.complete sid second)) s2
    = ok SuccessBody ∧
  {| id := next_intervention_id s; int_student_id := sid;
     int_task_description := task1; int_status := "pending";
     assigned_at := now e1; completed_at := None |} ∈ interventions s3 ∧
  ∃ i,
    status_of e4 sid s3 =
      Return
        {| status_code := 200;
           status_body :=
             StudentStatus
               (sid, {| status := "normal"; updated_at := now e3 |})
               (Some i) |} ∧
    int_status i = "pending" ∧ int_student_id i = sid.
Proof.
  intros Hs1 Ht1 Hs2 Ht2 Hstu Hnext H10 H11 H20 H21 H30 H31 H40 H41.
  cbn zeta. unfold store_after, response_of.
  rewrite (assignIntervention_assigned e1 b1 s sid task1 Hs1 Ht1 H10 H11).
  cbn [fst snd].
  rewrite (assignIntervention_assigned e2 b2 _ sid task2 Hs2 Ht2 H20 H21).
  cbn [fst snd].
  assert (Hsid : present (Some sid) = Some sid).
  { unfold present in Hs1 |- *. destruct (student_id b1) as [x|]; [|done].
    destruct (String.eqb x "") eqn:E; [done|].
    injection Hs1 as ->. by rewrite E. }
  assert (Hiid : present_id (Some (next_intervention_id s + 1)%Z)
                 = Some (next_intervention_id s + 1)%Z).
  { unfold present_id. by apply Z.eqb_neq in Hnext as ->. }
  set (first := {| id := next_intervention_id s; int_student_id := sid;
                   int_task_description := task1; int_status := "pending";
                   assigned_at := now e1; completed_at := None |}).
  set (new := {| id := (next_intervention_id s + 1)%Z;
                 int_student_id := sid; int_task_description := task2;
                 int_status := "pending"; assigned_at := now e2;
                 completed_at := None |}).
  assert (Hnew : matches (next_intervention_id s + 1) sid new = true).
  { by apply matches_iff. }
  assert (Hfirst : matches (next_intervention_id s + 1) sid first = false).
  { apply not_true_is_false. rewrite matches_iff. cbn. lia. }
  rewrite (completeIntervention_completed e3
             (Scenario.complete sid (next_intervention_id s + 1)) _ sid
             (next_intervention_id s + 1)%Z Hsid Hiid H30); [| |done].
  2:{ unfold apply_sql. cbn. fold first new.
      rewrite !filter_app, !length_app.
      rewrite (filter_cons_True _ new) by done. cbn. lia. }
  cbn [fst snd]. split; [done|].
  assert (Hin : first ∈ interventions
            (apply_sql (now e3) (UpdateStudentStatus "normal" sid)
               (apply_sql (now e3)
                  (UpdateIntervention "completed"
                     (next_intervention_id s + 1) sid)
                  (apply_sql (now e2) (UpdateStudentStatus "remedial" sid)
                     (apply_sql (now e2) (InsertIntervention sid task2)
                        (apply_sql (now e1)
                           (UpdateStudentStatus "remedial" sid)
                           (apply_sql (now e1)
                              (InsertIntervention sid task1) s))))))).
  { unfold apply_sql. cbn. fold first new. rewrite !fmap_app.
    apply elem_of_app. left. apply elem_of_app. right. cbn.
    unfold set_completed at 1. rewrite Hfirst. by left. }
  split; [exact Hin|].
  assert (Hpend : first ∈ pending_of sid
            (apply_sql (now e3) (UpdateStudentStatus "normal" sid)
               (apply_sql (now e3)
                  (UpdateIntervention "completed"
                     (next_intervention_id s + 1) sid)
                  (apply_sql (now e2) (UpdateStudentStatus "remedial" sid)
                     (apply_sql (now e2) (InsertIntervention sid task2)
                        (apply_sql (now e1)
                           (UpdateStudentStatus "remedial" sid)
                           (apply_sql (now e1)
                              (InsertIntervention sid task1) s))))))).
  { by apply elem_of_pending_of. }
  destruct (latest_is_Some _ _ Hpend) as (i & Hi & Hiin).
  exists i. apply elem_of_pending_of in Hiin as (_ & His & Hip).
  split; [|done].
  rewrite (status_of_known e4 sid _ (set_status "normal" (now e3)
             (set_status "remedial" (now e2)
                (set_status "remedial" (now e1) stu)))); try done.
  - by rewrite Hi.
  - unfold apply_sql. cbn. by rewrite !lookup_alter_eq, Hstu.
Qed.

(** X4 for student ["s1"] with the tasks ["Redo quiz 4"] and ["Essay"]:
    the second, number 2, is completed. *)
Lemma completion_ignores_other_pending_witness :
  response_of
    (completeIntervention Scenario.calm (Scenario.complete "s1" 2))
    (store_after
       (assignIntervention Scenario.calm (Scenario.assign "s1" "Essay"))
       (store_after
          (assignIntervention Scenario.calm
             (Scenario.assign "s1" "Redo quiz 4"))
          (Scenario.classroom "needs_intervention")))
    = ok SuccessBody.
Proof.
  refine (proj1
    (completion_ignores_other_pending Scenario.calm Scenario.calm
       Scenario.calm Scenario.calm (Scenario.assign "s1" "Redo quiz 4")
       (Scenario.assign "s1" "Essay")
       (Scenario.classroom "needs_intervention") "s1" "Redo quiz 4" "Essay"
       {| status := "needs_intervention"; updated_at := 0 |}
       _ _ _ _ _ _ _ _ _ _ _ _ _ _)); try reflexivity.
  simpl. discriminate.
Defined.

End StatusAfterWrites.

(** ** Every outcome of a request *)

Section Outcomes.

Import Protocol.

Variables (e : env) (b : body) (s : store).

Lemma present_None (x : option string) : present x = None ↔ blank x.
Proof.
  unfold present, blank. destruct x as [t|]; [|by split; [left|]].
  destruct (String.eqb t "") eqn:E.
  - apply String.eqb_eq in E as ->. by split; [right|].
  - apply String.eqb_neq in E. split; [done|].
    intros [H|H]; [done|]. by injection H.
Qed.

Lemma present_id_None (x : option Z) :
  present_id x = None ↔ x = None ∨ x = Some 0%Z.
Proof.
  unfold present_id. destruct x as [z|]; [|by split; [left|]].
  destruct (Z.eqb z 0) eqn:E.
  - apply Z.eqb_eq in E as ->. by split; [right|].
  - apply Z.eqb_neq in E. split; [done|].
    intros [H|H]; [done|]. by injection H.
Qed.

Lemma is_undefined_true (v : value) : is_undefined v = true ↔ v = Undefined.
Proof. by destruct v. Qed.

Lemma dailyCheckin_cases :
  (missing_fields (DailyCheckin b) ∧
   handle (dailyCheckin e b) s =
     (failed 400 "Missing required fields", s, [])) ∨
  ∃ sid,
    present (student_id b) = Some sid ∧ quiz_score b ≠ Undefined ∧
    (handle (dailyCheckin e b) s =
       (failed 500 "Failed to process daily check-in", s,
        [Query (checkin_log sid b) false]) ∨
     (∃ st,
        handle (dailyCheckin e b) s =
          (failed 500 "Failed to process daily check-in",
           apply_sql (now e) (checkin_log sid b) s,
           [Query (checkin_log sid b) true;
            Query (UpdateStudentStatus st sid) false])) ∨
     handle (dailyCheckin e b) s =
       (ok (StatusBody "On Track" None),
        apply_sql (now e) (UpdateStudentStatus "normal" sid)
          (apply_sql (now e) (checkin_log sid b) s),
        [Query (checkin_log sid b) true;
         Query (UpdateStudentStatus "normal" sid) true;
         Emit sid (status_payload "normal")]) ∨
     ∃ warning,
       handle (dailyCheckin e b) s =
         (ok (StatusBody "Pending Mentor Review" warning),
          apply_sql (now e) (UpdateStudentStatus "needs_intervention" sid)
            (apply_sql (now e) (checkin_log sid b) s),
          [Query (checkin_log sid b) true;
           Query (UpdateStudentStatus "needs_intervention" sid) true;
           Notify sid (quiz_score b) (parseFocusMinutes b);
           Emit sid (status_payload "needs_intervention")])).
Proof.
  destruct (present (student_id b)) as [sid|] eqn:Hsid.
  2:{ left. split; [left; by apply present_None|].
      unfold_handler. by rewrite Hsid. }
  destruct (is_undefined (quiz_score b)) eqn:Hu.
  { left. split; [right; by apply is_undefined_true|].
    unfold_handler. by rewrite Hsid, Hu. }
  assert (Hscore : quiz_score b ≠ Undefined).
  { intros H. apply is_undefined_true in H. congruence. }
  right. exists sid. split; [done|]. split; [done|].
  destruct (query_fails e 0) eqn:H0.
  { left. by apply dailyCheckin_log_rejected. }
  destruct (query_fails e 1) eqn:H1.
  { right. left. by apply dailyCheckin_update_rejected. }
  destruct (isSuccess (quiz_score b) (parseFocusMinutes b)) eqn:Hp.
  - right. right. left. by apply dailyCheckin_on_track.
  - right. right. right. eexists.
    by apply dailyCheckin_needs_intervention.
Qed.

Lemma reportCheat_cases :
  (missing_fields (ReportCheat b) ∧
   handle (reportCheat e b) s =
     (failed 400 "Missing required fields", s, [])) ∨
  ∃ sid,
    present (student_id b) = Some sid ∧
    (handle (reportCheat e b) s =
       (failed 500 "Failed to log cheat", s,
        [Query (cheat_log sid b) false]) ∨
     handle (reportCheat e b) s =
       (failed 500 "Failed to log cheat",
        apply_sql (now e) (cheat_log sid b) s,
        [Query (cheat_log sid b) true;
         Query (UpdateStudentStatus "needs_intervention" sid) false]) ∨
     ∃ j p,
       handle (reportCheat e b) s =
         (ok j,
          apply_sql (now e) (UpdateStudentStatus "needs_intervention" sid)
            (apply_sql (now e) (cheat_log sid b) s),
          [Query (cheat_log sid b) true;
           Query (UpdateStudentStatus "needs_intervention" sid) true;
           Notify sid (Num (Fin 0)) (parseFocusMinutes b);
           Emit sid p]) ∧
       p_status p = "needs_intervention").
Proof.
  destruct (present (student_id b)) as [sid|] eqn:Hsid.
  2:{ left. split; [by apply present_None|].
      unfold_handler. by rewrite Hsid. }
  right. exists sid. split; [done|].
  destruct (query_fails e 0) eqn:H0.
  { left. by apply reportCheat_log_rejected. }
  destruct (query_fails e 1) eqn:H1.
  { right. left. by apply reportCheat_update_rejected. }
  right. right. eexists _, _. split.
  - by apply reportCheat_logged.
  - by destruct (notification e).
Qed.

Lemma assignIntervention_cases :
  (missing_fields (AssignIntervention b) ∧
   handle (assignIntervention e b) s =
     (failed 400 "Missing required fields", s, [])) ∨
  ∃ sid task,
    present (student_id b) = Some sid ∧
    present (task_description b) = Some task ∧
    (handle (assignIntervention e b) s =
       (failed 500 "Failed to assign intervention", s,
        [Query (InsertIntervention sid task) false]) ∨
     handle (assignIntervention e b) s =
       (failed 500 "Failed to assign intervention",
        apply_sql (now e) (InsertIntervention sid task) s,
        [Query (InsertIntervention sid task) true;
         Query (UpdateStudentStatus "remedial" sid) false]) ∨
     ∃ p,
       handle (assignIntervention e b) s =
         (ok (AssignedBody (next_intervention_id s)),
          apply_sql (now e) (UpdateStudentStatus "remedial" sid)
            (apply_sql (now e) (InsertIntervention sid task) s),
          [Query (InsertIntervention sid task) true;
           Query (UpdateStudentStatus "remedial" sid) true;
           Emit sid p]) ∧
       p_status p = "remedial").
Proof.
  destruct (present (student_id b)) as [sid|] eqn:Hsid.
  2:{ left. split; [left; by apply present_None|].
      unfold_handler. by rewrite Hsid. }
  destruct (present (task_description b)) as [task|] eqn:Htask.
  2:{ left. split; [right; by apply present_None|].
      unfold_handler. by rewrite Hsid, Htask. }
  right. exists sid, task. split; [done|]. split; [done|].
  destruct (query_fails e 0) eqn:H0.
  { left. by apply assignIntervention_insert_rejected. }
  destruct (query_fails e 1) eqn:H1.
  { right. left. by apply assignIntervention_update_rejected. }
  right. right. eexists. split.
  - by apply assignIntervention_assigned.
  - done.
Qed.

Lemma completeIntervention_cases :
  (missing_fields (CompleteIntervention b) ∧
   handle (completeIntervention e b) s =
     (failed 400 "Missing required fields", s, [])) ∨
  ∃ sid iid,
    present (student_id b) = Some sid ∧
    present_id (intervention_id b) = Some iid ∧
    (handle (completeIntervention e b) s =
       (failed 500 "Failed to complete intervention", s,
        [Query (UpdateIntervention "completed" iid sid) false]) ∨
     handle (completeIntervention e b) s =
       (failed 404 "Intervention not found",
        apply_sql (now e) (UpdateIntervention "completed" iid sid) s,
        [Query (UpdateIntervention "completed" iid sid) true]) ∨
     handle (completeIntervention e b) s =
       (failed 500 "Failed to complete intervention",
        apply_sql (now e) (UpdateIntervention "completed" iid sid) s,
        [Query (UpdateIntervention "completed" iid sid) true;
         Query (UpdateStudentStatus "normal" sid) false]) ∨
     ∃ p,
       handle (completeIntervention e b) s =
         (ok SuccessBody,
          apply_sql (now e) (UpdateStudentStatus "normal" sid)
            (apply_sql (now e) (UpdateIntervention "completed" iid sid) s),
          [Query (UpdateIntervention "completed" iid sid) true;
           Query (UpdateStudentStatus "normal" sid) true;
           Emit sid p]) ∧
       p_status p = "normal").
Proof.
  destruct (present (student_id b)) as [sid|] eqn:Hsid.
  2:{ left. split; [left; by apply present_None|].
      unfold_handler. by rewrite Hsid. }
  destruct (present_id (intervention_id b)) as [iid|] eqn:Hiid.
  2:{ left. split; [right; by apply present_id_None|].
      unfold_handler. by rewrite Hsid, Hiid. }
  right. exists sid, iid. split; [done|]. split; [done|].
  destruct (query_fails e 0) eqn:H0.
  { left. by apply completeIntervention_rejected. }
  destruct (length (filter (λ i, matches iid sid i = true)
                           (interventions s))) as [|n] eqn:Ha.
  { right. left. by apply completeIntervention_not_found. }
  destruct (query_fails e 1) eqn:H1.
  { right. right. left.
    apply completeIntervention_update_rejected; try done. by rewrite Ha. }
  right. right. right. eexists. split.
  - apply completeIntervention_completed; try done. by rewrite Ha.
  - done.
Qed.

End Outcomes.

Section RequestDiscipline.

Import Protocol.

Ltac serve_cases e r s :=
  let H := fresh "H" in
  destruct r as [b|b|b|b]; cbn [serve];
  [ destruct (dailyCheckin_cases e b s)
      as [[Hm H]|(sid' & Hsid & Hscore & [H|[[st H]|[H|[w H]]]])]
  | destruct (reportCheat_cases e b s)
      as [[Hm H]|(sid' & Hsid & [H|[H|(j & p' & H & Hp)]])]
  | destruct (assignIntervention_cases e b s)
      as [[Hm H]|(sid' & task & Hsid & Htask & [H|[H|(p' & H & Hp)]])]
  | destruct (completeIntervention_cases e b s)
      as [[Hm H]|(sid' & iid & Hsid & Hiid & [H|[H|[H|(p' & H & Hp)]]])] ];
  unfold response_of, store_after, effects_of; rewrite H; cbn [fst snd].

(** X5: for a request with a parsed body whose [student_id] and
    [task_description] are texts and whose [intervention_id] is an
    integer where they are present: when a field that the handler
    requires is absent or empty ([student_id]; for a check-in an
    undefined [quiz_score]; for an assignment the task; for a
    completion an [intervention_id] that is absent or 0), the request is
    answered 400 and has no effect at all, the store being unchanged
    and nothing attempted; and such a request is answered 400 in no
    other case, a [quiz_score] of [null] or 0 not being missing. *)
Theorem missing_fields_rejected (e : env) (r : request) (s : store) :
  (missing_fields r →
     handle (serve e r) s =
       (failed 400 "Missing required fields", s, [])) ∧
  (code_of (response_of (serve e r) s) = Some 400 → missing_fields r).
Proof.
  split.
  - intros Hmiss.
    destruct r as [b|b|b|b]; cbn [serve missing_fields] in *.
    + destruct (dailyCheckin_cases e b s)
        as [[_ H]|(sid & Hsid & Hscore & _)]; [done|].
      destruct Hmiss as [Hb|Hq]; [|done].
      apply present_None in Hb. congruence.
    + destruct (reportCheat_cases e b s) as [[_ H]|(sid & Hsid & _)];
        [done|].
      apply present_None in Hmiss. congruence.
    + destruct (assignIntervention_cases e b s)
        as [[_ H]|(sid & task & Hsid & Htask & _)]; [done|].
      destruct Hmiss as [Hb|Hb]; apply present_None in Hb; congruence.
    + destruct (completeIntervention_cases e b s)
        as [[_ H]|(sid & iid & Hsid & Hiid & _)]; [done|].
      destruct Hmiss as [Hb|Hb].
      * apply present_None in Hb. congruence.
      * apply present_id_None in Hb. congruence.
  - serve_cases e r s; try done; cbn; congruence.
Qed.

(** X5 for a check-in whose [student_id] is the empty string. *)
Lemma missing_fields_rejected_witness :
  handle (serve Scenario.calm (DailyCheckin (Scenario.checkin "" 9 90)))
         (Scenario.classroom "normal") =
    (failed 400 "Missing required fields", Scenario.classroom "normal", []).
Proof.
  apply (missing_fields_rejected Scenario.calm
           (DailyCheckin (Scenario.checkin "" 9 90))
           (Scenario.classroom "normal")).
  simpl. left. right. reflexivity.
Defined.

(** X6: a request that is not answered 200 changes no student: after a
    400, 404 or 500 the [students] table is what it was, whatever else
    the request left behind. *)
Theorem failure_keeps_students (e : env) (r : request) (s : store) :
  code_of (response_of (serve e r) s) ≠ Some 200 →
  students (store_after (serve e r) s) = students s.
Proof.
  serve_cases e r s; try done; cbn; congruence.
Qed.

(** X6 for a check-in whose log row the store rejects. *)
Lemma failure_keeps_students_witness :
  let e := {| now := 5; query_fails := λ _, true;
              notification := Raises |} in
  students
    (store_after (serve e (DailyCheckin (Scenario.checkin "s1" 9 90)))
                 (Scenario.classroom "normal"))
    = students (Scenario.classroom "normal").
Proof.
  intros e.
  apply (failure_keeps_students e
           (DailyCheckin (Scenario.checkin "s1" 9 90))
           (Scenario.classroom "normal")).
  vm_compute. discriminate.
Defined.

(** X7: a status is emitted only after it was stored.  Whenever a
    request emits a payload for a student of the store, the student's
    state after the request is the status of that payload. *)
Theorem emitted_status_is_stored (e : env) (r : request) (s : store)
  (sid : string) (p : payload) (stu : student) :
  students s !! sid = Some stu →
  Emit sid p ∈ effects_of (serve e r) s →
  student_state (store_after (serve e r) s) sid = Some (p_status p).
Proof.
  intros Hstu. serve_cases e r s; intros Hin.
  all: repeat (apply elem_of_cons in Hin as [Hin|Hin]; [try done|]).
  all: try by apply elem_of_nil in Hin.
  all: injection Hin as -> ->; try rewrite Hp.
  all: by apply (state_after_update _ _ _ _ stu).
Qed.

(** X7 for a passing check-in of student ["s1"]. *)
Lemma emitted_status_is_stored_witness :
  student_state
    (store_after
       (serve Scenario.calm (DailyCheckin (Scenario.checkin "s1" 9 90)))
       (Scenario.classroom "remedial")) "s1" = Some "normal".
Proof.
  apply (emitted_status_is_stored Scenario.calm
           (DailyCheckin (Scenario.checkin "s1" 9 90))
           (Scenario.classroom "remedial") "s1" (status_payload "normal")
           {| status := "remedial"; updated_at := 0 |}).
  - reflexivity.
  - vm_compute. apply list_elem_of_In. simpl. tauto.
Defined.

(** X8: the mentor is notified only by check-ins and violation
    reports, at most once per request, and only after the request has
    stored [needs_intervention] for the student. *)
Theorem notification_follows_state (e : env) (r : request) (s : store)
  (sid : string) (score : value) (focus : number) :
  Notify sid score focus ∈ effects_of (serve e r) s →
  (∃ b, r = DailyCheckin b ∨ r = ReportCheat b) ∧
  (∃ before after,
     effects_of (serve e r) s =
       (before ++ Notify sid score focus :: after)%list ∧
     Query (UpdateStudentStatus "needs_intervention" sid) true ∈ before ∧
     (∀ ev, ev ∈ (before ++ after)%list → is_notify ev = false)) ∧
  (∀ stu, students s !! sid = Some stu →
     student_state (store_after (serve e r) s) sid
       = Some "needs_intervention").
Proof.
  serve_cases e r s; intros Hin.
  all: repeat (apply elem_of_cons in Hin as [Hin|Hin]; [try done|]).
  all: try by apply elem_of_nil in Hin.
  all: injection Hin as -> -> ->.
  all: split; [eexists; eauto|]; split;
    [|intros stu Hstu; by apply (state_after_update _ _ _ _ stu)].
  all: eexists [_; _], [_]; split; [done|]; split;
    [apply elem_of_cons; right; by left|].
  all: intros ev Hev; cbn in Hev.
  all: repeat (apply elem_of_cons in Hev as [->|Hev]; [done|]).
  all: by apply elem_of_nil in Hev.
Qed.

(** X8 for a violation report of student ["s1"] with the transport
    down. *)
Lemma notification_follows_state_witness :
  ∃ b,
    ReportCheat (Scenario.report "s1" "05:30" "window blurred") =
      DailyCheckin b ∨
    ReportCheat (Scenario.report "s1" "05:30" "window blurred") =
      ReportCheat b.
Proof.
  refine (proj1
    (notification_follows_state Scenario.transport_down
       (ReportCheat (Scenario.report "s1" "05:30" "window blurred"))
       (Scenario.classroom "normal") "s1" (Num (Fin 0)) (Fin (11 # 2)) _)).
  vm_compute. apply list_elem_of_In. simpl. tauto.
Defined.

End RequestDiscipline.

(** ** What no sequence of requests does *)

Section Sequences.

Import Protocol.

Lemma preserves_emit_any (I : store → Prop) (to : string) (p : payload) :
  preserves I (emitStudentStatus to p).
Proof. by intros w. Qed.

Lemma preserves_notify_any (I : store → Prop) (e : env) (to : string)
  (score : value) (focus : number) :
  preserves I (triggerMentorNotification e to score focus).
Proof.
  intros w Hw. unfold triggerMentorNotification.
  by destruct (notification e).
Qed.

(** A property of the store that the handlers' statements keep is kept
    by every request. *)
Lemma serve_preserves (I : store → Prop) :
  (∀ now q s, handler_statement q → I s → I (apply_sql now q s)) →
  ∀ e r, preserves I (serve e r).
Proof.
  intros HI e r.
  destruct r as [b|b|b|b]; cbn [serve];
    unfold dailyCheckin, reportCheat, assignIntervention,
      completeIntervention, respond.
  all: repeat first
    [ apply preserves_ret
    | apply preserves_throw
    | apply preserves_emit_any
    | apply preserves_notify_any
    | apply preserves_try_catch
    | apply preserves_bind; [|intros ?]
    | apply preserves_runQuery; intros ? ?; apply HI;
      [cbn; unfold valid_state; tauto | done]
    | match goal with
      | |- preserves _ (if ?c then _ else _) => destruct c
      | |- preserves _ (match ?x with _ => _ end) => destruct x
      end ].
Qed.

Lemma serve_all_preserves (I : store → Prop) :
  (∀ now q s, handler_statement q → I s → I (apply_sql now q s)) →
  ∀ rs s, I s → I (serve_all rs s).
Proof.
  intros HI rs. induction rs as [|[e r] rs IH]; intros s Hs; [done|].
  cbn. apply IH.
  pose proof (serve_preserves I HI e r
                {| db := s; trace := []; issued := 0 |} Hs) as H.
  unfold store_after, handle. by destruct (serve e r _) as [o w].
Qed.

(** X9: no sequence of requests creates or deletes a student: the
    identifiers in [students] stay the same.  A request for an unknown
    student therefore never registers that student. *)
Theorem students_never_created (rs : list (env * request)) (s : store) :
  dom (students (serve_all rs s)) = dom (students s).
Proof.
  apply (serve_all_preserves (λ s', dom (students s') = dom (students s)));
    [|done].
  intros now q s' _ Hs'. destruct q; try done.
  unfold apply_sql. cbn. by rewrite dom_alter_L.
Qed.

(** X10: the log is append-only.  After any sequence of requests the
    earlier log is a prefix of the log; a single request adds at most
    one row, and an assignment or a completion adds none. *)
Theorem daily_logs_append_only :
  (∀ rs s, daily_logs s `prefix_of` daily_logs (serve_all rs s)) ∧
  (∀ e r s,
     daily_logs (store_after (serve e r) s) = daily_logs s ∨
     ∃ row,
       daily_logs (store_after (serve e r) s)
         = (daily_logs s ++ [row])%list) ∧
  (∀ e b s,
     daily_logs (store_after (assignIntervention e b) s) = daily_logs s ∧
     daily_logs (store_after (completeIntervention e b) s) = daily_logs s).
Proof.
  split; [|split].
  - intros rs s.
    apply (serve_all_preserves
             (λ s', daily_logs s `prefix_of` daily_logs s')); [|done].
    intros now q s' _ Hs'. destruct q; try done.
    unfold apply_sql. cbn. by apply prefix_app_r.
  - intros e r s.
    destruct r as [b|b|b|b]; cbn [serve]; unfold store_after.
    + destruct (dailyCheckin_cases e b s)
        as [[_ H]|(sid & _ & _ & [H|[[st H]|[H|[w H]]]])];
        rewrite H; cbn; eauto.
    + destruct (reportCheat_cases e b s)
        as [[_ H]|(sid & _ & [H|[H|(j & p & H & _)]])];
        rewrite H; cbn; eauto.
    + destruct (assignIntervention_cases e b s)
        as [[_ H]|(sid & task & _ & _ & [H|[H|(p & H & _)]])];
        rewrite H; cbn; eauto.
    + destruct (completeIntervention_cases e b s)
        as [[_ H]|(sid & iid & _ & _ & [H|[H|[H|(p & H & _)]]])];
        rewrite H; cbn; eauto.
  - intros e b s. unfold store_after. split.
    + destruct (assignIntervention_cases e b s)
        as [[_ H]|(sid & task & _ & _ & [H|[H|(p & H & _)]])];
        by rewrite H.
    + destruct (completeIntervention_cases e b s)
        as [[_ H]|(sid & iid & _ & _ & [H|[H|[H|(p & H & _)]]])];
        by rewrite H.
Qed.

Lemma evolves_refl (i : intervention) : evolves i i.
Proof. by repeat split. Qed.

Lemma evolves_trans (i j k : intervention) :
  evolves i j → evolves j k → evolves i k.
Proof.
  intros (H1 & H2 & H3 & H4 & H5) (K1 & K2 & K3 & K4 & K5).
  repeat split; try congruence. auto.
Qed.

Lemma set_completed_evolves (now iid : Z) (sid : string) (i : intervention) :
  evolves i (set_completed "completed" now iid sid i).
Proof.
  unfold set_completed. destruct (matches iid sid i); by repeat split.
Qed.

(** X11: an intervention is never deleted, moved or reassigned, and a
    completion is never undone.  After any sequence of requests every
    earlier row is still at its place with the same id, student, task
    and assignment time, and if it was completed it still is. *)
Theorem interventions_only_evolve (rs : list (env * request)) (s : store)
  (k : nat) (i : intervention) :
  interventions s !! k = Some i →
  ∃ i', interventions (serve_all rs s) !! k = Some i' ∧ evolves i i'.
Proof.
  revert k i.
  apply (serve_all_preserves
           (λ s', ∀ k i, interventions s !! k = Some i →
                    ∃ i', interventions s' !! k = Some i' ∧ evolves i i')).
  - intros now q s' Hq Hs' k i Hi.
    destruct (Hs' k i Hi) as (j & Hj & Hij).
    destruct q as [? ? ? ?|? ?|? ?|st iid sid]; try by exists j.
    + exists j. split; [|done]. unfold apply_sql. cbn.
      by apply lookup_app_l_Some.
    + cbn in Hq. subst st.
      exists (set_completed "completed" now iid sid j). split.
      * unfold apply_sql. cbn. by rewrite list_lookup_fmap, Hj.
      * eapply evolves_trans; [done|apply set_completed_evolves].
  - intros k i Hi. exists i. split; [done|apply evolves_refl].
Qed.

(** X11 for the completed intervention of [after_completion] over a
    new assignment and an attempt to complete another intervention. *)
Lemma interventions_only_evolve_witness :
  ∃ i',
    interventions
      (serve_all
         [(Scenario.calm, AssignIntervention (Scenario.assign "s1" "Essay"));
          (Scenario.calm, CompleteIntervention (Scenario.complete "s1" 2))]
         Scenario.after_completion) !! 0 = Some i' ∧
    evolves
      {| id := 1; int_student_id := "s1";
         int_task_description := "Revise chapter 3";
         int_status := "completed"; assigned_at := 10;
         completed_at := Some 50%Z |} i'.
Proof.
  apply (interventions_only_evolve _ Scenario.after_completion 0).
  reflexivity.
Defined.

End Sequences.

(** ** When the normalizer gives [NaN] *)

Section NormalizerNaN.

Import Protocol.

Lemma in_range_mkFin (q : Q) : in_range (mkFin q).
Proof.
  unfold mkFin. destruct (Qle_bool overflow_bound (Qabs q)) eqn:E.
  - by destruct (Qle_bool 0 q).
  - cbn. apply Qle_bool_false in E. by rewrite Qred_correct.
Qed.

Lemma in_range_neg (n : number) : in_range n → in_range (neg n).
Proof.
  destruct n as [| | |q]; try done. unfold in_range, neg. intros H.
  by rewrite Qabs_opp.
Qed.

Lemma in_range_unsigned_decimal (cs : list ascii) (n : number) :
  unsigned_decimal cs = Some n → in_range n.
Proof.
  unfold unsigned_decimal. destruct (decide _); [by intros [= <-]|].
  destruct (digits 10 cs) as [[ip ni] r1].
  destruct (match r1 with
            | "."%char :: t => digits 10 t
            | _ => (0%Z, 0, r1)
            end) as [[fp nf] r2].
  destruct (_ && _)%bool; [done|].
  destruct (exponent_part r2); [|done].
  intros [= <-]. apply in_range_mkFin.
Qed.

Lemma in_range_decimal_literal (cs : list ascii) (n : number) :
  decimal_literal cs = Some n → in_range n.
Proof.
  unfold decimal_literal.
  assert (Hneg : ∀ t, neg <$> unsigned_decimal t = Some n → in_range n).
  { intros t H. destruct (unsigned_decimal t) as [m|] eqn:E; [|done].
    injection H as <-. by apply in_range_neg, (in_range_unsigned_decimal t). }
  destruct cs as [|c t]; [apply in_range_unsigned_decimal|].
  destruct c as [[] [] [] [] [] [] [] []];
    first [apply Hneg | apply in_range_unsigned_decimal].
Qed.

Lemma in_range_non_decimal_literal (cs : list ascii) (n : number) :
  non_decimal_literal cs = Some n → in_range n.
Proof.
  unfold non_decimal_literal.
  repeat match goal with
         | |- context [match ?x with _ => _ end] => destruct x; try done
         end.
  all: intros [= <-]; apply in_range_mkFin.
Qed.

(** [Number] never returns a finite value beyond the overflow
    threshold. *)
Lemma in_range_Number (s : string) : in_range (Number s).
Proof.
  unfold Number. destruct (trim _) as [|c t] eqn:Et; [by vm_compute|].
  destruct (non_decimal_literal (c :: t)) as [n|] eqn:En.
  { by apply (in_range_non_decimal_literal (c :: t)). }
  destruct (decimal_literal (c :: t)) as [n|] eqn:Ed; [|done].
  by apply (in_range_decimal_literal (c :: t)).
Qed.

Lemma mkFin_not_NaN (q : Q) : mkFin q ≠ NaN.
Proof.
  unfold mkFin. destruct (Qle_bool _ _); [|done].
  by destruct (Qle_bool 0 q).
Qed.

Lemma div_60_finite (q : Q) :
  in_range (Fin q) → ∃ q', div (Fin q) (Fin 60) = Fin q'.
Proof.
  cbn. intros H. unfold mkFin.
  assert (Hq : (Qabs (q / 60) <= Qabs q)%Q).
  { unfold Qdiv. rewrite Qabs_Qmult.
    pose proof (Qabs_nonneg q) as Hn.
    change (Qabs (/ 60)) with (1 # 60)%Q. lra. }
  assert (E : Qle_bool overflow_bound (Qabs (q / 60)) = false).
  { apply Qle_bool_false. lra. }
  rewrite E. by eexists.
Qed.

Lemma add_NaN (a b : number) :
  a ≠ NaN → b ≠ NaN → add a b = NaN ↔ opposite_infinities a b.
Proof.
  unfold opposite_infinities.
  destruct a as [| | |x], b as [| | |y]; cbn; intros Ha Hb; try done;
    try (split; [done|intros [[? ?]|[? ?]]; done]);
    try (split; [intros _; auto|done]).
  split; [intros H; by apply mkFin_not_NaN in H|].
  intros [[? ?]|[? ?]]; done.
Qed.

Lemma minutes_seconds_NaN (s : string) :
  minutes_seconds s = Some NaN ↔
  ∃ p0 p1, split ":" s = [p0; p1] ∧
           opposite_infinities (Number p0) (Number p1).
Proof.
  unfold minutes_seconds.
  destruct (split ":" s) as [|p0 [|p1 [|p2 l]]];
    try (split; [done|intros (? & ? & ? & _); done]).
  pose proof (in_range_Number p1) as Hr.
  split.
  - destruct (Number p0) as [| | |x] eqn:E0; try done;
      destruct (Number p1) as [| | |y] eqn:E1; try done; cbn;
      try (intros _; exists p0, p1; split; [done|];
           rewrite E0, E1; unfold opposite_infinities; by auto).
    + destruct (div_60_finite y Hr) as [q' Hq']. cbn in Hq'.
      by rewrite Hq'.
    + destruct (div_60_finite y Hr) as [q' Hq']. cbn in Hq'.
      by rewrite Hq'.
    + destruct (div_60_finite y Hr) as [q' Hq']. cbn in Hq'.
      rewrite Hq'. cbn. intros [= H]. by apply mkFin_not_NaN in H.
  - intros (q0 & q1 & [= <- <-] & [[-> ->]|[-> ->]]); done.
Qed.

(** X12: the normalizer can return [NaN], and does so in one case
    only: [focus_minutes] is not a finite number and [focus_duration]
    is a string of two colon-separated components that read as
    opposite infinities, as in ["Infinity:-Infinity"]. *)
Theorem parseFocusMinutes_NaN (b : body) :
  parseFocusMinutes b = NaN ↔
  (∀ q, focus_minutes b ≠ Num (Fin q)) ∧
  ∃ s p0 p1,
    focus_duration b = Str s ∧ split ":" s = [p0; p1] ∧
    opposite_infinities (Number p0) (Number p1).
Proof.
  unfold parseFocusMinutes. split.
  - destruct (finite_focus_minutes b) as [n|] eqn:Efm.
    { unfold finite_focus_minutes in Efm.
      destruct (focus_minutes b) as [| | |[| | |q]|]; try done.
      by injection Efm as <-. }
    intros H. split.
    { intros q Hq. unfold finite_focus_minutes in Efm. by rewrite Hq in Efm. }
    destruct (focus_duration b) as [| | | |s]; try done.
    destruct (minutes_seconds s) as [n|] eqn:Ems.
    + subst n. apply minutes_seconds_NaN in Ems as (p0 & p1 & Hs & Ho).
      by exists s, p0, p1.
    + unfold bare_number in H.
      by destruct (Number s) as [| | |q].
  - intros (Hfm & s & p0 & p1 & -> & Hs & Ho).
    rewrite (finite_focus_minutes_None b Hfm).
    assert (H : minutes_seconds s = Some NaN).
    { apply minutes_seconds_NaN. by exists p0, p1. }
    by rewrite H.
Qed.

(** X12 at the body [{focus_duration: "Infinity:-Infinity"}]. *)
Lemma parseFocusMinutes_NaN_witness :
  parseFocusMinutes (duration_only "Infinity:-Infinity") = NaN.
Proof.
  apply (parseFocusMinutes_NaN (duration_only "Infinity:-Infinity")).
  split.
  - intros q. simpl. discriminate.
  - exists "Infinity:-Infinity", "Infinity", "-Infinity".
    split; [reflexivity|]. split; [reflexivity|].
    left. split; by vm_compute.
Defined.

End NormalizerNaN.

(** ** The elapsed time, from the client to the server *)

Section ExactTime.

Import Protocol.

Lemma digits_from_cons (radix acc : Z) (count : nat) (c : ascii)
  (s : list ascii) (d : Z) :
  digit_value radix c = Some d →
  digits_from radix acc count (c :: s) =
    digits_from radix (acc * radix + d) (S count) s.
Proof. intros H. cbn. by rewrite H. Qed.

Lemma digits_from_uint (d : Decimal.uint) (acc count : nat) :
  ∃ c,
    digits_from 10 (Z.of_nat acc) count
      (String.list_ascii_of_string (NilEmpty.string_of_uint d)) =
    (Z.of_nat (Nat.of_uint_acc d acc), c, []).
Proof.
  revert acc count.
  induction d as [|d IH|d IH|d IH|d IH|d IH|d IH|d IH|d IH|d IH|d IH];
    intros acc count;
    cbn [String.list_ascii_of_string NilEmpty.string_of_uint
         Nat.of_uint_acc];
    [by eexists|..].
  all: erewrite digits_from_cons by (vm_compute; reflexivity).
  all: rewrite Nat.tail_mul_spec.
  all: match goal with
       | |- ∃ c, digits_from 10 ?z ?k _
                 = (Z.of_nat (Nat.of_uint_acc _ ?m), _, _) =>
           replace z with (Z.of_nat m) by lia; apply IH
       end.
Qed.

Lemma digits_from_zeros (k count : nat) (s : string) :
  digits_from 10 0 count
    (String.list_ascii_of_string (String.app (Client.repeat_char "0" k) s)) =
  digits_from 10 0 (k + count)
    (String.list_ascii_of_string s).
Proof.
  revert count. induction k as [|k IH]; intros count; [done|].
  change (String.list_ascii_of_string
            (String.app (Client.repeat_char "0" (S k)) s))
    with ("0"%char :: String.list_ascii_of_string
                        (String.app (Client.repeat_char "0" k) s)).
  rewrite (digits_from_cons 10 0 count "0" _ 0) by reflexivity.
  change (0 * 10 + 0)%Z with 0%Z. rewrite IH. f_equal. lia.
Qed.

Lemma digits_of_padded (n : nat) :
  ∃ c,
    digits 10 (String.list_ascii_of_string
                 (Client.padStart 2 "0" (Client.String_of_nat n))) =
    (Z.of_nat n, c, []).
Proof.
  unfold digits, Client.padStart. rewrite digits_from_zeros.
  unfold Client.String_of_nat, NilZero.string_of_uint.
  pose proof (Unsigned.of_to n) as Hn. unfold Nat.of_uint in Hn.
  destruct (Nat.to_uint n) as [|d|d|d|d|d|d|d|d|d|d] eqn:E.
  { cbn in Hn. subst n. by eexists. }
  all: rewrite <- Hn; apply (digits_from_uint _ 0).
Qed.

Lemma unsigned_decimal_value (cs : list ascii) (v : Z) (c : nat) :
  Forall (λ c, is_decimal_digit c = true) cs → cs ≠ [] →
  digits 10 cs = (v, c, []) →
  ∃ q, unsigned_decimal cs = Some (mkFin q) ∧ (q == inject_Z v)%Q.
Proof.
  intros H Hne Hd. unfold unsigned_decimal.
  destruct (decide (cs = _)) as [->|_].
  { apply Forall_cons in H as [H _]. by vm_compute in H. }
  destruct (digits_from_all 0 0 cs H) as (v' & Hv & _); [lia|].
  unfold digits in Hd |- *. rewrite Hd in Hv. injection Hv as _ ->.
  rewrite Hd. cbn.
  destruct cs as [|c0 cs']; [done|]. cbn.
  eexists. split; [done|]. unfold scale10.
  change (Qpower (10 # 1) (0 - 0)) with 1%Q.
  rewrite Qmult_1_r. by rewrite Z.mul_1_r, Z.add_0_r.
Qed.

Lemma Number_padded (n : nat) :
  ∃ q, Number (Client.padStart 2 "0" (Client.String_of_nat n)) = mkFin q ∧
       (q == inject_Z (Z.of_nat n))%Q.
Proof.
  destruct (padStart_digits n) as [H Hne].
  destruct (digits_of_padded n) as [c Hd].
  unfold Number. rewrite (trim_digits _ H).
  assert (Hcs : String.list_ascii_of_string
                  (Client.padStart 2 "0" (Client.String_of_nat n)) ≠ []).
  { intros E. by apply Hne, list_ascii_nil. }
  rewrite (non_decimal_literal_digits _ H), (decimal_literal_digits _ H).
  destruct (unsigned_decimal_value _ _ _ H Hcs Hd) as (q & -> & Hq).
  exists q. split; [|done].
  by destruct (String.list_ascii_of_string _).
Qed.

Lemma mkFin_Fin (q : Q) :
  (Qabs q < overflow_bound)%Q → mkFin q = Fin (Qred q).
Proof.
  intros H. unfold mkFin. apply Qle_bool_false in H. by rewrite H.
Qed.

Lemma Qabs_le_seconds (q : Q) (n : nat) :
  (0 <= q)%Q → (q <= inject_Z (Z.of_nat n))%Q →
  (inject_Z (Z.of_nat n) < overflow_bound)%Q →
  (Qabs q < overflow_bound)%Q.
Proof. intros H0 H1 H2. rewrite Qabs_pos by done. lra. Qed.

(** A body without [focus_minutes] whose [focus_duration] is the
    formatted time of [n] seconds is normalized to [n / 60]. *)
Lemma parse_formatTime (b : body) (n : nat) :
  focus_minutes b = Undefined →
  focus_duration b = Str (Client.formatTime n) →
  (inject_Z (Z.of_nat n) < overflow_bound)%Q →
  parseFocusMinutes b = Fin (Qred (Z.of_nat n # 60)).
Proof.
  intros Hfm Hfd Hrange.
  unfold parseFocusMinutes, finite_focus_minutes. rewrite Hfm, Hfd.
  destruct (padStart_digits (n / 60)) as [Hm _].
  destruct (padStart_digits (n mod 60)) as [Hs _].
  unfold minutes_seconds.
  rewrite formatTime_parts, (split_digits _ _ Hm), (split_digits_only _ Hs).
  destruct (Number_padded (n / 60)) as (qm & -> & Hqm).
  destruct (Number_padded (n mod 60)) as (qs & -> & Hqs).
  assert (Hzm : (0 <= Z.of_nat (n / 60))%Z) by lia.
  assert (Hzs : (0 <= Z.of_nat (n mod 60))%Z) by lia.
  assert (Hzn : Z.of_nat n
                = (60 * Z.of_nat (n / 60) + Z.of_nat (n mod 60))%Z).
  { pose proof (Nat.div_mod_eq n 60). lia. }
  set (zm := Z.of_nat (n / 60)) in *. set (zs := Z.of_nat (n mod 60)) in *.
  assert (Hn : (inject_Z (Z.of_nat n) == 60 * inject_Z zm + inject_Z zs)%Q).
  { rewrite Hzn, inject_Z_plus, inject_Z_mult. reflexivity. }
  assert (Hm0 : (0 <= inject_Z zm)%Q).
  { change 0%Q with (inject_Z 0). by rewrite <- Zle_Qle. }
  assert (Hs0 : (0 <= inject_Z zs)%Q).
  { change 0%Q with (inject_Z 0). by rewrite <- Zle_Qle. }
  rewrite (mkFin_Fin qm), (mkFin_Fin qs).
  2,3: apply (Qabs_le_seconds _ n); [lra | lra | done].
  cbn [Number_isNaN negb andb div].
  change (Qeq_bool 60 0) with false. cbn iota.
  rewrite (mkFin_Fin (Qred qs / 60)).
  2:{ apply (Qabs_le_seconds _ n); [| |done]; rewrite Qred_correct.
      - apply Qle_shift_div_l; lra.
      - apply Qle_shift_div_r; lra. }
  cbn [add]. rewrite mkFin_Fin.
  2:{ apply (Qabs_le_seconds _ n); [| |done]; rewrite !Qred_correct.
      - assert (0 <= qs / 60)%Q by (apply Qle_shift_div_l; lra). lra.
      - assert (qs / 60 <= inject_Z zs)%Q by (apply Qle_shift_div_r; lra).
        lra. }
  f_equal. apply Qred_complete. rewrite !Qred_correct.
  rewrite (Qmake_Qdiv (Z.of_nat n) 60), Hn, Hqm, Hqs.
  change (inject_Z (Z.pos 60)) with 60%Q. field.
Qed.

Lemma submitDailyCheckin_body (quizScore : string) (a : Client.app)
  (b : body) :
  CheckinForm.submitDailyCheckin quizScore a = Some b →
  student_id b = Some Client.STUDENT_ID ∧
  focus_minutes b = Undefined ∧
  focus_duration b = Str (Client.formatTime (Client.focusSecondsRef a)) ∧
  ∃ score, quiz_score b = Num (Fin score) ∧ (1 <= score)%Q ∧ (score <= 10)%Q.
Proof.
  unfold CheckinForm.submitDailyCheckin.
  destruct (String.eqb _ ""); [done|].
  destruct (Number _) as [| | |score]; try done. cbn.
  destruct (Qle_bool 1 score) eqn:E1; [|done].
  destruct (Qle_bool score 10) eqn:E2; [|done]. cbn.
  intros [= <-]. cbn. repeat split.
  exists score. split; [done|]. by split; apply Qle_bool_iff.
Qed.

Lemma Qred_inject_Z (z : Z) : Qred (inject_Z z) = inject_Z z.
Proof.
  unfold Qred, inject_Z.
  pose proof (Z.ggcd_gcd z 1) as Hg.
  pose proof (Z.ggcd_correct_divisors z 1) as Hd.
  destruct (Z.ggcd z 1) as [g [x y]]. cbn [fst snd] in Hg, Hd |- *.
  rewrite Z.gcd_1_r in Hg. subst g. destruct Hd as [Hx Hy].
  rewrite Z.mul_1_l in Hx, Hy. by subst.
Qed.

Lemma seconds_in_range (n : nat) :
  (Z.of_nat n < 2 ^ 32)%Z →
  (inject_Z (Z.of_nat n) < overflow_bound)%Q.
Proof.
  intros H. apply Qlt_trans with (inject_Z (2 ^ 32)).
  - by rewrite <- Zlt_Qlt.
  - by vm_compute.
Qed.

(** The padded decimal text of a number is read back as that number. *)
Lemma Number_padded_exact (n : nat) :
  (Z.of_nat n < 2 ^ 32)%Z →
  Number (Client.padStart 2 "0" (Client.String_of_nat n))
    = of_Z (Z.of_nat n).
Proof.
  intros Hn. destruct (Number_padded n) as (q & -> & Hq).
  rewrite mkFin_Fin.
  - unfold of_Z. f_equal. rewrite <- Qred_inject_Z. by apply Qred_complete.
  - apply (Qabs_le_seconds _ n); [| |by apply seconds_in_range].
    + rewrite Hq. change 0%Q with (inject_Z 0). rewrite <- Zle_Qle. lia.
    + rewrite Hq. apply Qle_refl.
Qed.

(** The sum that the normalizer forms from whole minutes and remaining
    seconds. *)
Lemma sum_of_parts (n : nat) :
  (Z.of_nat n < 2 ^ 32)%Z →
  add (of_Z (Z.of_nat (n / 60)))
      (div (of_Z (Z.of_nat (n mod 60))) (Fin 60))
    = Fin (Qred (Z.of_nat n # 60)).
Proof.
  intros Hn. pose proof (seconds_in_range n Hn) as Hr.
  assert (Hzm : (0 <= Z.of_nat (n / 60))%Z) by lia.
  assert (Hzs : (0 <= Z.of_nat (n mod 60))%Z) by lia.
  assert (Hzn : Z.of_nat n
                = (60 * Z.of_nat (n / 60) + Z.of_nat (n mod 60))%Z).
  { pose proof (Nat.div_mod_eq n 60). lia. }
  set (zm := Z.of_nat (n / 60)) in *. set (zs := Z.of_nat (n mod 60)) in *.
  assert (HQ : (inject_Z (Z.of_nat n) == 60 * inject_Z zm + inject_Z zs)%Q).
  { rewrite Hzn, inject_Z_plus, inject_Z_mult. reflexivity. }
  assert (Hm0 : (0 <= inject_Z zm)%Q).
  { change 0%Q with (inject_Z 0). by rewrite <- Zle_Qle. }
  assert (Hs0 : (0 <= inject_Z zs)%Q).
  { change 0%Q with (inject_Z 0). by rewrite <- Zle_Qle. }
  unfold of_Z. cbn [div]. change (Qeq_bool 60 0) with false. cbn iota.
  rewrite (mkFin_Fin (inject_Z zs / 60)).
  2:{ apply (Qabs_le_seconds _ n); [| |done].
      - apply Qle_shift_div_l; lra.
      - apply Qle_shift_div_r; lra. }
  cbn [add]. rewrite mkFin_Fin.
  2:{ apply (Qabs_le_seconds _ n); [| |done]; rewrite !Qred_correct.
      - assert (0 <= inject_Z zs / 60)%Q by (apply Qle_shift_div_l; lra).
        lra.
      - assert (inject_Z zs / 60 <= inject_Z zs)%Q
          by (apply Qle_shift_div_r; lra).
        lra. }
  f_equal. apply Qred_complete. rewrite !Qred_correct.
  rewrite (Qmake_Qdiv (Z.of_nat n) 60), HQ.
  change (inject_Z (Z.pos 60)) with 60%Q. field.
Qed.

Lemma round_of_seconds (n : nat) :
  Math_round (Fin (Qred (Z.of_nat n # 60)))
    = of_Z ((Z.of_nat n + 30) / 60).
Proof.
  cbn [Math_round]. f_equal.
  assert (H : (Qred (Z.of_nat n # 60) + (1 # 2) == (Z.of_nat n + 30) # 60)%Q).
  { rewrite Qred_correct. unfold Qeq, Qplus. cbn [Qnum Qden]. lia. }
  by rewrite (Qfloor_comp _ _ H).
Qed.

(** X13: the parts of the time survive the way from the client to the
    server.  For [n] elapsed seconds, [n] below [2^32], the text that
    [formatTime] builds splits at the colon into two components that
    [Number] reads back as exactly the whole minutes [n div 60] and the
    remaining seconds [n mod 60]; for a violation report and for a
    check-in built by the client, [parseFocusMinutes] returns the sum
    minutes + seconds/60 of these two numbers, and its [Math.round],
    which is what gets logged, is [n] seconds rounded to the nearest
    minute, [(n + 30) div 60]. *)
Theorem client_time_round_trip (n : nat) :
  (Z.of_nat n < 2 ^ 32)%Z →
  let minutes := of_Z (Z.of_nat (n / 60)) in
  let seconds := of_Z (Z.of_nat (n mod 60)) in
  let arrives (b : body) :=
    parseFocusMinutes b = add minutes (div seconds (Fin 60)) ∧
    Math_round (parseFocusMinutes b) = of_Z ((Z.of_nat n + 30) / 60) in
  (∃ part0 part1,
     split ":" (Client.formatTime n) = [part0; part1] ∧
     Number part0 = minutes ∧ Number part1 = seconds) ∧
  (∀ reason a,
     Client.focusSecondsRef a = n → arrives (Client.reportCheat reason a)) ∧
  (∀ quizScore a b,
     Client.focusSecondsRef a = n →
     CheckinForm.submitDailyCheckin quizScore a = Some b → arrives b).
Proof.
  intros Hn. cbn zeta.
  assert (Hm : (Z.of_nat (n / 60) < 2 ^ 32)%Z).
  { pose proof (Nat.div_mod_eq n 60). lia. }
  assert (Hs : (Z.of_nat (n mod 60) < 2 ^ 32)%Z).
  { pose proof (Nat.div_mod_eq n 60). lia. }
  assert (Hb : ∀ b, focus_minutes b = Undefined →
                    focus_duration b = Str (Client.formatTime n) →
    parseFocusMinutes b =
      add (of_Z (Z.of_nat (n / 60)))
          (div (of_Z (Z.of_nat (n mod 60))) (Fin 60)) ∧
    Math_round (parseFocusMinutes b) = of_Z ((Z.of_nat n + 30) / 60)).
  { intros b Hfm Hfd.
    rewrite (parse_formatTime b n Hfm Hfd (seconds_in_range n Hn)).
    split; [by rewrite sum_of_parts | apply round_of_seconds]. }
  split; [|split].
  - destruct (padStart_digits (n / 60)) as [Hdm _].
    destruct (padStart_digits (n mod 60)) as [Hds _].
    eexists _, _. split.
    + by rewrite formatTime_parts, (split_digits _ _ Hdm),
        (split_digits_only _ Hds).
    + split; by apply Number_padded_exact.
  - intros reason a Ha. apply Hb; [done|]. cbn. by rewrite Ha.
  - intros quizScore a b Ha Hsub.
    destruct (submitDailyCheckin_body _ _ _ Hsub) as (_ & Hfm & Hfd & _).
    apply Hb; [done|]. by rewrite Hfd, Ha.
Qed.

(** X13 for a violation after 330 seconds: 5.5 minutes, logged as 6. *)
Lemma client_time_round_trip_witness :
  let a := Client.run (Client.Start :: repeat Client.Tick 330)
                      Client.initial in
  parseFocusMinutes (Client.reportCheat "window blurred" a) =
    add (of_Z 5) (div (of_Z 30) (Fin 60)) ∧
  Math_round (parseFocusMinutes (Client.reportCheat "window blurred" a))
    = of_Z 6.
Proof.
  intros a.
  refine (proj1 (proj2 (client_time_round_trip 330 _))
            "window blurred" a _).
  - vm_compute. reflexivity.
  - vm_compute. reflexivity.
Defined.

(** X14: the check-in form posts only scores from 1 to 10, and the
    server then classifies the check-in as on track exactly when the
    score is above 7 and more than 3600 seconds have elapsed on the
    client's timer; such a body is never rejected as incomplete. *)
Theorem client_checkin_classified (quizScore : string) (a : Client.app)
  (b : body) :
  CheckinForm.submitDailyCheckin quizScore a = Some b →
  (inject_Z (Z.of_nat (Client.focusSecondsRef a)) < overflow_bound)%Q →
  ∃ score,
    quiz_score b = Num (Fin score) ∧ (1 <= score)%Q ∧ (score <= 10)%Q ∧
    ¬ missing_fields (DailyCheckin b) ∧
    (isSuccess (quiz_score b) (parseFocusMinutes b) = true ↔
       (7 < score)%Q ∧ (3600 < Client.focusSecondsRef a)%nat).
Proof.
  intros Hb Hr.
  destruct (submitDailyCheckin_body _ _ _ Hb)
    as (Hsid & Hfm & Hfd & score & Hq & H1 & H10).
  exists score. split; [done|]. split; [done|]. split; [done|]. split.
  - cbn. rewrite Hsid, Hq. unfold blank. intros [[H|H]|H]; done.
  - rewrite (parse_formatTime b _ Hfm Hfd Hr), Hq.
    unfold isSuccess, gt_number. cbn [ToNumber].
    rewrite andb_true_iff, !gtb_Fin, Qred_correct.
    unfold Qlt at 2. cbn [Qnum Qden]. split; intros [? ?]; split; try done; lia.
Qed.

(** X14 for the score [" 8 "] after 3601 seconds. *)
Lemma client_checkin_classified_witness :
  ∃ b, CheckinForm.submitDailyCheckin " 8 "
         (Client.run (Client.Start :: repeat Client.Tick 3601) Client.initial)
       = Some b ∧
       isSuccess (quiz_score b) (parseFocusMinutes b) = true.
Proof.
  set (a := Client.run (Client.Start :: repeat Client.Tick 3601)
                       Client.initial).
  destruct (CheckinForm.submitDailyCheckin " 8 " a) as [b|] eqn:Hb;
    [|by vm_compute in Hb].
  exists b. split; [reflexivity|].
  destruct (client_checkin_classified " 8 " a b Hb)
    as (score & Hq & _ & _ & _ & Hiff); [by vm_compute|].
  apply Hiff. vm_compute in Hb. injection Hb as <-.
  injection Hq as <-. split; [by vm_compute|].
  vm_compute. lia.
Defined.

End ExactTime.

(** ** The focus session over time *)

Section SessionFacts.

Import Protocol Session.

Lemma run_cons (x : Client.action) (xs : list Client.action)
  (a : Client.app) :
  Client.run (x :: xs) a = Client.run xs (Client.step a x).
Proof. reflexivity. Qed.

Lemma count_cons (f : Client.action → bool) (x : Client.action)
  (xs : list Client.action) :
  count f (x :: xs) = (if f x then 1 else 0) + count f xs.
Proof.
  unfold count. destruct (f x) eqn:E.
  - by rewrite filter_cons_True.
  - rewrite filter_cons_False; [done|]. by rewrite E.
Qed.

Lemma length_addActivityLog (msg : string) (log : list string) :
  (length (Client.addActivityLog msg log) ≤ 25)%nat.
Proof. unfold Client.addActivityLog. rewrite length_take. lia. Qed.

(** X15: the activity log never holds more than 25 entries, whatever
    the session goes through; a new entry comes first and, when the
    log is full, the oldest entry is dropped. *)
Theorem activity_log_bounded :
  (∀ xs a,
     (length (Client.activityLog a) ≤ 25)%nat →
     (length (Client.activityLog (Client.run xs a)) ≤ 25)%nat) ∧
  (∀ msg log, Client.addActivityLog msg log = msg :: take 24 log).
Proof.
  split; [|done].
  intros xs. induction xs as [|x xs IH]; intros a Ha; [done|].
  rewrite run_cons. apply IH.
  destruct x as [| | | |reason]; cbn [Client.step].
  - apply length_addActivityLog.
  - apply length_addActivityLog.
  - apply length_addActivityLog.
  - unfold Client.tick. by destruct (Client.isTimerRunning a).
  - unfold Client.handleFocusLoss.
    destruct (Client.isTimerRunningRef a); [|done].
    apply length_addActivityLog.
Qed.

(** X15 for a session of thirty starts. *)
Lemma activity_log_bounded_witness :
  (length (Client.activityLog
             (Client.run (repeat Client.Start 30) Client.initial)) ≤ 25)%nat.
Proof.
  apply (proj1 activity_log_bounded (repeat Client.Start 30) Client.initial).
  simpl. lia.
Defined.

(** X16: from the mounted component on, the refs that the handlers
    read mirror the state that is rendered (running flag and elapsed
    seconds), and whenever the violation flag is up the timer is
    stopped. *)
Theorem session_consistent (xs : list Client.action) :
  let a := Client.run xs Client.initial in
  Client.isTimerRunningRef a = Client.isTimerRunning a ∧
  Client.focusSecondsRef a = Client.focusSeconds a ∧
  (Client.focusViolation a = true → Client.isTimerRunning a = false).
Proof.
  cbn zeta.
  assert (H : ∀ a,
    (Client.isTimerRunningRef a = Client.isTimerRunning a ∧
     Client.focusSecondsRef a = Client.focusSeconds a ∧
     (Client.focusViolation a = true → Client.isTimerRunning a = false)) →
    Client.isTimerRunningRef (Client.run xs a)
      = Client.isTimerRunning (Client.run xs a) ∧
    Client.focusSecondsRef (Client.run xs a)
      = Client.focusSeconds (Client.run xs a) ∧
    (Client.focusViolation (Client.run xs a) = true →
       Client.isTimerRunning (Client.run xs a) = false)).
  { induction xs as [|x xs IH]; intros a Ha; [done|].
    rewrite run_cons. apply IH. destruct Ha as (H1 & H2 & H3).
    destruct x as [| | | |reason]; cbn [Client.step]; try done.
    - unfold Client.tick.
      destruct (Client.isTimerRunning a) eqn:E; cbn; [|by rewrite E].
      split; [done|]. split; [lia|]. intros Hv. apply H3 in Hv. congruence.
    - destruct (Client.isTimerRunningRef a) eqn:E.
      + unfold Client.handleFocusLoss. rewrite E. by cbn.
      + rewrite handleFocusLoss_idle by done.
        split; [congruence|]. by split. }
  by apply H.
Qed.

(** X17: the elapsed time is only zeroed by a reset.  Over actions
    without a reset it never decreases, a start included, and it grows
    by at most the number of ticks. *)
Theorem elapsed_time_monotone (xs : list Client.action) (a : Client.app) :
  count is_reset xs = 0 →
  (Client.focusSecondsRef a ≤ Client.focusSecondsRef (Client.run xs a))%nat ∧
  (Client.focusSecondsRef (Client.run xs a)
    ≤ Client.focusSecondsRef a + count is_tick xs)%nat.
Proof.
  revert a. induction xs as [|x xs IH]; intros a Hxs; [cbn; lia|].
  rewrite count_cons in Hxs. rewrite run_cons, count_cons.
  destruct (IH (Client.step a x)) as [IH1 IH2]; [lia|].
  assert (Hx : (Client.focusSecondsRef a
                ≤ Client.focusSecondsRef (Client.step a x))%nat ∧
               (Client.focusSecondsRef (Client.step a x)
                ≤ Client.focusSecondsRef a
                  + (if is_tick x then 1 else 0))%nat).
  { destruct x as [| | | |reason]; cbn in *; try lia.
    - unfold Client.tick. destruct (Client.isTimerRunning a); cbn; lia.
    - unfold Client.handleFocusLoss.
      destruct (Client.isTimerRunningRef a); cbn; lia. }
  lia.
Qed.

(** X17 for a start, two ticks, a stop and a new start. *)
Lemma elapsed_time_monotone_witness :
  (0 ≤ Client.focusSecondsRef
         (Client.run [Client.Start; Client.Tick; Client.Tick; Client.Stop;
                      Client.Start] Client.initial))%nat.
Proof.
  refine (proj1 (elapsed_time_monotone
    [Client.Start; Client.Tick; Client.Tick; Client.Stop; Client.Start]
    Client.initial _)).
  reflexivity.
Defined.

Lemma reportCheat_client_report (reason : string) (a : Client.app) :
  client_report (Client.reportCheat reason a).
Proof. by exists reason, (Client.focusSecondsRef a). Qed.

(** X18: during a session the client posts at most one violation
    report per start, plus one if the session was already running.
    Every report it posts names the student, carries a formatted time
    and a reason, and is never rejected by the server as incomplete. *)
Theorem reports_bounded_and_complete (xs : list Client.action)
  (a : Client.app) :
  Forall client_report (Client.posted a) →
  (length (Client.posted (Client.run xs a))
    ≤ length (Client.posted a)
      + (if Client.isTimerRunningRef a then 1 else 0)
      + count Client.is_start xs)%nat ∧
  Forall (λ b, client_report b ∧ ¬ missing_fields (ReportCheat b))
         (Client.posted (Client.run xs a)).
Proof.
  revert a. induction xs as [|x xs IH]; intros a Ha.
  { split; [cbn; lia|]. eapply Forall_impl; [exact Ha|].
    intros b (reason & n & ->). split; [by exists reason, n|].
    cbn. unfold blank. intros [H|H]; done. }
  rewrite run_cons, count_cons.
  assert (Hx : Forall client_report (Client.posted (Client.step a x)) ∧
    (length (Client.posted (Client.step a x))
     + (if Client.isTimerRunningRef (Client.step a x) then 1 else 0)
     ≤ length (Client.posted a)
       + (if Client.isTimerRunningRef a then 1 else 0)
       + (if Client.is_start x then 1 else 0))%nat).
  { destruct x as [| | | |reason]; cbn.
    - split; [done|]. destruct (Client.isTimerRunningRef a); lia.
    - split; [done|]. destruct (Client.isTimerRunningRef a); lia.
    - split; [done|]. destruct (Client.isTimerRunningRef a); lia.
    - unfold Client.tick.
      destruct (Client.isTimerRunning a); cbn; split; try done; lia.
    - unfold Client.handleFocusLoss.
      destruct (Client.isTimerRunningRef a) eqn:E; cbn.
      + split; [|rewrite length_app; cbn; lia].
        apply Forall_app. split; [done|].
        apply Forall_singleton, reportCheat_client_report.
      + rewrite E. split; [done|lia]. }
  destruct Hx as [Hx1 Hx2].
  destruct (IH (Client.step a x) Hx1) as [IH1 IH2].
  split; [lia|done].
Qed.

(** X18 for a session with one start and three focus-loss signals. *)
Lemma reports_bounded_and_complete_witness :
  (length (Client.posted
             (Client.run [Client.Start; Client.FocusLoss "window hidden";
                          Client.FocusLoss "window blurred";
                          Client.FocusLoss "app backgrounded"]
                         Client.initial)) ≤ 1)%nat.
Proof.
  refine (proj1 (reports_bounded_and_complete
    [Client.Start; Client.FocusLoss "window hidden";
     Client.FocusLoss "window blurred"; Client.FocusLoss "app backgrounded"]
    Client.initial _)).
  simpl. constructor.
Defined.

End SessionFacts.

(** ** The serverless entry point *)

Section EntryPoint.

Variable bootstrap_ok : nat → bool.

Lemma handle_all_cons (req : nat) (reqs : list nat) (rt : Entry.runtime) :
  Entry.handle_all bootstrap_ok (req :: reqs) rt =
    Entry.handle_all bootstrap_ok reqs (Entry.handler bootstrap_ok rt req).
Proof. reflexivity. Qed.

Lemma handler_warm (req : nat) (rt : Entry.runtime) :
  Entry.bootstrapPromise rt = Some true → Entry.server rt = true →
  Entry.handler bootstrap_ok rt req =
    {| Entry.bootstrapPromise := Some true; Entry.server := true;
       Entry.bootstrap_calls := Entry.bootstrap_calls rt;
       Entry.servers_created := Entry.servers_created rt;
       Entry.forwarded := Entry.forwarded rt ++ [req] |}.
Proof.
  intros Hp Hs. unfold Entry.handler, Entry.ensureServer.
  rewrite Hp. cbn. rewrite Hp, Hs. cbn. by rewrite Hp, Hs.
Qed.

(** Once the promise is fulfilled and the server exists, a request is
    handed over and nothing else changes. *)
Lemma handle_all_warm (reqs : list nat) (rt : Entry.runtime) :
  Entry.bootstrapPromise rt = Some true → Entry.server rt = true →
  Entry.handle_all bootstrap_ok reqs rt =
    {| Entry.bootstrapPromise := Some true; Entry.server := true;
       Entry.bootstrap_calls := Entry.bootstrap_calls rt;
       Entry.servers_created := Entry.servers_created rt;
       Entry.forwarded := Entry.forwarded rt ++ reqs |}.
Proof.
  revert rt. induction reqs as [|req reqs IH]; intros rt Hp Hs.
  - destruct rt. cbn in *. subst. by rewrite app_nil_r.
  - rewrite handle_all_cons, (handler_warm req rt Hp Hs).
    rewrite IH by done. cbn. by rewrite <- app_assoc.
Qed.

Lemma handler_failed (req : nat) (rt : Entry.runtime) :
  Entry.bootstrapPromise rt = Some false →
  Entry.handler bootstrap_ok rt req = rt.
Proof.
  intros Hp. unfold Entry.handler, Entry.ensureServer.
  rewrite Hp. cbn. by rewrite Hp.
Qed.

(** Once the promise is rejected, no request changes anything. *)
Lemma handle_all_failed (reqs : list nat) (rt : Entry.runtime) :
  Entry.bootstrapPromise rt = Some false →
  Entry.handle_all bootstrap_ok reqs rt = rt.
Proof.
  intros Hp. induction reqs as [|req reqs IH]; [done|].
  by rewrite handle_all_cons, handler_failed.
Qed.

(** X19: whatever the number of requests that reach a cold instance,
    [bootstrap()] is called once and at most one server is created.
    When that one call succeeds, every request is handed to the server,
    in order; when it fails, the rejected promise is kept, so that no
    request is ever handed over and [bootstrap()] is never tried
    again. *)
Theorem bootstrap_once (reqs : list nat) :
  reqs ≠ [] →
  let rt := Entry.handle_all bootstrap_ok reqs Entry.cold in
  Entry.bootstrap_calls rt = 1 ∧
  Entry.servers_created rt = (if bootstrap_ok 0 then 1 else 0) ∧
  Entry.forwarded rt = (if bootstrap_ok 0 then reqs else []).
Proof.
  destruct reqs as [|req reqs]; [done|]. intros _. cbn zeta.
  rewrite handle_all_cons.
  unfold Entry.handler, Entry.ensureServer. cbn.
  destruct (bootstrap_ok 0) eqn:E; cbn.
  - by rewrite handle_all_warm.
  - by rewrite handle_all_failed.
Qed.

End EntryPoint.

(** X19 for three requests on an instance whose [bootstrap()] fails. *)
Lemma bootstrap_once_witness :
  Entry.bootstrap_calls
    (Entry.handle_all (λ _, false) [1; 2; 3] Entry.cold) = 1.
Proof.
  refine (proj1 (bootstrap_once (λ _, false) [1; 2; 3] _)).
  discriminate.
Defined.

(** ** A violation during remediation *)

Section ViolationDuringRemediation.

(** X22: a violation report that the store takes puts an existing
    student into [needs_intervention] from any state, [remedial]
    included, and leaves every intervention as it was, a pending one
    still pending.  The row it logs has score 0, the rounded focus
    minutes and, as status, the reason, or ["cheated"] when the reason
    is absent or empty. *)
Theorem report_overrides_any_state (e : env) (b : body) (s : store)
  (sid : string) (stu : student) :
  present (student_id b) = Some sid →
  students s !! sid = Some stu →
  query_fails e 0 = false → query_fails e 1 = false →
  student_state (store_after (reportCheat e b) s) sid
    = Some "needs_intervention" ∧
  interventions (store_after (reportCheat e b) s) = interventions s ∧
  daily_logs (store_after (reportCheat e b) s) =
    (daily_logs s ++
     [{| log_student_id := sid; log_quiz_score := Num (Fin 0);
         log_focus_minutes := Math_round (parseFocusMinutes b);
         log_status :=
           match reason b with
           | None | Some "" => "cheated"
           | Some why => why
           end |}])%list.
Proof.
  intros Hsid Hstu H0 H1. unfold store_after.
  rewrite (reportCheat_logged e b s sid Hsid H0 H1). cbn [fst snd].
  split; [by apply (state_after_update _ _ _ _ stu)|]. split; [done|].
  unfold apply_sql. cbn. do 3 f_equal. unfold or_else.
  destruct (reason b) as [[|c why]|]; done.
Qed.

(** X22 for a remedial student with a pending intervention. *)
Lemma report_overrides_any_state_witness :
  let before :=
    store_after
      (assignIntervention Scenario.calm (Scenario.assign "s1" "Essay"))
      (Scenario.classroom "needs_intervention") in
  student_state
    (store_after
       (reportCheat Scenario.calm (Scenario.report "s1" "00:10" ""))
       before) "s1" = Some "needs_intervention".
Proof.
  intros before.
  refine (proj1
    (report_overrides_any_state Scenario.calm
       (Scenario.report "s1" "00:10" "") before "s1"
       {| status := "remedial"; updated_at := 100 |} _ _ _ _));
    reflexivity.
Defined.

End ViolationDuringRemediation.

(** ** Where errors come from *)

Section ErrorCodes.

Import Protocol.

Ltac request_cases e r s :=
  let H := fresh "H" in
  destruct r as [b|b|b|b]; cbn [serve];
  [ destruct (dailyCheckin_cases e b s)
      as [[Hm H]|(sid' & Hsid & Hscore & [H|[[st H]|[H|[w H]]]])]
  | destruct (reportCheat_cases e b s)
      as [[Hm H]|(sid' & Hsid & [H|[H|(j & p' & H & Hp)]])]
  | destruct (assignIntervention_cases e b s)
      as [[Hm H]|(sid' & task & Hsid & Htask & [H|[H|(p' & H & Hp)]])]
  | destruct (completeIntervention_cases e b s)
      as [[Hm H]|(sid' & iid & Hsid & Hiid & [H|[H|[H|(p' & H & Hp)]]])] ];
  unfold response_of, effects_of; rewrite H; cbn [fst snd].

Lemma no_rejected_statement (l : list event) :
  Forall (λ ev, match ev with Query _ false => False | _ => True end) l →
  ¬ ∃ q, Query q false ∈ l.
Proof.
  intros Hl [q Hq]. rewrite Forall_forall in Hl. by apply (Hl _ Hq).
Qed.

(** X21: a request to one of the four writing endpoints that carries
    a parsed body is answered with 200, 400, 404 or 500: an exception
    that the store or the notification transport raises never escapes
    the handler.  The answer is 500 exactly when the store rejected a
    statement of the request, so a failing notification alone never
    gives an error; among the four, 404 is only the answer to a
    completion.  The status endpoint answers 200, 404 or 500, and 500
    exactly when the store rejected one of its reads. *)
Theorem errors_come_from_the_store (e : env) (r : request) (s : store) :
  (∃ resp,
     response_of (serve e r) s = Return resp ∧
     code resp ∈ [200; 400; 404; 500] ∧
     (code resp = 500 ↔ ∃ q, Query q false ∈ effects_of (serve e r) s) ∧
     (code resp = 404 → ∃ b, r = CompleteIntervention b)) ∧
  (∀ sid,
     ∃ resp,
       Status.status_of e sid s = Return resp ∧
       Status.status_code resp ∈ [200; 404; 500] ∧
       (Status.status_code resp = 500 ↔
          query_fails e 0 = true ∨
          (is_Some (students s !! sid) ∧ query_fails e 1 = true))).
Proof.
  split.
  - request_cases e r s; eexists; (split; [reflexivity|]); cbn [code].
    all: split; [repeat first [by left | right]|].
    all: split; [|first [done | by eexists]].
    all: split; first [done | intros _; eexists; repeat first [by left | right]
                      | intros HF; exfalso; revert HF;
                        apply no_rejected_statement; by repeat constructor].
  - intros sid.
    unfold Status.status_of, Status.getStudentStatus, try_catch, bind,
      Status.getQuery, ret, Status.select_student,
      Status.select_latest_intervention. cbn.
    destruct (query_fails e 0) eqn:H0; cbn.
    { eexists. split; [done|]. cbn. split; [by right; right; left|].
      split; [by left|done]. }
    destruct (students s !! sid) as [stu|] eqn:Hs; cbn.
    2:{ eexists. split; [done|]. cbn. split; [by right; left|].
        split; [done|]. intros [H|[[x Hx] _]]; done. }
    destruct (query_fails e 1) eqn:H1; cbn.
    + eexists. split; [done|]. cbn. split; [by right; right; left|].
      split; [|done]. intros _. right. by split; [eexists|].
    + eexists. split; [done|]. cbn. split; [by left|].
      split; [done|]. intros [H|[_ H]]; done.
Qed.

End ErrorCodes.

(** X21 for a completion of an intervention that does not exist. *)
Lemma errors_come_from_the_store_witness :
  ∃ resp,
    response_of
      (serve Scenario.calm (CompleteIntervention (Scenario.complete "s1" 7)))
      Scenario.after_completion = Return resp ∧
    code resp ∈ [200; 400; 404; 500].
Proof.
  destruct (errors_come_from_the_store Scenario.calm
              (CompleteIntervention (Scenario.complete "s1" 7))
              Scenario.after_completion)
    as [(resp & Hresp & Hcode & _) _].
  exists resp. split; [exact Hresp | exact Hcode].
Defined.

(** X16 for a session that is started and then loses focus. *)
Lemma session_consistent_witness :
  Client.isTimerRunningRef
    (Client.run [Client.Start; Client.FocusLoss "window blurred"]
                Client.initial) =
  Client.isTimerRunning
    (Client.run [Client.Start; Client.FocusLoss "window blurred"]
                Client.initial).
Proof.
  exact (proj1 (session_consistent
                  [Client.Start; Client.FocusLoss "window blurred"])).
Defined.
